(** * Azure cost report (main2.py): a shallow embedding and its properties

    The embedding follows [main2.py] function by function.  Python values are
    modelled as the interpreter has them:

    - numbers are Python [int]s (unbounded, [Z]) or [float]s (IEEE binary64,
      Rocq's primitive floats, the very operations the interpreter runs);
      mixed arithmetic converts the [int] operand, and raises [OverflowError]
      when it does not fit;
    - a response has the shape of the API's: its columns are objects with
      a name and its rows are lists of JSON scalars (numbers, strings and
      null); a row can be of any length and a cell of any of these types:
      indexing past the end of a row, calling [.lower()] on a non-string
      and adding a non-number raise [IndexError], [AttributeError] and
      [TypeError];
    - strings are strings of bytes, and [str.lower()] and [str.upper()]
      are modelled on ASCII text, where they change the 26 letters only.

    The module's top level (the check of the environment, the token
    exchange) and the prompt of the main block take what they read as
    parameters: the environment, the answer of the identity provider, the
    conversion [int] and the lines of standard input.

    The interpreter's recursion limit is a parameter of the fetchers, which
    call themselves: the number of nested calls that are still allowed.
    The clock is read several times by a function; the module [Clock] has
    the readings apart, and the other definitions are the functions on a
    run within one calendar day.

    Not modelled: the interpreter's memory, the calendar's range (years 1 to
    9999), JSON of another shape than the API's (columns without a name,
    rows or cells that are objects or lists), text outside ASCII, the
    layout that [tabulate] and [python-docx] give to a table (a table is
    its headers and its rows of cells), and [set_cell_border], which
    nothing calls and which only edits the XML of a table cell. *)

From Stdlib Require Import ZArith List String Ascii Bool Lia Floats Permutation.
From Stdlib Require Import DecimalString.
Import ListNotations.

Set Warnings "-inexact-float".

Local Open Scope string_scope.
Local Open Scope list_scope.
Local Open Scope Z_scope.

(** ** Exceptions and results *)

Inductive exn : Set :=
| IndexError
| TypeError
| AttributeError
| OverflowError
| ZeroDivisionError
| ValueError
| KeyError
| HTTPError
| Timeout
| ConnectionError
| RecursionError.

Inductive res (A : Type) : Type :=
| Ok (a : A)
| Raise (e : exn).

Arguments Ok {A} a.
Arguments Raise {A} e.

Definition bind {A B : Type} (m : res A) (k : A -> res B) : res B :=
  match m with
  | Ok a => k a
  | Raise e => Raise e
  end.

Notation "x <- m ;; k" := (bind m (fun x => k))
  (at level 61, m at next level, right associativity).

(** ** Python numbers *)

Inductive pynum : Set :=
| PyInt (z : Z)
| PyFloat (f : float).

Definition Z2SF (z : Z) : spec_float :=
  match z with
  | Z0 => S754_zero false
  | Zpos p => S754_finite false p 0
  | Zneg p => S754_finite true p 0
  end.

(** [float(z)]: the nearest binary64 value (ties to even), [OverflowError]
    when [z] is too large. *)
Definition float_of_int (z : Z) : res float :=
  match binary_normalize prec emax z 0 false with
  | S754_infinity _ => Raise OverflowError
  | sf => Ok (SF2Prim sf)
  end.

Definition to_float (x : pynum) : res float :=
  match x with
  | PyInt z => float_of_int z
  | PyFloat f => Ok f
  end.

Definition float_binop (op : float -> float -> float) (a b : pynum) : res pynum :=
  x <- to_float a ;; y <- to_float b ;; Ok (PyFloat (op x y)).

(** [a + b] *)
Definition py_add (a b : pynum) : res pynum :=
  match a, b with
  | PyInt x, PyInt y => Ok (PyInt (x + y))
  | _, _ => float_binop PrimFloat.add a b
  end.

(** [a - b] *)
Definition py_sub (a b : pynum) : res pynum :=
  match a, b with
  | PyInt x, PyInt y => Ok (PyInt (x - y))
  | _, _ => float_binop PrimFloat.sub a b
  end.

(** [a * b] *)
Definition py_mul (a b : pynum) : res pynum :=
  match a, b with
  | PyInt x, PyInt y => Ok (PyInt (x * y))
  | _, _ => float_binop PrimFloat.mul a b
  end.

(** [a == 0] *)
Definition py_eq0 (a : pynum) : bool :=
  match a with
  | PyInt z => z =? 0
  | PyFloat f => PrimFloat.eqb f PrimFloat.zero
  end.

(** [a > 0] *)
Definition py_gt0 (a : pynum) : bool :=
  match a with
  | PyInt z => 0 <? z
  | PyFloat f => PrimFloat.ltb PrimFloat.zero f
  end.

(** [a / b]: true division.  Two [int]s give the correctly rounded quotient
    ([OverflowError] when it does not fit); otherwise the [int] operand is
    converted and the floats are divided. *)
Definition py_truediv (a b : pynum) : res pynum :=
  if py_eq0 b then Raise ZeroDivisionError
  else
    match a, b with
    | PyInt x, PyInt y =>
        match SFdiv prec emax (Z2SF x) (Z2SF y) with
        | S754_infinity _ => Raise OverflowError
        | sf => Ok (PyFloat (SF2Prim sf))
        end
    | _, _ => float_binop PrimFloat.div a b
    end.

(** ** Formatting: the [.2f] and [+.2f] format specifications *)

Definition round_half_even_div (n d : Z) : Z :=
  let q := n / d in
  match (2 * (n mod d)) ?= d with
  | Lt => q
  | Gt => q + 1
  | Eq => if Z.even q then q else q + 1
  end.

(** The value [m * 2^e] in hundredths, rounded to the nearest integer, ties
    to even. *)
Definition hundredths (m : positive) (e : Z) : Z :=
  if 0 <=? e then Zpos m * 2 ^ e * 100
  else round_half_even_div (Zpos m * 100) (2 ^ (- e)).

Definition decimal (n : Z) : string :=
  NilZero.string_of_uint (N.to_uint (Z.to_N n)).

Definition fixed2 (h : Z) : string :=
  (decimal (h / 100) ++ "." ++ decimal ((h / 10) mod 10) ++ decimal (h mod 10))%string.

Definition sign_prefix (plus negative : bool) : string :=
  if negative then "-" else if plus then "+" else "".

Definition format_float_2f (plus : bool) (f : float) : string :=
  match Prim2SF f with
  | S754_nan => (sign_prefix plus false ++ "nan")%string
  | S754_infinity s => (sign_prefix plus s ++ "inf")%string
  | S754_zero s => (sign_prefix plus s ++ "0.00")%string
  | S754_finite s m e => (sign_prefix plus s ++ fixed2 (hundredths m e))%string
  end.

(** [format(x, '.2f')] and [format(x, '+.2f')]: an [int] is converted to a
    float first. *)
Definition format_2f (plus : bool) (x : pynum) : res string :=
  f <- to_float x ;; Ok (format_float_2f plus f).

(** ** Strings: [str.lower()] and the [in] operator *)

Definition lower_ascii (c : ascii) : ascii :=
  let n := nat_of_ascii c in
  if andb (Nat.leb 65 n) (Nat.leb n 90) then ascii_of_nat (n + 32) else c.

Fixpoint lower (s : string) : string :=
  match s with
  | EmptyString => EmptyString
  | String c rest => String (lower_ascii c) (lower rest)
  end.

(** [needle in hay] *)
Fixpoint contains (needle hay : string) : bool :=
  if String.prefix needle hay then true
  else
    match hay with
    | EmptyString => false
    | String _ rest => contains needle rest
    end.

(** ** Response rows *)

(** A JSON scalar as [response.json()] decodes it ([true] and [false] decode
    to [bool], an [int] that behaves as 1 and 0 here). *)
Inductive cell : Set :=
| CNull
| CInt (z : Z)
| CFloat (f : float)
| CStr (s : string).

Definition row : Set := list cell.

(** [row[i]] for [i >= 0] *)
Definition item (r : row) (i : nat) : res cell :=
  match nth_error r i with
  | Some c => Ok c
  | None => Raise IndexError
  end.

(** ** Categories and the per-day breakdown *)

Inductive category : Set :=
| Databricks
| VirtualMachine
| Storage
| Others.

Definition category_eqb (a b : category) : bool :=
  match a, b with
  | Databricks, Databricks
  | VirtualMachine, VirtualMachine
  | Storage, Storage
  | Others, Others => true
  | _, _ => false
  end.

(** The dict key of a category, also its column header. *)
Definition category_name (k : category) : string :=
  match k with
  | Databricks => "Databricks"
  | VirtualMachine => "Virtual Machine"
  | Storage => "Storage"
  | Others => "Others"
  end.

(** The [costs] dict: its four keys are fixed. *)
Record costs : Set := mkCosts {
  c_databricks : pynum;
  c_vm : pynum;
  c_storage : pynum;
  c_others : pynum
}.

(** [costs[category]] *)
Definition costs_get (c : costs) (k : category) : pynum :=
  match k with
  | Databricks => c_databricks c
  | VirtualMachine => c_vm c
  | Storage => c_storage c
  | Others => c_others c
  end.

(** [costs[category] = v] *)
Definition costs_set (c : costs) (k : category) (v : pynum) : costs :=
  match k with
  | Databricks => mkCosts v (c_vm c) (c_storage c) (c_others c)
  | VirtualMachine => mkCosts (c_databricks c) v (c_storage c) (c_others c)
  | Storage => mkCosts (c_databricks c) (c_vm c) v (c_others c)
  | Others => mkCosts (c_databricks c) (c_vm c) (c_storage c) v
  end.

Definition zero_costs : costs :=
  mkCosts (PyInt 0) (PyInt 0) (PyInt 0) (PyInt 0).

(** ** process_cost_data *)

(** [row[2].lower() if len(row) > 2 else ''] *)
Definition resource_type_of (r : row) : res string :=
  if (2 <? Z.of_nat (List.length r)) then
    c <- item r 2 ;;
    match c with
    | CStr s => Ok (lower s)
    | _ => Raise AttributeError
    end
  else Ok "".

(** The [if]/[elif] chain over the lower-cased resource type. *)
Definition categorize (resource_type : string) : category :=
  if orb (contains "databricks/workspaces" resource_type)
         (contains "databricks/workspace" resource_type) then Databricks
  else if orb (contains "compute/virtualmachines" resource_type)
              (contains "microsoft.compute/virtualmachines" resource_type) then VirtualMachine
  else if orb (contains "storage/storageaccounts" resource_type)
              (contains "microsoft.storage/storageaccounts" resource_type) then Storage
  else Others.

(** [acc += cost] for a cell [cost] *)
Definition add_cell (acc : pynum) (cost : cell) : res pynum :=
  match cost with
  | CInt z => py_add acc (PyInt z)
  | CFloat f => py_add acc (PyFloat f)
  | CNull | CStr _ => Raise TypeError
  end.

(** One iteration of the loop over [raw_data]. *)
Definition add_row (c : costs) (r : row) : res costs :=
  cost <- item r 0 ;;
  resource_type <- resource_type_of r ;;
  let k := categorize resource_type in
  v <- add_cell (costs_get c k) cost ;;
  Ok (costs_set c k v).

Fixpoint process_rows (c : costs) (raw_data : list row) : res costs :=
  match raw_data with
  | [] => Ok c
  | r :: rest => c' <- add_row c r ;; process_rows c' rest
  end.

Definition process_cost_data (raw_data : list row) : res costs :=
  process_rows zero_costs raw_data.

(** ** Dates

    A date is its proleptic Gregorian ordinal (day 1 is 0001-01-01), as
    [datetime] keeps it; [now - timedelta(days=k)] is [now - k]. *)

Definition days_in_month (month : Z) (leapyear : bool) : Z :=
  match month with
  | 2 => if leapyear then 29 else 28
  | 4 | 6 | 9 | 11 => 30
  | _ => 31
  end.

Definition days_before_month (month : Z) (leapyear : bool) : Z :=
  match month with
  | 1 => 0
  | 2 => 31
  | 3 => 59
  | 4 => 90
  | 5 => 120
  | 6 => 151
  | 7 => 181
  | 8 => 212
  | 9 => 243
  | 10 => 273
  | 11 => 304
  | _ => 334
  end + (if andb (2 <? month) leapyear then 1 else 0).

(** The standard library's ordinal to (year, month, day). *)
Definition ord2ymd (ordinal : Z) : Z * Z * Z :=
  let n := ordinal - 1 in
  let n400 := n / 146097 in
  let n := n mod 146097 in
  let n100 := n / 36524 in
  let n := n mod 36524 in
  let n4 := n / 1461 in
  let n := n mod 1461 in
  let n1 := n / 365 in
  let n := n mod 365 in
  let year := n400 * 400 + 1 + n100 * 100 + n4 * 4 + n1 in
  if orb (n1 =? 4) (n100 =? 4) then (year - 1, 12, 31)
  else
    let leapyear := andb (n1 =? 3) (orb (negb (n4 =? 24)) (n100 =? 3)) in
    let month := Z.shiftr (n + 50) 5 in
    let preceding := days_before_month month leapyear in
    if n <? preceding then
      let month' := month - 1 in
      let preceding' := preceding - days_in_month month' leapyear in
      (year, month', n - preceding' + 1)
    else (year, month, n - preceding + 1).

(** [int(date.strftime('%Y%m%d'))] *)
Definition date_key (d : Z) : Z :=
  let '(y, m, dd) := ord2ymd d in y * 10000 + m * 100 + dd.

Definition two_digits (n : Z) : string :=
  (decimal (n / 10) ++ decimal (n mod 10))%string.

(** [date.strftime('%m/%d')] *)
Definition date_str (d : Z) : string :=
  let '(_, m, dd) := ord2ymd d in (two_digits m ++ "/" ++ two_digits dd)%string.

(** [date.strftime('%A')] *)
Definition weekday_name (d : Z) : string :=
  match (d + 6) mod 7 with
  | 0 => "Monday"
  | 1 => "Tuesday"
  | 2 => "Wednesday"
  | 3 => "Thursday"
  | 4 => "Friday"
  | 5 => "Saturday"
  | _ => "Sunday"
  end.

(** ** parse_range_response *)

(** One entry of [properties.columns]. *)
Record column : Set := mkColumn { col_name : string }.

(** The [properties] object of a response body: its [rows] and [columns]
    members when present, and whether it has any other member. *)
Record properties : Set := mkProperties {
  p_rows : option (list row);
  p_columns : option (list column);
  p_other_members : bool
}.

(** [not response_data] for a dict: it has no member. *)
Definition dict_is_empty (p : properties) : bool :=
  match p_rows p, p_columns p with
  | None, None => negb (p_other_members p)
  | _, _ => false
  end.

(** [next((i for i, col in enumerate(columns) if col['name'] == wanted), default)] *)
Fixpoint first_index (wanted : string) (columns : list column) (i : nat) : option nat :=
  match columns with
  | [] => None
  | col :: rest =>
      if String.eqb (col_name col) wanted then Some i
      else first_index wanted rest (S i)
  end.

Definition column_index (columns : list column) (wanted : string) (default : nat) : nat :=
  match first_index wanted columns 0 with
  | Some i => i
  | None => default
  end.

(** Whether a float holds exactly the integer [z]. *)
Definition float_is_int (f : float) (z : Z) : bool :=
  match Prim2SF f with
  | S754_zero _ => z =? 0
  | S754_finite s m e =>
      let v := if s then Zneg m else Zpos m in
      if 0 <=? e then z =? v * 2 ^ e
      else andb (v mod 2 ^ (- e) =? 0) (z =? v / 2 ^ (- e))
  | _ => false
  end.

(** Equality of dict keys: [==], and the one [NaN] object that [json] hands
    out is the same key as itself. *)
Definition key_eqb (a b : cell) : bool :=
  match a, b with
  | CNull, CNull => true
  | CInt x, CInt y => x =? y
  | CStr s, CStr t => String.eqb s t
  | CFloat f, CFloat g => orb (PrimFloat.eqb f g) (andb (is_nan f) (is_nan g))
  | CInt x, CFloat f | CFloat f, CInt x => float_is_int f x
  | _, _ => false
  end.

(** [daily_data]: the rows of each date key, keys in insertion order. *)
Definition daily : Set := list (cell * list row).

(** [if date not in daily_data: daily_data[date] = []] followed by
    [daily_data[date].append(row)]. *)
Fixpoint append_row (daily_data : daily) (date : cell) (r : row) : daily :=
  match daily_data with
  | [] => [(date, [r])]
  | (k, rows) :: rest =>
      if key_eqb k date then (k, rows ++ [r]) :: rest
      else (k, rows) :: append_row rest date r
  end.

(** [daily_data.get(date_key, [])] *)
Fixpoint daily_get (daily_data : daily) (date_key : Z) : list row :=
  match daily_data with
  | [] => []
  | (k, rows) :: rest =>
      if key_eqb k (CInt date_key) then rows else daily_get rest date_key
  end.

Fixpoint group_rows (date_idx : nat) (daily_data : daily) (rows : list row) : res daily :=
  match rows with
  | [] => Ok daily_data
  | r :: rest =>
      date <- item r date_idx ;;
      group_rows date_idx (append_row daily_data date r) rest
  end.

(** The three indices the function computes; only [date_idx] is used. *)
Definition cost_idx (columns : list column) : nat := column_index columns "Cost" 0.
Definition date_idx (columns : list column) : nat := column_index columns "UsageDate" 1.
Definition resource_idx (columns : list column) : nat := column_index columns "ResourceType" 2.

Definition parse_range_response (response_data : properties) : res daily :=
  if dict_is_empty response_data then Ok []
  else
    match p_rows response_data with
    | None => Ok []
    | Some rows =>
        let columns := match p_columns response_data with
                       | Some cols => cols
                       | None => []
                       end in
        group_rows (date_idx columns) [] rows
    end.

(** ** The remote API and the console *)

Record request : Set := mkRequest {
  rq_subscription : string;
  rq_from : Z;
  rq_to : Z;
  rq_grouping : list string;
  rq_timeout : option Z
}.

(** What [int(header)] makes of a [Retry-After] header. *)
Inductive header_value : Set :=
| HInt (secs : Z)
| HNotAnInt.

(** What [response.json()['properties']] finds in the body. *)
Inductive json_body : Set :=
| NotJson
| NoProperties
| Properties (p : option properties).

Record response : Set := mkResponse {
  status_code : Z;
  retry_after : option header_value;
  body : json_body
}.

(** [requests.post] raises or returns a response. *)
Inductive http_outcome : Set :=
| Raised (e : exn)
| Responded (r : response).

(** The lines the program prints, one constructor per [print] site. *)
Inductive line : Set :=
| RateLimitHit (secs : Z)
| MaxRetriesReached (date : Z)
| ErrorFetching (date : Z) (e : exn)
| ErrorFetchingRange (e : exn)
| FetchingData (subscription_name : string)
| FailedToFetch (subscription_name : string)
| Banner (subscription_name : string)
| FetchingFromTo (start_date end_date : Z)
| FailedThisSubscription
| CostTableTitle
| PercentChangeTitle
| Blank
| ReportTitle (num_days : Z)
| Waiting
| ReportCompleted
| GeneratingDocument
| DocumentCreated
| AllTasksCompleted.

Inductive event : Set :=
| EvRequest (r : request)
| EvSleep (secs : Z)
| EvPrint (l : line)
| EvTable (headers : list string) (rows : list (list string)).

(** The world a run acts on: the remote API answers the n-th request of the
    run with [server n]; [trace] is what the run has done so far, oldest
    first. *)
Record world : Type := mkWorld {
  server : nat -> http_outcome;
  issued : nat;
  trace : list event
}.

Definition emit (e : event) (w : world) : world :=
  mkWorld (server w) (issued w) (trace w ++ [e]).

Definition print (l : line) (w : world) : world := emit (EvPrint l) w.

Definition requests_post (r : request) (w : world) : http_outcome * world :=
  (server w (issued w),
   mkWorld (server w) (S (issued w)) (trace w ++ [EvRequest r])).

(** The longest delay [time.sleep] takes, in seconds: the delay is turned
    into a count of nanoseconds in a signed 64-bit integer, and
    [OverflowError] is raised when it does not fit (2^63 ns are
    9223372036.85 s).  CPython 3.11 then adds the delay to the reading of
    the monotonic clock, and the system refuses a deadline that does not
    fit either ([OSError]); the model has that clock at 0 when the delay
    starts, so that the first bound is the only one. *)
Definition max_sleep : Z := (2 ^ 63 - 1) / 10 ^ 9.

(** [time.sleep(secs)] for an [int]: a negative delay is a [ValueError]. *)
Definition sleep (secs : Z) (w : world) : res unit * world :=
  if secs <? 0 then (Raise ValueError, w)
  else if max_sleep <? secs then (Raise OverflowError, w)
  else (Ok tt, emit (EvSleep secs) w).

(** [response.raise_for_status()] *)
Definition raise_for_status (r : response) : res unit :=
  if andb (400 <=? status_code r) (status_code r <? 600) then Raise HTTPError
  else Ok tt.

(** [int(response.headers.get('Retry-After', default))] *)
Definition retry_after_or (r : response) (default : Z) : res Z :=
  match retry_after r with
  | None => Ok default
  | Some (HInt secs) => Ok secs
  | Some HNotAnInt => Raise ValueError
  end.

(** ** get_cost_data_range and get_cost_data *)

(** How one pass through a fetcher's [try] block ends: with the recursive
    call, or with a [return]. *)
Inductive attempt (A : Type) : Type :=
| Again
| Return (v : A).

Arguments Again {A}.
Arguments Return {A} v.

Definition range_request (subscription_id : string) (start_date end_date : Z) : request :=
  mkRequest subscription_id start_date end_date ["ResourceType"; "ChargeType"] (Some 30).

(** [response.json()['properties']] *)
Definition json_properties (r : response) : res (option properties) :=
  match body r with
  | NotJson => Raise ValueError
  | NoProperties => Raise KeyError
  | Properties p => Ok p
  end.

(** The [try] block of [get_cost_data_range], up to its recursive call. *)
Definition range_try (subscription_id : string) (start_date end_date : Z) (w : world)
  : res (attempt (option properties)) * world :=
  match requests_post (range_request subscription_id start_date end_date) w with
  | (Raised e, w1) => (Raise e, w1)
  | (Responded r, w1) =>
      if status_code r =? 429 then
        match retry_after_or r 60 with
        | Raise e => (Raise e, w1)
        | Ok secs =>
            match sleep secs (print (RateLimitHit secs) w1) with
            | (Raise e, w2) => (Raise e, w2)
            | (Ok _, w2) => (Ok Again, w2)
            end
        end
      else
        match raise_for_status r with
        | Raise e => (Raise e, w1)
        | Ok _ =>
            match json_properties r with
            | Raise e => (Raise e, w1)
            | Ok p => (Ok (Return p), w1)
            end
        end
  end.

(** [get_cost_data_range].  The function calls itself from inside its [try]
    block, one frame deeper at every 429, and the interpreter allows only so
    many frames (1000 by default, less those of the callers and those that
    [requests.post] needs): [fuel] is the number of nested calls that still
    get their request through.  After these the limit is hit, by the next
    nested call or by what it calls before its request is sent, inside the
    [try] block in either case; [RecursionError] is an [Exception] like any
    other, so the [except] clause prints it and returns Python's [None],
    which every frame above hands on.  The function therefore always
    returns, with the [properties] object or with [None]. *)
Fixpoint get_cost_data_range (fuel : nat) (subscription_id : string)
    (start_date end_date : Z) (w : world) : option (option properties * world) :=
  match range_try subscription_id start_date end_date w with
  | (Raise e, w1) => Some (None, print (ErrorFetchingRange e) w1)
  | (Ok Again, w1) =>
      match fuel with
      | O => Some (None, print (ErrorFetchingRange RecursionError) w1)
      | S fuel' => get_cost_data_range fuel' subscription_id start_date end_date w1
      end
  | (Ok (Return p), w1) => Some (p, w1)
  end.

Definition day_request (subscription_id : string) (date : Z) : request :=
  mkRequest subscription_id date date ["ResourceType"] None.

(** [response.json()['properties']['rows']] *)
Definition json_rows (r : response) : res (list row) :=
  p <- json_properties r ;;
  match p with
  | None => Raise TypeError
  | Some props =>
      match p_rows props with
      | None => Raise KeyError
      | Some rows => Ok rows
      end
  end.

(** The [try] block of [get_cost_data], up to its recursive call. *)
Definition day_try (subscription_id : string) (date : Z) (retry_count max_retries : Z)
    (w : world) : res (attempt (list row)) * world :=
  match requests_post (day_request subscription_id date) w with
  | (Raised e, w1) => (Raise e, w1)
  | (Responded r, w1) =>
      if status_code r =? 429 then
        if retry_count <? max_retries then
          match retry_after_or r (2 ^ retry_count) with
          | Raise e => (Raise e, w1)
          | Ok secs =>
              match sleep secs (print (RateLimitHit secs) w1) with
              | (Raise e, w2) => (Raise e, w2)
              | (Ok _, w2) => (Ok Again, w2)
              end
          end
        else (Ok (Return []), print (MaxRetriesReached date) w1)
      else
        match raise_for_status r with
        | Raise e => (Raise e, w1)
        | Ok _ =>
            match json_rows r with
            | Raise e => (Raise e, w1)
            | Ok rows => (Ok (Return rows), w1)
            end
        end
  end.

(** [get_cost_data], with [fuel] nested calls allowed as for
    [get_cost_data_range]; a call with the default [max_retries] of 3 nests
    three deep at most. *)
Fixpoint get_cost_data (fuel : nat) (subscription_id : string) (date : Z)
    (retry_count max_retries : Z) (w : world) : option (list row * world) :=
  match day_try subscription_id date retry_count max_retries w with
  | (Raise e, w1) => Some ([], print (ErrorFetching date e) w1)
  | (Ok Again, w1) =>
      match fuel with
      | O => Some ([], print (ErrorFetching date RecursionError) w1)
      | S fuel' =>
          get_cost_data fuel' subscription_id date (retry_count + 1) max_retries w1
      end
  | (Ok (Return rows), w1) => Some (rows, w1)
  end.

(** ** Tables *)

Fixpoint map_res {A B : Type} (f : A -> res B) (l : list A) : res (list B) :=
  match l with
  | [] => Ok []
  | a :: rest => b <- f a ;; bs <- map_res f rest ;; Ok (b :: bs)
  end.

Definition all_categories : list category :=
  [Databricks; VirtualMachine; Storage; Others].

(** [range(num_days - 1, -1, -1)] *)
Definition day_offsets (num_days : Z) : list Z :=
  map (fun j => num_days - 1 - Z.of_nat j) (seq 0 (Z.to_nat num_days)).

(** [datetime.now() - timedelta(days=i+1)] *)
Definition day_of (now i : Z) : Z := now - (i + 1).

(** The cell [f"${costs[category]:.2f}"] *)
Definition cost_cell (v : pynum) : res string :=
  s <- format_2f false v ;; Ok ("$" ++ s)%string.

Definition cost_row (categories : list category) (label : string) (c : costs)
  : res (list string) :=
  cells <- map_res (fun k => cost_cell (costs_get c k)) categories ;;
  Ok (label :: cells).

(** The day-over-day change of one category. *)
Definition percent_change (prev_cost curr_cost : pynum) : res pynum :=
  if py_eq0 prev_cost then
    if py_eq0 curr_cost then Ok (PyInt 0) else Ok (PyInt 100)
  else
    d <- py_sub curr_cost prev_cost ;;
    q <- py_truediv d prev_cost ;;
    py_mul q (PyInt 100).

(** The cell [f"{percent_change:+.2f}%"] *)
Definition percent_cell (prev_cost curr_cost : pynum) : res string :=
  p <- percent_change prev_cost curr_cost ;;
  s <- format_2f true p ;;
  Ok (s ++ "%")%string.

Definition percent_row (categories : list category) (label : string)
    (prev curr : costs) : res (list string) :=
  cells <- map_res (fun k => percent_cell (costs_get prev k) (costs_get curr k))
                   categories ;;
  Ok (label :: cells).

(** The loop [for i in range(1, len(all_costs))], from index [i] on; [prev]
    is [all_costs[i-1]], [rest] is [all_costs[i:]], [label i] the row's
    first cell. *)
Fixpoint percent_rows (categories : list category) (label : nat -> string)
    (i : nat) (prev : costs) (rest : list costs) : res (list (list string)) :=
  match rest with
  | [] => Ok []
  | curr :: rest' =>
      r <- percent_row categories (label i) prev curr ;;
      rs <- percent_rows categories label (S i) curr rest' ;;
      Ok (r :: rs)
  end.

Definition build_percent_table (categories : list category) (label : nat -> string)
    (all_costs : list costs) : res (list (list string)) :=
  match all_costs with
  | [] => Ok []
  | first :: rest => percent_rows categories label 1 first rest
  end.

(** ** generate_table_for_subscription (console output) *)

Definition console_headers : list string :=
  ["Date"; "Databricks"; "Virtual Machine"; "Storage"; "Others"].

(** One iteration of the console's loop over the days: the day's breakdown
    and its row of the cost table. *)
Definition console_day (now : Z) (daily_data : daily) (i : Z)
  : res (costs * list string) :=
  let date := day_of now i in
  c <- process_cost_data (daily_get daily_data (date_key date)) ;;
  r <- cost_row all_categories (date_str date) c ;;
  Ok (c, r).

(** The console's loop over the days: [all_costs] and [table_data]. *)
Definition console_costs (now : Z) (response_data : properties) (num_days : Z)
  : res (list costs * list (list string)) :=
  daily_data <- parse_range_response response_data ;;
  days <- map_res (console_day now daily_data) (day_offsets num_days) ;;
  Ok (map fst days, map snd days).

(** The first cell of the console's i-th percent row:
    [(datetime.now() - timedelta(days=len(all_costs)-i)).strftime('%m/%d')] *)
Definition console_label (now : Z) (all_costs : list costs) (i : nat) : string :=
  date_str (now - (Z.of_nat (List.length all_costs) - Z.of_nat i)).

Definition console_percent (now : Z) (all_costs : list costs)
  : res (list (list string)) :=
  build_percent_table all_categories (console_label now all_costs) all_costs.

Definition generate_table_for_subscription (fuel : nat) (now : Z)
    (subscription_id subscription_name : string) (num_days : Z) (w : world)
  : option (res unit * world) :=
  let end_date := now - 1 in
  let start_date := end_date - (num_days - 1) in
  let w := print (FetchingFromTo start_date end_date)
             (print (Banner subscription_name) w) in
  match get_cost_data_range fuel subscription_id start_date end_date w with
  | None => None
  | Some (None, w) => Some (Ok tt, print FailedThisSubscription w)
  | Some (Some response_data, w) =>
      if dict_is_empty response_data then
        Some (Ok tt, print FailedThisSubscription w)
      else
        match console_costs now response_data num_days with
        | Raise e => Some (Raise e, w)
        | Ok (all_costs, table_data) =>
            let w := print CostTableTitle w in
            let w := emit (EvTable console_headers table_data) w in
            let w := print PercentChangeTitle (print Blank w) in
            match console_percent now all_costs with
            | Raise e => Some (Raise e, w)
            | Ok percent_table_data =>
                let w := emit (EvTable console_headers percent_table_data) w in
                Some (Ok tt, print Blank w)
            end
        end
  end.

(** ** generate_data_for_subscription (data for the document) *)

(** The dict the function returns on success. *)
Record report : Set := mkReport {
  cost_table : list (list string);
  percent_table : list (list string);
  headers : list string;
  date_strings : list string
}.

(** What the function returns: the tuple [(None, None)] or the dict. *)
Inductive generated : Set :=
| NonePair
| ReportDict (r : report).

(** [any(costs['Databricks'] > 0 for costs in all_costs)] *)
Definition has_databricks (all_costs : list costs) : bool :=
  existsb (fun c => py_gt0 (costs_get c Databricks)) all_costs.

(** The categories of a subscription's tables. *)
Definition categories_for (subscription_name : string) (all_costs : list costs)
  : list category :=
  if String.eqb (lower subscription_name) "main" then
    if has_databricks all_costs then all_categories
    else [VirtualMachine; Storage; Others]
  else all_categories.

(** The loop [for i, costs in enumerate(all_costs)] that builds the cost
    table, from index [i] on. *)
Fixpoint cost_rows (categories : list category) (date_strings : list string)
    (i : nat) (all_costs : list costs) : res (list (list string)) :=
  match all_costs with
  | [] => Ok []
  | c :: rest =>
      r <- cost_row categories (nth i date_strings "") c ;;
      rs <- cost_rows categories date_strings (S i) rest ;;
      Ok (r :: rs)
  end.

(** From the response to the returned dict. *)
Definition build_report (now : Z) (subscription_name : string)
    (response_data : properties) (num_days : Z) : res report :=
  daily_data <- parse_range_response response_data ;;
  let dates := map (day_of now) (day_offsets num_days) in
  let date_strings := map date_str dates in
  all_costs <- map_res (fun d => process_cost_data (daily_get daily_data (date_key d)))
                       dates ;;
  let categories := categories_for subscription_name all_costs in
  cost_table_data <- cost_rows categories date_strings 0 all_costs ;;
  percent_table_data <-
    build_percent_table categories (fun i => nth i date_strings "") all_costs ;;
  Ok (mkReport cost_table_data percent_table_data
               ("Date" :: map category_name categories) date_strings).

Definition generate_data_for_subscription (fuel : nat) (now : Z)
    (subscription_id subscription_name : string) (num_days : Z) (w : world)
  : option (res generated * world) :=
  let w := print (FetchingData subscription_name) w in
  let end_date := now - 1 in
  let start_date := end_date - (num_days - 1) in
  match get_cost_data_range fuel subscription_id start_date end_date w with
  | None => None
  | Some (None, w) => Some (Ok NonePair, print (FailedToFetch subscription_name) w)
  | Some (Some response_data, w) =>
      if dict_is_empty response_data then
        Some (Ok NonePair, print (FailedToFetch subscription_name) w)
      else
        match build_report now subscription_name response_data num_days with
        | Raise e => Some (Raise e, w)
        | Ok r => Some (Ok (ReportDict r), w)
        end
  end.

(** ** The clock

    [datetime.now()] is read again at every use.
    [generate_data_for_subscription] reads it for the window of the request
    (line 246) and in every pass of its loop over the days (line 266);
    [generate_table_for_subscription] reads it for the window (line 379), in
    every pass of its loop over the days (line 399) and for every row of
    the percent table (line 432).  The fetch, with its timeout of 30 seconds
    and its sleeps, lies between the first reading and the others.  Of a
    reading only the day matters.

    The two functions as defined above are the functions on a run within
    one calendar day, [now] being the day of every reading.  The module
    [Clock] has them with the readings apart: [now] is the day read for the
    window, [today i] the day read in the pass of the loop for the offset
    [i], and [later i] the day read for the row [i] of the console's percent
    table. *)

Module Clock.

Definition build_report (today : Z -> Z) (subscription_name : string)
    (response_data : properties) (num_days : Z) : res report :=
  daily_data <- parse_range_response response_data ;;
  let dates := map (fun i => day_of (today i) i) (day_offsets num_days) in
  let date_strings := map date_str dates in
  all_costs <- map_res (fun d => process_cost_data (daily_get daily_data (date_key d)))
                       dates ;;
  let categories := categories_for subscription_name all_costs in
  cost_table_data <- cost_rows categories date_strings 0 all_costs ;;
  percent_table_data <-
    build_percent_table categories (fun i => nth i date_strings "") all_costs ;;
  Ok (mkReport cost_table_data percent_table_data
               ("Date" :: map category_name categories) date_strings).

Definition generate_data_for_subscription (fuel : nat) (now : Z) (today : Z -> Z)
    (subscription_id subscription_name : string) (num_days : Z) (w : world)
  : option (res generated * world) :=
  let w := print (FetchingData subscription_name) w in
  let end_date := now - 1 in
  let start_date := end_date - (num_days - 1) in
  match get_cost_data_range fuel subscription_id start_date end_date w with
  | None => None
  | Some (None, w) => Some (Ok NonePair, print (FailedToFetch subscription_name) w)
  | Some (Some response_data, w) =>
      if dict_is_empty response_data then
        Some (Ok NonePair, print (FailedToFetch subscription_name) w)
      else
        match build_report today subscription_name response_data num_days with
        | Raise e => Some (Raise e, w)
        | Ok r => Some (Ok (ReportDict r), w)
        end
  end.

Definition console_costs (today : Z -> Z) (response_data : properties) (num_days : Z)
  : res (list costs * list (list string)) :=
  daily_data <- parse_range_response response_data ;;
  days <- map_res (fun i => console_day (today i) daily_data i)
                  (day_offsets num_days) ;;
  Ok (map fst days, map snd days).

Definition console_percent (later : nat -> Z) (all_costs : list costs)
  : res (list (list string)) :=
  build_percent_table all_categories
    (fun i => console_label (later i) all_costs i) all_costs.

Definition generate_table_for_subscription (fuel : nat) (now : Z) (today : Z -> Z)
    (later : nat -> Z) (subscription_id subscription_name : string) (num_days : Z)
    (w : world) : option (res unit * world) :=
  let end_date := now - 1 in
  let start_date := end_date - (num_days - 1) in
  let w := print (FetchingFromTo start_date end_date)
             (print (Banner subscription_name) w) in
  match get_cost_data_range fuel subscription_id start_date end_date w with
  | None => None
  | Some (None, w) => Some (Ok tt, print FailedThisSubscription w)
  | Some (Some response_data, w) =>
      if dict_is_empty response_data then
        Some (Ok tt, print FailedThisSubscription w)
      else
        match console_costs today response_data num_days with
        | Raise e => Some (Raise e, w)
        | Ok (all_costs, table_data) =>
            let w := print CostTableTitle w in
            let w := emit (EvTable console_headers table_data) w in
            let w := print PercentChangeTitle (print Blank w) in
            match console_percent later all_costs with
            | Raise e => Some (Raise e, w)
            | Ok percent_table_data =>
                let w := emit (EvTable console_headers percent_table_data) w in
                Some (Ok tt, print Blank w)
            end
        end
  end.

End Clock.

(** ** create_word_document *)

Inductive doc_item : Set :=
| Heading (text : string) (level : Z)
| Paragraph (text : string)
| Table (headers : list string) (rows : list (list string)).

Definition document : Set := list doc_item.

(** [add_table_to_doc]: writing a cell past the table's last column raises
    [IndexError]. *)
Definition add_table_to_doc (doc : document) (table_data : list (list string))
    (headers : list string) (title : string) : res document :=
  let doc := if String.eqb title "" then doc else doc ++ [Paragraph title] in
  if existsb (fun row_data => Nat.ltb (List.length headers) (List.length row_data))
             table_data
  then Raise IndexError
  else Ok (doc ++ [Table headers table_data; Paragraph ""]).

Definition upper_ascii (c : ascii) : ascii :=
  let n := nat_of_ascii c in
  if andb (Nat.leb 97 n) (Nat.leb n 122) then ascii_of_nat (n - 32) else c.

Fixpoint upper (s : string) : string :=
  match s with
  | EmptyString => EmptyString
  | String c rest => String (upper_ascii c) (upper rest)
  end.

(** [str.capitalize()] *)
Definition capitalize (s : string) : string :=
  match s with
  | EmptyString => EmptyString
  | String c rest => String (upper_ascii c) (lower rest)
  end.

Definition newline : string := String (ascii_of_nat 10) EmptyString.

(** [all_data]: what [generate_data_for_subscription] returned, by
    subscription name. *)
Definition all_data_dict : Set := list (string * generated).

Fixpoint lookup (all_data : all_data_dict) (sub_name : string) : option generated :=
  match all_data with
  | [] => None
  | (k, v) :: rest => if String.eqb k sub_name then Some v else lookup rest sub_name
  end.

(** [all_data[sub_name] = data] *)
Fixpoint store (all_data : all_data_dict) (sub_name : string) (data : generated)
  : all_data_dict :=
  match all_data with
  | [] => [(sub_name, data)]
  | (k, v) :: rest =>
      if String.eqb k sub_name then (k, data) :: rest
      else (k, v) :: store rest sub_name data
  end.

(** The truth value of what the function returned: a tuple of two elements
    and a dict of four keys are both non-empty. *)
Definition truthy (data : generated) : bool :=
  match data with
  | NonePair => true
  | ReportDict _ => true
  end.

(** [data[key]] for a string key: a tuple takes integer indices only. *)
Definition field {A : Type} (data : generated) (proj : report -> A) : res A :=
  match data with
  | NonePair => Raise TypeError
  | ReportDict r => Ok (proj r)
  end.

(** The body of the loop over the subscriptions of the document. *)
Definition add_subscription (all_data : all_data_dict) (doc : document)
    (sub_name : string) : res document :=
  match lookup all_data sub_name with
  | None => Ok doc
  | Some data =>
      if truthy data then
        let doc := doc ++ [Heading (capitalize sub_name ++ " Environment")%string 2] in
        cost_table_data <- field data cost_table ;;
        headers1 <- field data headers ;;
        doc <- add_table_to_doc doc cost_table_data headers1 "" ;;
        percent_table_data <- field data percent_table ;;
        headers2 <- field data headers ;;
        add_table_to_doc doc percent_table_data headers2
          ("Percentage difference for " ++ sub_name)%string
      else Ok doc
  end.

Fixpoint add_subscriptions (all_data : all_data_dict) (doc : document)
    (sub_names : list string) : res document :=
  match sub_names with
  | [] => Ok doc
  | sub_name :: rest =>
      doc' <- add_subscription all_data doc sub_name ;;
      add_subscriptions all_data doc' rest
  end.

(** [", ".join(date_list)] *)
Fixpoint join (sep : string) (l : list string) : string :=
  match l with
  | [] => ""
  | [s] => s
  | s :: rest => (s ++ sep ++ join sep rest)%string
  end.

Definition greeting (now num_days : Z) : string :=
  let end_date := now - 1 in
  let start_date := end_date - (num_days - 1) in
  let date_list :=
    map (fun i => let date := start_date + Z.of_nat i in
                  (weekday_name date ++ " (" ++ date_str date ++ ")")%string)
        (seq 0 (Z.to_nat num_days)) in
  ("Hi Team," ++ newline ++ newline
   ++ "Please find below the Azure cost summary for " ++ join ", " date_list
   ++ " for all subscriptions, along with percentage changes compared to the previous day."
   ++ newline)%string.

(** The document that is saved, or the exception that ends the run before
    [doc.save]. *)
Definition create_word_document (now : Z) (all_data : all_data_dict) (num_days : Z)
    (w : world) : res document * world :=
  let doc := [Heading "Azure Cost Summary Report" 0; Paragraph (greeting now num_days)] in
  match add_subscriptions all_data doc ["prod"; "dev"; "test"; "main"] with
  | Raise e => (Raise e, w)
  | Ok doc => (Ok (doc ++ [Paragraph (newline ++ "Thank you.")%string]),
               print DocumentCreated w)
  end.

(** ** The main block, after the prompt that reads [num_days] *)

(** The body of the loop over [enumerate(['main', 'prod', 'dev', 'test'])]. *)
Definition process_subscription (fuel : nat) (now : Z) (subscriptions : string -> string)
    (num_days : Z) (idx : Z) (sub_name : string) (all_data : all_data_dict) (w : world)
  : option (res all_data_dict * world) :=
  match generate_table_for_subscription fuel now (subscriptions sub_name)
          (upper sub_name) num_days w with
  | None => None
  | Some (Raise e, w) => Some (Raise e, w)
  | Some (Ok _, w) =>
      match generate_data_for_subscription fuel now (subscriptions sub_name)
              sub_name num_days w with
      | None => None
      | Some (Raise e, w) => Some (Raise e, w)
      | Some (Ok data, w) =>
          let all_data := if truthy data then store all_data sub_name data
                          else all_data in
          if idx <? 3 then
            match sleep 2 (print Waiting w) with
            | (Raise e, w) => Some (Raise e, w)
            | (Ok _, w) => Some (Ok all_data, w)
            end
          else Some (Ok all_data, w)
      end
  end.

Fixpoint process_subscriptions (fuel : nat) (now : Z) (subscriptions : string -> string)
    (num_days : Z) (idx : Z) (sub_names : list string) (all_data : all_data_dict)
    (w : world) : option (res all_data_dict * world) :=
  match sub_names with
  | [] => Some (Ok all_data, w)
  | sub_name :: rest =>
      match process_subscription fuel now subscriptions num_days idx sub_name all_data w with
      | None => None
      | Some (Raise e, w) => Some (Raise e, w)
      | Some (Ok all_data, w) =>
          process_subscriptions fuel now subscriptions num_days (idx + 1) rest all_data w
      end
  end.

(** The run: the saved document, or the uncaught exception that ends it;
    every fetch may nest [fuel] calls. *)
Definition main (fuel : nat) (now : Z) (subscriptions : string -> string)
    (num_days : Z) (w : world) : option (res document * world) :=
  let w := print (ReportTitle num_days) w in
  match process_subscriptions fuel now subscriptions num_days 0
          ["main"; "prod"; "dev"; "test"] [] w with
  | None => None
  | Some (Raise e, w) => Some (Raise e, w)
  | Some (Ok all_data, w) =>
      let w := print GeneratingDocument (print ReportCompleted w) in
      match create_word_document now all_data num_days w with
      | (Raise e, w) => Some (Raise e, w)
      | (Ok doc, w) => Some (Ok doc, print AllTasksCompleted w)
      end
  end.

(** ** Start-up: the environment and the access token *)

Module Startup.

(** [os.getenv] once [load_dotenv()] has run: the value of a variable, or
    [None] when it is not set. *)
Definition environ : Type := string -> option string.

Definition required_vars : list string :=
  ["AZURE_TENANT_ID"; "AZURE_CLIENT_ID"; "AZURE_CLIENT_SECRET";
   "SUBSCRIPTION_MAIN"; "SUBSCRIPTION_PROD"; "SUBSCRIPTION_DEV"; "SUBSCRIPTION_TEST"].

(** [not os.getenv(var)]: [None] and the empty string count as false. *)
Definition not_set (getenv : environ) (var : string) : bool :=
  match getenv var with
  | None => true
  | Some value => String.eqb value ""
  end.

Definition missing_vars (getenv : environ) : list string :=
  filter (not_set getenv) required_vars.

(** The dict [subscriptions], in the order of its literal. *)
Definition subscriptions (getenv : environ) : list (string * option string) :=
  [("main", getenv "SUBSCRIPTION_MAIN");
   ("prod", getenv "SUBSCRIPTION_PROD");
   ("dev", getenv "SUBSCRIPTION_DEV");
   ("test", getenv "SUBSCRIPTION_TEST")].

(** A value inside an f-string. *)
Definition format_value (value : option string) : string :=
  match value with
  | Some text => text
  | None => "None"
  end.

Definition auth_url (getenv : environ) : string :=
  ("https://login.microsoftonline.com/" ++ format_value (getenv "AZURE_TENANT_ID")
   ++ "/oauth2/token")%string.

Definition auth_data (getenv : environ) : list (string * option string) :=
  [("grant_type", Some "client_credentials");
   ("client_id", getenv "AZURE_CLIENT_ID");
   ("client_secret", getenv "AZURE_CLIENT_SECRET");
   ("resource", Some "https://management.azure.com/")].

(** The request [requests.post(auth_url, data=auth_data)]. *)
Record token_request : Set := mkTokenRequest {
  url : string;
  data : list (string * option string)
}.

(** What [auth_response.json()['access_token']] finds in the body: no JSON,
    a JSON value that is not an object, an object without the member, or
    the member (as an f-string renders it). *)
Inductive token_body : Set :=
| NotJson
| NotAnObject
| NoAccessToken
| AccessToken (text : string).

Record token_response : Set := mkTokenResponse {
  token_status : Z;
  token_json : token_body
}.

Inductive token_outcome : Set :=
| Raised (e : exn)
| Responded (r : token_response).

(** [auth_response.json()['access_token']] *)
Definition access_token (r : token_response) : res string :=
  match token_json r with
  | NotJson => Raise ValueError
  | NotAnObject => Raise TypeError
  | NoAccessToken => Raise KeyError
  | AccessToken text => Ok text
  end.

(** How the module's top level ends: with the [ValueError] of the check of
    the environment, with the exception of the token exchange, or with the
    token. *)
Inductive started : Set :=
| MissingVariables (message : string)
| TokenError (e : exn)
| Token (text : string).

(** Lines 13 to 45: the outcome and the requests made. *)
Definition startup (getenv : environ) (post : token_request -> token_outcome)
  : started * list token_request :=
  match missing_vars getenv with
  | _ :: _ =>
      (MissingVariables ("Missing required environment variables: "
                         ++ join ", " (missing_vars getenv))%string, [])
  | [] =>
      let rq := mkTokenRequest (auth_url getenv) (auth_data getenv) in
      match post rq with
      | Raised e => (TokenError e, [rq])
      | Responded r =>
          match access_token r with
          | Raise e => (TokenError e, [rq])
          | Ok text => (Token text, [rq])
          end
      end
  end.

End Startup.

(** ** The prompt for the number of days *)

(** What the prompt puts on the console: the text of an [input] call, a
    printed line. *)
Inductive console_event : Set :=
| Prompted (text : string)
| Printed (text : string).

(** How the loop ends: with [num_days], or with the [EOFError] of an [input]
    call, which the loop does not catch. *)
Inductive entered : Set :=
| NumDays (num_days : Z)
| EndOfInput.

(** The [while True] loop of the main block.  [int] is the conversion of a
    line ([None] when it raises [ValueError]), [stdin] the lines still to be
    read; the result comes with the lines left and the console. *)
Fixpoint read_num_days (int : string -> option Z) (stdin : list string)
    (console : list console_event) : entered * list string * list console_event :=
  let console :=
    console ++ [Prompted "Enter the number of days to look back (ending at yesterday): "] in
  match stdin with
  | [] => (EndOfInput, [], console)
  | answer :: rest =>
      match int answer with
      | None => read_num_days int rest (console ++ [Printed "Please enter a valid number."])
      | Some num_days =>
          if num_days <? 1 then
            read_num_days int rest (console ++ [Printed "Please enter a positive number."])
          else if 90 <? num_days then
            let console :=
              console
              ++ [Printed "Warning: Requesting more than 90 days may take a long time.";
                  Prompted "Do you want to continue? (yes/no): "] in
            match rest with
            | [] => (EndOfInput, [], console)
            | confirm :: rest' =>
                if String.eqb (lower confirm) "yes" then (NumDays num_days, rest', console)
                else read_num_days int rest' console
            end
          else (NumDays num_days, rest, console)
      end
  end.

(** ** The script, from its first line to its last *)

(** [subscriptions[sub_name]] as a request renders it; the main block looks
    up the four keys of the dict only. *)
Definition subscription_id (getenv : Startup.environ) (sub_name : string) : string :=
  match find (fun entry => String.eqb (fst entry) sub_name) (Startup.subscriptions getenv) with
  | Some entry => Startup.format_value (snd entry)
  | None => ""
  end.

(** How a run of the script ends: at start-up, at the prompt, or with what
    the main block does for the number of days entered. *)
Inductive run : Type :=
| NotStarted (s : Startup.started)
| NoNumDays (console : list console_event)
| Run (console : list console_event) (num_days : Z)
      (result : option (res document * world)).

Definition script (getenv : Startup.environ)
    (post : Startup.token_request -> Startup.token_outcome)
    (int : string -> option Z) (stdin : list string)
    (fuel : nat) (now : Z) (w : world) : run * list Startup.token_request :=
  match Startup.startup getenv post with
  | (Startup.Token _, requests) =>
      match read_num_days int stdin [] with
      | (EndOfInput, _, console) => (NoNumDays console, requests)
      | (NumDays num_days, _, console) =>
          (Run console num_days (main fuel now (subscription_id getenv) num_days w),
           requests)
      end
  | (s, requests) => (NotStarted s, requests)
  end.

(** * Vocabulary of the properties *)

(** ** Reading a response row *)

Definition numeric (c : cell) : bool :=
  match c with
  | CInt _ | CFloat _ => true
  | _ => false
  end.

Definition is_float (c : cell) : bool :=
  match c with
  | CFloat _ => true
  | _ => false
  end.

Definition is_int (c : cell) : bool :=
  match c with
  | CInt _ => true
  | _ => false
  end.

Definition is_str (c : cell) : bool :=
  match c with
  | CStr _ => true
  | _ => false
  end.

(** The resource-type cell of a row is a string when the row has one. *)
Definition type_cell_ok (r : row) : bool :=
  match nth_error r 2 with
  | Some c => is_str c
  | None => true
  end.

(** A row the categorizer can read: its first cell satisfies [p], its third
    cell, if any, is a string. *)
Definition row_with (p : cell -> bool) (r : row) : bool :=
  match r with
  | [] => false
  | c :: _ => andb (p c) (type_cell_ok r)
  end.

(** The cost the categorizer reads off a row, and the category it files the
    row under. *)
Definition cost_of (r : row) : cell := nth 0 r CNull.

Definition category_of (r : row) : category :=
  match resource_type_of r with
  | Ok s => categorize s
  | Raise _ => Others
  end.

(** The costs of the rows filed under [k], in response order. *)
Definition costs_in (k : category) (rows : list row) : list cell :=
  map cost_of (filter (fun r => category_eqb (category_of r) k) rows).

(** Python's [sum]: the running sum from [acc], left to right. *)
Fixpoint sum_from (acc : pynum) (l : list cell) : res pynum :=
  match l with
  | [] => Ok acc
  | c :: rest => acc' <- add_cell acc c ;; sum_from acc' rest
  end.

Definition py_sum (l : list cell) : res pynum := sum_from (PyInt 0) l.

(** [sum(costs.values())] *)
Definition bucket_total (c : costs) : res pynum :=
  a <- py_add (PyInt 0) (c_databricks c) ;;
  b <- py_add a (c_vm c) ;;
  d <- py_add b (c_storage c) ;;
  py_add d (c_others c).

(** [a == b] on numbers. *)
Definition py_eqb (a b : pynum) : bool :=
  match a, b with
  | PyInt x, PyInt y => x =? y
  | PyFloat f, PyFloat g => PrimFloat.eqb f g
  | PyInt x, PyFloat f | PyFloat f, PyInt x => float_is_int f x
  end.

(** ** Rows the categorizer can read *)

(** The breakdown as four running sums, one per category. *)
Definition buckets_from (c0 : costs) (rows : list row) : res costs :=
  d <- sum_from (c_databricks c0) (costs_in Databricks rows) ;;
  v <- sum_from (c_vm c0) (costs_in VirtualMachine rows) ;;
  s <- sum_from (c_storage c0) (costs_in Storage rows) ;;
  o <- sum_from (c_others c0) (costs_in Others rows) ;;
  Ok (mkCosts d v s o).

(** ** Float costs: the categorizer returns *)

(** A bucket that no [int] cost has reached: the initial [0] or a float. *)
Definition zero_or_float (v : pynum) : bool :=
  match v with
  | PyInt z => z =? 0
  | PyFloat _ => true
  end.

Definition all_zero_or_float (c : costs) : Prop :=
  forall k, zero_or_float (costs_get c k) = true.

(** ** Integer costs: the sums are exact *)

Definition int_of (c : cell) : Z :=
  match c with
  | CInt z => z
  | _ => 0
  end.

Definition int_sum (l : list cell) : Z :=
  fold_right (fun c s => int_of c + s) 0 l.

(** ** Every order of a list *)

Fixpoint insert_all {A : Type} (a : A) (l : list A) : list (list A) :=
  match l with
  | [] => [[a]]
  | b :: rest => (a :: b :: rest) :: map (cons b) (insert_all a rest)
  end.

Fixpoint orders {A : Type} (l : list A) : list (list A) :=
  match l with
  | [] => [[]]
  | a :: rest => flat_map (insert_all a) (orders rest)
  end.

(** ** Conservation of cost by the categorizer *)

(** Four rows of one date: two Databricks rows of 0.1, a virtual machine row
    of 0.6 and one of 0.7. *)
Definition rounding_rows : list row :=
  [[CFloat 0.1; CInt 20261102; CStr "Microsoft.Databricks/workspaces"; CStr "Usage"];
   [CFloat 0.1; CInt 20261102; CStr "Microsoft.Databricks/workspaces"; CStr "Usage"];
   [CFloat 0.6; CInt 20261102; CStr "Microsoft.Compute/virtualMachines"; CStr "Usage"];
   [CFloat 0.7; CInt 20261102; CStr "Microsoft.Compute/virtualMachines"; CStr "Usage"]].

(** Whether the running sum of [order] is a number different from [t]. *)
Definition sums_apart_from (t : pynum) (order : list cell) : bool :=
  match py_sum order with
  | Ok s => negb (py_eqb t s)
  | Raise _ => false
  end.

(** Three integer costs, one row without a resource type. *)
Definition integer_rows : list row :=
  [[CInt 7; CInt 20261102; CStr "Microsoft.Storage/storageAccounts"];
   [CInt 5; CInt 20261102];
   [CInt (-2); CInt 20261102; CStr "microsoft.storage/storageaccounts"]].

(** ** Row order *)

(** Three virtual machine rows of one date, of 0.1, 0.2 and 0.3. *)
Definition vm_rows : list row :=
  [[CFloat 0.1; CInt 20261102; CStr "Microsoft.Compute/virtualMachines"; CStr "Usage"];
   [CFloat 0.2; CInt 20261102; CStr "Microsoft.Compute/virtualMachines"; CStr "Usage"];
   [CFloat 0.3; CInt 20261102; CStr "Microsoft.Compute/virtualMachines"; CStr "Usage"]].

(** A storage row of 0.1, a virtual machine row of 0.2, a storage row of 0.3. *)
Definition mixed_rows : list row :=
  [[CFloat 0.1; CInt 20261102; CStr "Microsoft.Storage/storageAccounts"];
   [CFloat 0.2; CInt 20261102; CStr "Microsoft.Compute/virtualMachines"];
   [CFloat 0.3; CInt 20261102; CStr "Microsoft.Storage/storageAccounts"]].

(** The same rows with the virtual machine row moved to the front. *)
Definition mixed_rows_moved : list row :=
  [[CFloat 0.2; CInt 20261102; CStr "Microsoft.Compute/virtualMachines"];
   [CFloat 0.1; CInt 20261102; CStr "Microsoft.Storage/storageAccounts"];
   [CFloat 0.3; CInt 20261102; CStr "Microsoft.Storage/storageAccounts"]].

(** ** The shape of a formatted number *)

Definition is_digit (c : ascii) : bool :=
  let n := nat_of_ascii c in andb (Nat.leb 48 n) (Nat.leb n 57).

Fixpoint all_digits (s : string) : bool :=
  match s with
  | EmptyString => true
  | String c rest => andb (is_digit c) (all_digits rest)
  end.

(** A sign, the digits of the whole part, a point, two digits and [tail]. *)
Definition signed_two_decimals (tail s : string) : Prop :=
  exists sign whole d1 d2,
    s = String sign (whole ++ String "." (String d1 (String d2 tail)))%string
    /\ (sign = "+"%char \/ sign = "-"%char)
    /\ whole <> ""
    /\ all_digits whole = true
    /\ is_digit d1 = true
    /\ is_digit d2 = true.

(** ** The window and the grouped response *)

(** The dates of the window, oldest first. *)
Definition window (now num_days : Z) : list Z :=
  map (day_of now) (day_offsets num_days).

(** All the rows a grouping holds. *)
Definition stored (daily_data : daily) : list row := flat_map snd daily_data.

(** ** Responses with float costs: the tables are built *)

Definition rows_of (p : properties) : list row :=
  match p_rows p with
  | Some rows => rows
  | None => []
  end.

Definition columns_of (p : properties) : list column :=
  match p_columns p with
  | Some columns => columns
  | None => []
  end.

(** A response as the API documents it: every row has a float cost, a usage
    date where the schema puts it, and a string as resource type if it has
    one. *)
Definition float_response (p : properties) : Prop :=
  forall r, In r (rows_of p) ->
            row_with is_float r = true
            /\ (date_idx (columns_of p) < List.length r)%nat.

(** ** From the fetch to the tables *)

(** What the console shows of a subscription whose fetch succeeded. *)
Definition console_output (table_data percent_table_data : list (list string))
  : list event :=
  [EvPrint CostTableTitle; EvTable console_headers table_data; EvPrint Blank;
   EvPrint PercentChangeTitle; EvTable console_headers percent_table_data;
   EvPrint Blank].

(** ** The Databricks column of the main subscription *)

Definition usual_columns : list column :=
  [mkColumn "Cost"; mkColumn "UsageDate"; mkColumn "ResourceType";
   mkColumn "ChargeType"; mkColumn "Currency"].

(** A response for 2026-11-02: a Databricks refund of 5 and a virtual
    machine cost of 12.5. *)
Definition refund_response : properties :=
  mkProperties
    (Some [[CFloat (-5); CInt 20261102; CStr "Microsoft.Databricks/workspaces";
            CStr "Refund"; CStr "USD"];
           [CFloat 12.5; CInt 20261102; CStr "Microsoft.Compute/virtualMachines";
            CStr "Usage"; CStr "USD"]])
    (Some usual_columns) true.

(** A server that answers every request with [p]. *)
Definition always (p : properties) : world :=
  mkWorld (fun _ => Responded (mkResponse 200 None (Properties (Some p)))) 0 [].

(** The day the examples run on: 2026-11-03. *)
Definition today : Z := 739923.

(** A response for 2026-11-02 with a Databricks cost of 3.25. *)
Definition databricks_response : properties :=
  mkProperties
    (Some [[CFloat 3.25; CInt 20261102; CStr "Microsoft.Databricks/workspaces";
            CStr "Usage"; CStr "USD"]])
    (Some usual_columns) true.

(** ** The console's columns and the document's *)

Definition is_table (e : event) : bool :=
  match e with
  | EvTable _ _ => true
  | _ => false
  end.

(** The tables among the events of a trace. *)
Definition tables (t : list event) : list event := filter is_table t.

Definition five_cells (rows : list (list string)) : Prop :=
  Forall (fun r => List.length r = 5%nat) rows.


(** A row that shows the costs [c]: a label, then the cost in every one of
    [categories], in their order. *)
Definition shows_costs (categories : list category) (c : costs) (cells : list string)
  : Prop :=
  exists label shown,
    cells = label :: shown
    /\ Forall2 (fun k cell => cost_cell (costs_get c k) = Ok cell) categories shown.

(** A row that shows the changes from [prev] to [curr]: a label, then the
    change in every one of [categories], in their order. *)
Definition shows_changes (categories : list category) (prev curr : costs)
    (cells : list string) : Prop :=
  exists label shown,
    cells = label :: shown
    /\ Forall2 (fun k cell => percent_cell (costs_get prev k) (costs_get curr k) = Ok cell)
               categories shown.

(** A cost table of the breakdowns [all_costs]: a row for each of them, in
    their order. *)
Definition cost_table_of (categories : list category) (all_costs : list costs)
    (rows : list (list string)) : Prop :=
  Forall2 (shows_costs categories) all_costs rows.

(** A percent table of the breakdowns [all_costs]: a row for each of them
    but the first, with the changes from the one before. *)
Definition percent_table_of (categories : list category) (all_costs : list costs)
    (rows : list (list string)) : Prop :=
  List.length rows = (List.length all_costs - 1)%nat
  /\ forall i prev curr,
       nth_error all_costs i = Some prev ->
       nth_error all_costs (S i) = Some curr ->
       exists cells, nth_error rows i = Some cells
                     /\ shows_changes categories prev curr cells.

(** ** Rows of the tables and days of the window *)

(** The example of the specification: three days with virtual machine costs
    of 10, 20 and 0 and a storage cost of 5 each day. *)
Definition three_day_response : properties :=
  mkProperties
    (Some [[CFloat 10; CInt 20261031; CStr "Microsoft.Compute/virtualMachines";
            CStr "Usage"; CStr "USD"];
           [CFloat 5; CInt 20261031; CStr "Microsoft.Storage/storageAccounts";
            CStr "Usage"; CStr "USD"];
           [CFloat 20; CInt 20261101; CStr "Microsoft.Compute/virtualMachines";
            CStr "Usage"; CStr "USD"];
           [CFloat 5; CInt 20261101; CStr "Microsoft.Storage/storageAccounts";
            CStr "Usage"; CStr "USD"];
           [CFloat 5; CInt 20261102; CStr "Microsoft.Storage/storageAccounts";
            CStr "Usage"; CStr "USD"]])
    (Some usual_columns) true.

(** A response for the two days before [today]: virtual machines for
    1e-300 on 2026-11-01 and for 1e300 on 2026-11-02. *)
Definition surge_response : properties :=
  mkProperties
    (Some [[CFloat 1e-300; CInt 20261101; CStr "Microsoft.Compute/virtualMachines";
            CStr "Usage"; CStr "USD"];
           [CFloat 1e300; CInt 20261102; CStr "Microsoft.Compute/virtualMachines";
            CStr "Usage"; CStr "USD"]])
    (Some usual_columns) true.

(** ** Days without rows *)

(** No row of the response carries the date [key]. *)
Definition absent (p : properties) (key : Z) : Prop :=
  forall r c, In r (rows_of p) ->
              nth_error r (date_idx (columns_of p)) = Some c ->
              key_eqb c (CInt key) = false.

(** The cells of a day without costs, and of the change from such a day. *)
Definition zero_cells (categories : list category) : list string :=
  map (fun _ => "$0.00") categories.

Definition change_from_zero (categories : list category) (curr : costs) : list string :=
  map (fun k => if py_eq0 (costs_get curr k) then "+0.00%" else "+100.00%") categories.

(** The breakdowns of the window's days, as both paths compute them. *)
Definition breakdowns (now num_days : Z) (d : daily) (all_costs : list costs) : Prop :=
  Forall2 (fun date c => process_cost_data (daily_get d (date_key date)) = Ok c)
          (window now num_days) all_costs.

(** A response for the three days before [today] with no row for the
    middle one, 2026-11-01. *)
Definition gap_response : properties :=
  mkProperties
    (Some [[CFloat 10; CInt 20261031; CStr "Microsoft.Compute/virtualMachines";
            CStr "Usage"; CStr "USD"];
           [CFloat 4; CInt 20261102; CStr "Microsoft.Storage/storageAccounts";
            CStr "Usage"; CStr "USD"]])
    (Some usual_columns) true.

(** ** Rate limiting *)

(** A response that tells the caller to retry after [secs] seconds, [secs]
    being the [Retry-After] header or, without one, [default], and a delay
    that [time.sleep] takes. *)
Definition rate_limited (o : http_outcome) (default secs : Z) : Prop :=
  exists r, o = Responded r
            /\ status_code r = 429
            /\ retry_after_or r default = Ok secs
            /\ 0 <= secs <= max_sleep.

(** One rate-limited attempt: the request, the notice and the sleep. *)
Definition retry_events (rq : request) (secs : Z) : list event :=
  [EvRequest rq; EvPrint (RateLimitHit secs); EvSleep secs].

(** The world after [n] more requests whose events are [events]. *)
Definition after (w : world) (n : nat) (events : list event) : world :=
  mkWorld (server w) (issued w + n) (trace w ++ events).

(** An API that answers 429 with [Retry-After: 5], then 429 without the
    header, then 200 with [three_day_response]. *)
Definition throttled_twice : world :=
  mkWorld (fun n => match n with
                    | O => Responded (mkResponse 429 (Some (HInt 5)) NotJson)
                    | S O => Responded (mkResponse 429 None NotJson)
                    | _ => Responded (mkResponse 200 None
                                        (Properties (Some three_day_response)))
                    end) 0 [].

(** An API that always answers 429 without the header. *)
Definition always_throttled : world :=
  mkWorld (fun _ => Responded (mkResponse 429 None NotJson)) 0 [].


(** ** Column positions *)

(** The categorizer as the specification describes it: the cost and the
    resource type read at the positions the schema names. *)
Definition add_row_by_schema (cost_at resource_at : nat) (c : costs) (r : row)
  : res costs :=
  cost <- item r cost_at ;;
  resource_type <-
    (if Nat.ltb resource_at (List.length r) then
       t <- item r resource_at ;;
       match t with
       | CStr s => Ok (lower s)
       | _ => Raise AttributeError
       end
     else Ok "") ;;
  let k := categorize resource_type in
  v <- add_cell (costs_get c k) cost ;;
  Ok (costs_set c k v).

Fixpoint process_rows_by_schema (cost_at resource_at : nat) (c : costs)
    (raw_data : list row) : res costs :=
  match raw_data with
  | [] => Ok c
  | r :: rest =>
      c' <- add_row_by_schema cost_at resource_at c r ;;
      process_rows_by_schema cost_at resource_at c' rest
  end.

Definition process_cost_data_by_schema (columns : list column) (raw_data : list row)
  : res costs :=
  process_rows_by_schema (cost_idx columns) (resource_idx columns) zero_costs raw_data.

(** A schema that names the usage date first and the cost second. *)
Definition date_first_columns : list column :=
  [mkColumn "UsageDate"; mkColumn "Cost"; mkColumn "ResourceType"; mkColumn "ChargeType"].

Definition date_first_rows : list row :=
  [[CInt 20261102; CFloat 5; CStr "Microsoft.Storage/storageAccounts"; CStr "Usage"]].

Definition date_first_response : properties :=
  mkProperties (Some date_first_rows) (Some date_first_columns) true.

(** A schema that names the charge type third and the resource type fourth. *)
Definition type_last_columns : list column :=
  [mkColumn "Cost"; mkColumn "UsageDate"; mkColumn "ChargeType"; mkColumn "ResourceType"].

Definition type_last_rows : list row :=
  [[CFloat 5; CInt 20261102; CStr "Usage"; CStr "Microsoft.Compute/virtualMachines"]].

Definition type_last_response : properties :=
  mkProperties (Some type_last_rows) (Some type_last_columns) true.

(** ** A subscription whose fetch fails *)

(** An answer other than 429 from which the range fetch gets no data: the
    request raised, the status is an error status, or the body has no
    usable [properties]. *)
Definition fetch_failure (o : http_outcome) : Prop :=
  match o with
  | Raised _ => True
  | Responded r =>
      status_code r <> 429
      /\ (400 <= status_code r < 600
          \/ body r = NotJson \/ body r = NoProperties \/ body r = Properties None)
  end.

(** The lines among the events of a trace. *)
Definition prints (t : list event) : list line :=
  flat_map (fun e => match e with
                     | EvPrint l => [l]
                     | _ => []
                     end) t.

(** The identifiers the examples configure. *)
Definition subscriptions (sub_name : string) : string := ("id-" ++ sub_name)%string.

(** An API that answers the two requests for the second subscription
    (prod) with status 500, and every other request with the three-day
    response. *)
Definition prod_down : world :=
  mkWorld (fun n => match n with
                    | 2%nat | 3%nat => Responded (mkResponse 500 None NotJson)
                    | _ => Responded (mkResponse 200 None
                                        (Properties (Some three_day_response)))
                    end) 0 [].

(** ** A run without failures *)

(** The sleeps, the subscriptions asked for and the tables of a trace, and
    the headings of a document. *)
Definition sleeps (t : list event) : list Z :=
  flat_map (fun e => match e with
                     | EvSleep secs => [secs]
                     | _ => []
                     end) t.

Definition requested (t : list event) : list string :=
  flat_map (fun e => match e with
                     | EvRequest r => [rq_subscription r]
                     | _ => []
                     end) t.

Definition headings (doc : document) : list string :=
  flat_map (fun i => match i with
                     | Heading text _ => [text]
                     | _ => []
                     end) doc.

(** An API that answers every request with the data [p]. *)
Definition steady (p : properties) (w : world) : Prop :=
  forall n, server w n = Responded (mkResponse 200 None (Properties (Some p))).

(** What a step of the run adds to the requests and the sleeps, the API
    staying as it is. *)
Definition adds (w w' : world) (subs : list string) (secs : list Z) : Prop :=
  server w' = server w
  /\ requested (trace w') = requested (trace w) ++ subs
  /\ sleeps (trace w') = sleeps (trace w) ++ secs.

(** ** Letter case *)

(** A text of ASCII characters.  On such a text [str.lower()] and
    [str.upper()] change the 26 letters and nothing else, as [lower] and
    [upper] do; on other characters Python follows the Unicode tables
    (the Kelvin sign, U+212A, lower-cases to k), which the model leaves
    out. *)
Fixpoint is_ascii (s : string) : bool :=
  match s with
  | EmptyString => true
  | String c rest => andb (Nat.ltb (nat_of_ascii c) 128) (is_ascii rest)
  end.

(** ** Grouping by date *)

(** Whether the date cell of a row, at position [idx], is the key of a day. *)
Definition dated (idx : nat) (key : Z) (r : row) : bool :=
  match nth_error r idx with
  | Some date => key_eqb date (CInt key)
  | None => false
  end.

(** The rows of a response that carry the date [key], in response order. *)
Definition rows_dated (p : properties) (key : Z) : list row :=
  filter (dated (date_idx (columns_of p)) key) (rows_of p).

(** A response with a date given as an integer, as a float and as a string,
    and a row of another day. *)
Definition mixed_dates_response : properties :=
  mkProperties
    (Some [[CFloat 1; CInt 20261102; CStr "Microsoft.Storage/storageAccounts"];
           [CFloat 2; CInt 20261101; CStr "Microsoft.Storage/storageAccounts"];
           [CFloat 4; CFloat 20261102; CStr "Microsoft.Compute/virtualMachines"];
           [CFloat 8; CStr "20261102"; CStr "Microsoft.Compute/virtualMachines"]])
    (Some usual_columns) true.

(** ** Days and their keys *)

(** The standard library's way back from (year, month, day) to the ordinal. *)
Definition is_leap (year : Z) : bool :=
  andb (year mod 4 =? 0) (orb (negb (year mod 100 =? 0)) (year mod 400 =? 0)).

Definition days_before_year (year : Z) : Z :=
  let y := year - 1 in y * 365 + y / 4 - y / 100 + y / 400.

Definition ymd2ord (ymd : Z * Z * Z) : Z :=
  let '(year, month, day) := ymd in
  days_before_year year + days_before_month month (is_leap year) + day.

(** The month and the day of the month of day [n] of a year, counted from 0:
    the last steps of [ord2ymd]. *)
Definition month_and_day (n : Z) (leapyear : bool) : Z * Z :=
  let month := Z.shiftr (n + 50) 5 in
  let preceding := days_before_month month leapyear in
  if n <? preceding then
    (month - 1, n - (preceding - days_in_month (month - 1) leapyear) + 1)
  else (month, n - preceding + 1).

(** The check that [month_and_day] is right about day [n]. *)
Definition month_day_ok (leapyear : bool) (n : Z) : bool :=
  let '(month, day) := month_and_day n leapyear in
  (1 <=? month) && (month <=? 12) && (1 <=? day)
  && (day <=? days_in_month month leapyear) && (day <=? 31)
  && (days_before_month month leapyear + day =? n + 1).

(** ** Rows outside the window *)

(** Whether a row carries the date of a day of the window. *)
Definition in_window (now num_days : Z) (idx : nat) (r : row) : bool :=
  existsb (fun d => dated idx (date_key d) r) (window now num_days).

(** The response without the rows that carry no date of the window. *)
Definition within_window (now num_days : Z) (p : properties) : properties :=
  mkProperties
    (option_map (filter (in_window now num_days (date_idx (columns_of p)))) (p_rows p))
    (p_columns p) (p_other_members p).

(** The three-day response with a row of 2026-10-01 and a row without a
    usable date in front. *)
Definition padded_response : properties :=
  mkProperties
    (Some ([CFloat 99; CInt 20261001; CStr "Microsoft.Compute/virtualMachines";
            CStr "Usage"; CStr "USD"]
           :: [CNull; CNull; CNull]
           :: rows_of three_day_response))
    (Some usual_columns) true.

(** ** Rows the categorizer cannot read *)

(** The exception the loop body of the categorizer raises on a row, the
    checks in the order of the body: the cost cell is there, the third cell
    if any is a string, the cost is a number. *)
Definition row_error (r : row) : option exn :=
  match r with
  | [] => Some IndexError
  | cost :: _ =>
      if negb (type_cell_ok r) then Some AttributeError
      else if negb (numeric cost) then Some TypeError
      else None
  end.

(** An API whose first answer is the data [p]. *)
Definition answers_first (p : properties) (w : world) : Prop :=
  exists r, server w (issued w) = Responded r
            /\ status_code r = 200
            /\ body r = Properties (Some p).

(** The three-day response with a row of 2026-11-01 whose cost is null. *)
Definition null_cost_response : properties :=
  mkProperties
    (Some (rows_of three_day_response
           ++ [[CNull; CInt 20261101; CStr "Microsoft.Storage/storageAccounts";
                CStr "Usage"; CStr "USD"]]))
    (Some usual_columns) true.

(** ** What a fetch returns *)


(** An answer from which the range fetch gets the data [p]. *)
Definition success_with (p : properties) (o : http_outcome) : Prop :=
  exists r, o = Responded r
            /\ status_code r <> 429
            /\ ~ 400 <= status_code r < 600
            /\ body r = Properties (Some p).

(** An API that answers 429 with an HTTP date as [Retry-After]. *)
Definition throttled_until_a_date : world :=
  mkWorld (fun _ => Responded (mkResponse 429 (Some HNotAnInt) NotJson)) 0 [].

(** ** The console's tables and the document's *)

(** A row without its second cell: a row of the console without the
    Databricks column. *)
Definition without_second (cells : list string) : list string :=
  match cells with
  | label :: _ :: rest => label :: rest
  | _ => cells
  end.

(** ** The document, section by section *)

(** Whether the cells of every row of a report's tables fit under its
    headers. *)
Definition fits (r : report) : bool :=
  forallb (fun cells => Nat.leb (List.length cells) (List.length (headers r)))
          (cost_table r ++ percent_table r).

(** The section of a subscription: its heading, its cost table, the title of
    the percentage table and that table, an empty paragraph after each
    table. *)
Definition section_of (sub_name : string) (r : report) : list doc_item :=
  [Heading (capitalize sub_name ++ " Environment") 2;
   Table (headers r) (cost_table r);
   Paragraph "";
   Paragraph ("Percentage difference for " ++ sub_name);
   Table (headers r) (percent_table r);
   Paragraph ""].

(** The sections of the subscriptions that have a report, in the order of the
    document. *)
Definition sections_of (all_data : all_data_dict) : list doc_item :=
  flat_map (fun sub_name => match lookup all_data sub_name with
                            | Some (ReportDict r) => section_of sub_name r
                            | _ => []
                            end)
           ["prod"; "dev"; "test"; "main"].

(** Every subscription of the document that [all_data] has an entry for has
    a report that fits. *)
Definition all_fit (all_data : all_data_dict) : Prop :=
  forall sub_name data,
    In sub_name ["prod"; "dev"; "test"; "main"] ->
    lookup all_data sub_name = Some data ->
    exists r, data = ReportDict r /\ fits r = true.

(** A report of one day, and data that holds it for test and for a
    subscription the document does not list. *)
Definition one_day_report : report :=
  mkReport [["11/02"; "$1.00"]] [] ["Date"; "Others"] ["11/02"].

Definition test_and_more : all_data_dict :=
  [("staging", ReportDict one_day_report); ("test", ReportDict one_day_report)].

(** ** The prompt *)

(** The number of [input] calls a console shows. *)
Definition prompts (console : list console_event) : nat :=
  List.length (filter (fun e => match e with
                                | Prompted _ => true
                                | Printed _ => false
                                end) console).

(** [int(text)] for ASCII text, up to the interpreter's limit on the number
    of digits: white space around an optional sign and decimal digits, with
    single underscores between digits. *)
Definition is_space (c : ascii) : bool :=
  let n := nat_of_ascii c in orb (Nat.eqb n 32) (andb (Nat.leb 9 n) (Nat.leb n 13)).

Fixpoint lstrip (text : string) : string :=
  match text with
  | EmptyString => EmptyString
  | String c rest => if is_space c then lstrip rest else text
  end.

Fixpoint all_spaces (text : string) : bool :=
  match text with
  | EmptyString => true
  | String c rest => andb (is_space c) (all_spaces rest)
  end.

Inductive numeral_state : Set :=
| AtStart
| AfterDigit
| AfterUnderscore.

Fixpoint numeral (value : Z) (state : numeral_state) (text : string) : option Z :=
  match text with
  | EmptyString =>
      match state with
      | AfterDigit => Some value
      | _ => None
      end
  | String c rest =>
      if is_digit c then
        numeral (10 * value + Z.of_nat (nat_of_ascii c - 48)) AfterDigit rest
      else
        match state with
        | AfterDigit =>
            if Ascii.eqb c "_" then numeral value AfterUnderscore rest
            else if all_spaces text then Some value
            else None
        | _ => None
        end
  end.

Definition py_int (text : string) : option Z :=
  match lstrip text with
  | String "+" rest => numeral 0 AtStart rest
  | String "-" rest => option_map Z.opp (numeral 0 AtStart rest)
  | stripped => numeral 0 AtStart stripped
  end.

(** Lines the prompt refuses, one round after the other: a line that is not
    a number, a number below 1, or a number above 90 together with the line
    that does not confirm it. *)
Inductive refused (int : string -> option Z) : list string -> Prop :=
| refused_none : refused int []
| refused_not_a_number (answer : string) (more : list string) :
    int answer = None -> refused int more -> refused int (answer :: more)
| refused_below_one (answer : string) (n : Z) (more : list string) :
    int answer = Some n -> n < 1 -> refused int more -> refused int (answer :: more)
| refused_unconfirmed (answer : string) (n : Z) (confirm : string) (more : list string) :
    int answer = Some n -> 90 < n -> lower confirm <> "yes" -> refused int more ->
    refused int (answer :: confirm :: more).

(** A hesitant user: not a number, zero, 120 days and no, 120 days and YES;
    two lines are left. *)
Definition hesitant : list string :=
  ["three"; "0"; "120"; "no"; " 1_20 "; "YES"; "7"; "8"].

(** ** Start-up *)

(** An environment with the seven variables set. *)
Definition complete_environ : Startup.environ :=
  fun var =>
    if String.eqb var "AZURE_TENANT_ID" then Some "tenant"
    else if String.eqb var "AZURE_CLIENT_ID" then Some "client"
    else if String.eqb var "AZURE_CLIENT_SECRET" then Some "secret"
    else if String.eqb var "SUBSCRIPTION_MAIN" then Some "id-main"
    else if String.eqb var "SUBSCRIPTION_PROD" then Some "id-prod"
    else if String.eqb var "SUBSCRIPTION_DEV" then Some "id-dev"
    else if String.eqb var "SUBSCRIPTION_TEST" then Some "id-test"
    else None.

(** The same environment with the client secret empty and no identifier for
    the dev subscription. *)
Definition incomplete_environ : Startup.environ :=
  fun var =>
    if String.eqb var "AZURE_CLIENT_SECRET" then Some ""
    else if String.eqb var "SUBSCRIPTION_DEV" then None
    else complete_environ var.

(** An identity provider that answers every request with a token, and one
    that answers with status 401 and an error object. *)
Definition grants (text : string) (rq : Startup.token_request) : Startup.token_outcome :=
  Startup.Responded (Startup.mkTokenResponse 200 (Startup.AccessToken text)).

Definition refuses (rq : Startup.token_request) : Startup.token_outcome :=
  Startup.Responded (Startup.mkTokenResponse 401 Startup.NoAccessToken).

(** The variable that holds the identifier of a subscription. *)
Definition variable_of (sub_name : string) : string :=
  ("SUBSCRIPTION_" ++ upper sub_name)%string.

(** ** The greeting *)

(** A day as the greeting names it: its weekday and its date. *)
Definition named (d : Z) : string :=
  (weekday_name d ++ " (" ++ date_str d ++ ")")%string.

(** ** The order of the run *)

(** The lines that mark the progress of the main block: the banner of a
    subscription, the pause after it, the end of the console report. *)
Definition is_mark (e : event) : bool :=
  match e with
  | EvPrint (Banner _) | EvPrint Waiting | EvPrint ReportCompleted => true
  | _ => false
  end.

Definition marks (t : list event) : list event := filter is_mark t.

(** The marks of a run that reaches the document. *)
Definition full_round : list event :=
  [EvPrint (Banner "MAIN"); EvPrint Waiting;
   EvPrint (Banner "PROD"); EvPrint Waiting;
   EvPrint (Banner "DEV"); EvPrint Waiting;
   EvPrint (Banner "TEST"); EvPrint ReportCompleted].

(** * Properties *)

(** ** Reading a response row *)

Lemma category_eqb_eq (a b : category) : category_eqb a b = true <-> a = b.
Proof. destruct a, b; simpl; split; intro H; try reflexivity; discriminate H. Qed.

Lemma category_eqb_refl (k : category) : category_eqb k k = true.
Proof. destruct k; reflexivity. Qed.

Lemma category_eqb_neq (a b : category) : a <> b -> category_eqb a b = false.
Proof.
  intro H. destruct (category_eqb a b) eqn:E; [|reflexivity].
  apply category_eqb_eq in E. contradiction.
Qed.

Lemma get_set_same (c : costs) (k : category) (v : pynum) :
  costs_get (costs_set c k v) k = v.
Proof. destruct k; reflexivity. Qed.

Lemma get_set_other (c : costs) (k k' : category) (v : pynum) :
  k <> k' -> costs_get (costs_set c k v) k' = costs_get c k'.
Proof. destruct k, k'; intro H; try reflexivity; contradiction H; reflexivity. Qed.

Lemma bind_ok {A B : Type} (m : res A) (k : A -> res B) (b : B) :
  bind m k = Ok b -> exists a, m = Ok a /\ k a = Ok b.
Proof. destruct m as [a|e]; simpl; intro H; [eauto | discriminate H]. Qed.

(** Inverts a successful [x <- m ;; k] in hypothesis [H]: [x] is the value
    of [m], [Hx] says so, and [H] becomes the success of [k]. *)
Ltac bind_inv H x Hx :=
  apply bind_ok in H; destruct H as [x [Hx H]].

(** What a successful loop iteration did. *)
Lemma add_row_ok (c c' : costs) (r : row) :
  add_row c r = Ok c' ->
  exists v, add_cell (costs_get c (category_of r)) (cost_of r) = Ok v
            /\ c' = costs_set c (category_of r) v.
Proof.
  unfold add_row. intro H.
  bind_inv H cost Hcost.
  bind_inv H s Hs.
  bind_inv H v Hv.
  injection H as <-.
  assert (Hc : cost_of r = cost).
  { unfold item in Hcost. unfold cost_of. destruct r as [|x r']; simpl in *;
      [discriminate Hcost | now injection Hcost]. }
  exists v. unfold category_of. rewrite Hs, Hc. split; [exact Hv | reflexivity].
Qed.

(** Each bucket is the running sum of the costs filed under it. *)
Lemma process_rows_buckets (rows : list row) :
  forall c0 c, process_rows c0 rows = Ok c ->
  forall k, sum_from (costs_get c0 k) (costs_in k rows) = Ok (costs_get c k).
Proof.
  induction rows as [|r rest IH]; intros c0 c H k.
  - simpl in H. injection H as <-. reflexivity.
  - simpl in H. apply bind_ok in H. destruct H as [c1 [Hrow Hrest]].
    apply add_row_ok in Hrow. destruct Hrow as [v [Hv ->]].
    specialize (IH _ _ Hrest k). unfold costs_in in *. simpl.
    destruct (category_eqb (category_of r) k) eqn:E.
    + apply category_eqb_eq in E. subst k. simpl. rewrite Hv. simpl.
      rewrite get_set_same in IH. exact IH.
    + rewrite get_set_other in IH; [exact IH|].
      intro Heq. rewrite Heq, category_eqb_refl in E. discriminate E.
Qed.

(** Every input cost is an addend of exactly one bucket. *)
Lemma buckets_partition (rows : list row) :
  Permutation (flat_map (fun k => costs_in k rows) all_categories)
              (map cost_of rows).
Proof.
  unfold all_categories, costs_in. simpl. rewrite app_nil_r.
  induction rows as [|r rest IH]; [constructor|].
  simpl. destruct (category_of r); simpl.
  - constructor. exact IH.
  - eapply perm_trans; [|apply perm_skip, IH].
    apply Permutation_sym, Permutation_middle.
  - eapply perm_trans; [|apply perm_skip, IH].
    rewrite app_assoc. apply Permutation_sym.
    rewrite app_assoc. apply Permutation_middle.
  - eapply perm_trans; [|apply perm_skip, IH].
    rewrite !app_assoc. apply Permutation_sym, Permutation_middle.
Qed.

(** ** Rows the categorizer can read *)

Lemma row_with_item (p : cell -> bool) (r : row) :
  row_with p r = true -> item r 0 = Ok (cost_of r) /\ p (cost_of r) = true.
Proof.
  destruct r as [|c r']; simpl; [discriminate|].
  intro H. apply andb_prop in H. destruct H as [H _]. split; [reflexivity | exact H].
Qed.

Lemma row_with_type (p : cell -> bool) (r : row) :
  row_with p r = true -> exists s, resource_type_of r = Ok s.
Proof.
  destruct r as [|c r']; simpl; [discriminate|].
  intro H. apply andb_prop in H. destruct H as [_ H].
  unfold resource_type_of, item, type_cell_ok in *.
  destruct (2 <? Z.of_nat (List.length (c :: r'))) eqn:Hlen; [|eauto].
  destruct (nth_error (c :: r') 2) as [x|] eqn:Hnth; simpl.
  - destruct x; simpl in H; try discriminate H. eauto.
  - apply nth_error_None in Hnth. apply Z.ltb_lt in Hlen. lia.
Qed.

Lemma add_row_typed (p : cell -> bool) (c : costs) (r : row) :
  row_with p r = true ->
  add_row c r = v <- add_cell (costs_get c (category_of r)) (cost_of r) ;;
                Ok (costs_set c (category_of r) v).
Proof.
  intro H. unfold add_row, category_of.
  destruct (row_with_item _ _ H) as [-> _].
  destruct (row_with_type _ _ H) as [s ->]. reflexivity.
Qed.

Lemma float_of_int_raise (z : Z) (e : exn) :
  float_of_int z = Raise e -> e = OverflowError.
Proof.
  unfold float_of_int.
  destruct (binary_normalize prec emax z 0 false); intro H;
    first [discriminate H | now injection H].
Qed.

Lemma py_add_raise (a b : pynum) (e : exn) :
  py_add a b = Raise e -> e = OverflowError.
Proof.
  destruct a as [x|f], b as [y|g]; unfold py_add, float_binop, to_float; simpl;
    try discriminate.
  - destruct (float_of_int x) eqn:E; simpl; [discriminate|].
    intro H. injection H as <-. eapply float_of_int_raise; eauto.
  - destruct (float_of_int y) eqn:E; simpl; [discriminate|].
    intro H. injection H as <-. eapply float_of_int_raise; eauto.
Qed.

Lemma add_cell_raise (acc : pynum) (c : cell) (e : exn) :
  numeric c = true -> add_cell acc c = Raise e -> e = OverflowError.
Proof.
  destruct c; simpl; try discriminate; intros _; apply py_add_raise.
Qed.

Lemma sum_from_raise (l : list cell) :
  forall acc e, forallb numeric l = true -> sum_from acc l = Raise e ->
                e = OverflowError.
Proof.
  induction l as [|c rest IH]; intros acc e Hl H; simpl in *; [discriminate H|].
  apply andb_prop in Hl. destruct Hl as [Hc Hrest].
  destruct (add_cell acc c) as [acc'|e'] eqn:E; simpl in H.
  - eapply IH; eauto.
  - injection H as <-. eapply add_cell_raise; eauto.
Qed.

Lemma costs_in_numeric (p : cell -> bool) (k : category) (rows : list row) :
  (forall c, p c = true -> numeric c = true) ->
  forallb (row_with p) rows = true -> forallb numeric (costs_in k rows) = true.
Proof.
  intros Hp. unfold costs_in.
  induction rows as [|r rest IH]; simpl; [reflexivity|].
  intro H. apply andb_prop in H. destruct H as [Hr Hrest].
  destruct (category_eqb (category_of r) k); simpl; [|auto].
  rewrite (Hp _ (proj2 (row_with_item _ _ Hr))). simpl. auto.
Qed.

Lemma buckets_from_raise (p : cell -> bool) (c0 : costs) (rows : list row) (e : exn) :
  (forall c, p c = true -> numeric c = true) ->
  forallb (row_with p) rows = true ->
  buckets_from c0 rows = Raise e -> e = OverflowError.
Proof.
  intros Hp Hrows. unfold buckets_from.
  pose proof (fun k => costs_in_numeric p k rows Hp Hrows) as Hnum.
  destruct (sum_from (c_databricks c0) _) eqn:E1; simpl;
    [|intro H; injection H as <-; eapply sum_from_raise; eauto].
  destruct (sum_from (c_vm c0) _) eqn:E2; simpl;
    [|intro H; injection H as <-; eapply sum_from_raise; eauto].
  destruct (sum_from (c_storage c0) _) eqn:E3; simpl;
    [|intro H; injection H as <-; eapply sum_from_raise; eauto].
  destruct (sum_from (c_others c0) _) eqn:E4; simpl;
    [discriminate|intro H; injection H as <-; eapply sum_from_raise; eauto].
Qed.

Lemma buckets_from_cons_ok (c0 : costs) (r : row) (rest : list row) (v : pynum) :
  add_cell (costs_get c0 (category_of r)) (cost_of r) = Ok v ->
  buckets_from c0 (r :: rest) = buckets_from (costs_set c0 (category_of r) v) rest.
Proof.
  intro H. unfold buckets_from, costs_in. simpl.
  destruct (category_of r); simpl in *; rewrite H; reflexivity.
Qed.

Lemma buckets_from_cons_raise (c0 : costs) (r : row) (rest : list row) (e : exn) :
  add_cell (costs_get c0 (category_of r)) (cost_of r) = Raise e ->
  exists e', buckets_from c0 (r :: rest) = Raise e'.
Proof.
  intro H. unfold buckets_from, costs_in. simpl.
  destruct (category_of r); simpl in *; rewrite ?H; simpl;
    repeat match goal with
           | |- context [bind (sum_from ?a ?l) _] =>
               destruct (sum_from a l); simpl
           | |- context [bind (Raise ?x) _] => simpl
           end; eauto.
Qed.

(** On rows it can read, the categorizer computes the four running sums. *)
Lemma process_rows_spec (p : cell -> bool) (rows : list row) :
  (forall c, p c = true -> numeric c = true) ->
  forallb (row_with p) rows = true ->
  forall c0, process_rows c0 rows = buckets_from c0 rows.
Proof.
  intro Hp. induction rows as [|r rest IH]; intros Hrows c0.
  - destruct c0. reflexivity.
  - pose proof Hrows as Hall. simpl in Hrows.
    apply andb_prop in Hrows. destruct Hrows as [Hr Hrest].
    simpl. rewrite (add_row_typed _ _ _ Hr).
    destruct (add_cell (costs_get c0 (category_of r)) (cost_of r)) as [v|e] eqn:E; simpl.
    + rewrite (buckets_from_cons_ok _ _ _ _ E). apply IH. exact Hrest.
    + assert (e = OverflowError) as ->.
      { eapply add_cell_raise; [|exact E].
        apply Hp. apply (row_with_item _ _ Hr). }
      destruct (buckets_from_cons_raise c0 r rest _ E) as [e' He'].
      rewrite He'. f_equal. symmetry.
      eapply buckets_from_raise; eauto.
Qed.

(** ** Float costs: the categorizer returns *)

Lemma add_cell_float (acc : pynum) (c : cell) :
  zero_or_float acc = true -> is_float c = true ->
  exists g, add_cell acc c = Ok (PyFloat g).
Proof.
  destruct c as [| |f|]; simpl; try discriminate. intros Hacc _.
  destruct acc as [z|g]; simpl in *.
  - apply Z.eqb_eq in Hacc. subst z. eexists. reflexivity.
  - eexists. reflexivity.
Qed.

Lemma sum_from_floats (l : list cell) :
  forall acc, zero_or_float acc = true -> forallb is_float l = true ->
  exists v, sum_from acc l = Ok v /\ zero_or_float v = true.
Proof.
  induction l as [|c rest IH]; intros acc Hacc Hl; simpl in *; [eauto|].
  apply andb_prop in Hl. destruct Hl as [Hc Hrest].
  destruct (add_cell_float acc c Hacc Hc) as [g ->]. simpl.
  apply IH; [reflexivity | exact Hrest].
Qed.

Lemma costs_in_all (p : cell -> bool) (k : category) (rows : list row) :
  forallb (row_with p) rows = true -> forallb p (costs_in k rows) = true.
Proof.
  unfold costs_in. induction rows as [|r rest IH]; simpl; [reflexivity|].
  intro H. apply andb_prop in H. destruct H as [Hr Hrest].
  destruct (category_eqb (category_of r) k); simpl; [|auto].
  rewrite (proj2 (row_with_item _ _ Hr)). simpl. auto.
Qed.

Lemma is_float_numeric (c : cell) : is_float c = true -> numeric c = true.
Proof. destruct c; simpl; congruence. Qed.

Lemma is_int_numeric (c : cell) : is_int c = true -> numeric c = true.
Proof. destruct c; simpl; congruence. Qed.

Lemma process_float_rows (rows : list row) :
  forallb (row_with is_float) rows = true ->
  exists c, process_cost_data rows = Ok c /\ all_zero_or_float c.
Proof.
  intro H. unfold process_cost_data.
  rewrite (process_rows_spec is_float rows is_float_numeric H).
  unfold buckets_from.
  destruct (sum_from_floats (costs_in Databricks rows) (c_databricks zero_costs)
              eq_refl (costs_in_all _ _ _ H)) as [d [-> Hd]].
  destruct (sum_from_floats (costs_in VirtualMachine rows) (c_vm zero_costs)
              eq_refl (costs_in_all _ _ _ H)) as [v [-> Hv]].
  destruct (sum_from_floats (costs_in Storage rows) (c_storage zero_costs)
              eq_refl (costs_in_all _ _ _ H)) as [s [-> Hs]].
  destruct (sum_from_floats (costs_in Others rows) (c_others zero_costs)
              eq_refl (costs_in_all _ _ _ H)) as [o [-> Ho]].
  simpl. eexists. split; [reflexivity|]. intros []; assumption.
Qed.

(** ** Integer costs: the sums are exact *)

Lemma int_sum_app (l l' : list cell) : int_sum (l ++ l') = int_sum l + int_sum l'.
Proof. induction l as [|c l0 IH]; simpl; [reflexivity | rewrite IH; lia]. Qed.

Lemma int_sum_perm (l l' : list cell) : Permutation l l' -> int_sum l = int_sum l'.
Proof. induction 1; simpl; lia. Qed.

Lemma sum_from_ints (l : list cell) :
  forall z, forallb is_int l = true -> sum_from (PyInt z) l = Ok (PyInt (z + int_sum l)).
Proof.
  induction l as [|c rest IH]; intros z Hl; simpl in *.
  - now rewrite Z.add_0_r.
  - apply andb_prop in Hl. destruct Hl as [Hc Hrest].
    destruct c; simpl in Hc; try discriminate Hc. simpl.
    rewrite IH by exact Hrest. do 2 f_equal. lia.
Qed.

Lemma process_int_rows (rows : list row) :
  forallb (row_with is_int) rows = true ->
  process_cost_data rows =
    Ok (mkCosts (PyInt (int_sum (costs_in Databricks rows)))
                (PyInt (int_sum (costs_in VirtualMachine rows)))
                (PyInt (int_sum (costs_in Storage rows)))
                (PyInt (int_sum (costs_in Others rows)))).
Proof.
  intro H. unfold process_cost_data.
  rewrite (process_rows_spec is_int rows is_int_numeric H).
  unfold buckets_from, zero_costs. simpl.
  rewrite !sum_from_ints by (apply (costs_in_all is_int); exact H).
  reflexivity.
Qed.

Lemma map_cost_of_all (p : cell -> bool) (rows : list row) :
  forallb (row_with p) rows = true -> forallb p (map cost_of rows) = true.
Proof.
  induction rows as [|r rest IH]; simpl; [reflexivity|].
  intro H. apply andb_prop in H. destruct H as [Hr Hrest].
  rewrite (proj2 (row_with_item _ _ Hr)). simpl. auto.
Qed.

(** ** Every order of a list *)

Lemma insert_all_in {A : Type} (a : A) (l1 l2 : list A) :
  In (l1 ++ a :: l2) (insert_all a (l1 ++ l2)).
Proof.
  induction l1 as [|b l1 IH]; simpl.
  - destruct l2; simpl; auto.
  - right. apply in_map. exact IH.
Qed.

Lemma orders_complete {A : Type} (l : list A) :
  forall l', Permutation l l' -> In l' (orders l).
Proof.
  induction l as [|a rest IH]; intros l' H.
  - apply Permutation_nil in H. subst. simpl. auto.
  - assert (Hin : In a l') by (eapply Permutation_in; [exact H | simpl; auto]).
    apply in_split in Hin. destruct Hin as [l1 [l2 ->]].
    apply Permutation_cons_app_inv in H.
    simpl. apply in_flat_map. exists (l1 ++ l2). split; [auto|].
    apply insert_all_in.
Qed.

(** ** Conservation of cost by the categorizer *)

(** C2, as stated, fails: on [rounding_rows] the buckets are 0.2 and
    1.2999999999999998, their sum is 1.4999999999999998, and the input costs
    add up to 1.5 in whichever order they are added. *)
Lemma conservation_fails_on_floats :
  exists c t,
    process_cost_data rounding_rows = Ok c
    /\ bucket_total c = Ok t
    /\ py_sum (map cost_of rounding_rows) = Ok (PyFloat 1.5)
    /\ py_eqb t (PyFloat 1.5) = false
    /\ forall order, Permutation (map cost_of rounding_rows) order ->
                     sums_apart_from t order = true.
Proof.
  eexists. eexists.
  split; [vm_compute; reflexivity|].
  split; [vm_compute; reflexivity|].
  split; [vm_compute; reflexivity|].
  split; [vm_compute; reflexivity|].
  intros order H. apply orders_complete in H. revert order H.
  apply forallb_forall. vm_compute. reflexivity.
Qed.

(** C2 (amended): every input cost is added to exactly one bucket.  Whenever
    the categorizer returns, each bucket is the running sum, in response
    order, of the costs of the rows filed under its category, and the
    addends of the four buckets are, up to order, the input costs: none is
    dropped, none is counted twice.  The categorizer returns on rows with
    float costs and on rows with integer costs, and for integer costs the
    four buckets add up exactly to the sum of the input costs. *)
Theorem buckets_conserve_costs (rows : list row) :
  (forall c, process_cost_data rows = Ok c ->
             forall k, py_sum (costs_in k rows) = Ok (costs_get c k))
  /\ Permutation (flat_map (fun k => costs_in k rows) all_categories)
                 (map cost_of rows)
  /\ (forallb (row_with is_float) rows = true ->
      exists c, process_cost_data rows = Ok c)
  /\ (forallb (row_with is_int) rows = true ->
      exists c, process_cost_data rows = Ok c
                /\ bucket_total c = py_sum (map cost_of rows)
                /\ py_sum (map cost_of rows) = Ok (PyInt (int_sum (map cost_of rows)))).
Proof.
  split; [|split; [|split]].
  - intros c H k. unfold py_sum.
    replace (PyInt 0) with (costs_get zero_costs k) by (destruct k; reflexivity).
    apply process_rows_buckets. exact H.
  - apply buckets_partition.
  - intro H. destruct (process_float_rows rows H) as [c [Hc _]]. eauto.
  - intro H. eexists. split; [apply process_int_rows; exact H|].
    assert (Hsum : py_sum (map cost_of rows) = Ok (PyInt (int_sum (map cost_of rows)))).
    { unfold py_sum. rewrite sum_from_ints by (apply (map_cost_of_all is_int); exact H).
      reflexivity. }
    split; [|exact Hsum]. rewrite Hsum.
    unfold bucket_total. simpl. do 2 f_equal.
    rewrite <- (int_sum_perm _ _ (buckets_partition rows)).
    unfold all_categories. simpl. rewrite !int_sum_app. simpl. lia.
Qed.

Lemma buckets_conserve_costs_witness :
  exists c, process_cost_data integer_rows = Ok c
            /\ bucket_total c = Ok (PyInt 10)
            /\ py_sum (map cost_of integer_rows) = Ok (PyInt 10).
Proof.
  destruct (buckets_conserve_costs integer_rows) as [_ [_ [_ H]]].
  destruct (H eq_refl) as [c [Hc [Ht Hs]]].
  exists c. split; [exact Hc|]. rewrite Ht. split; exact Hs.
Defined.

(** ** Row order *)

(** C8, as stated, fails: the three rows of [vm_rows] give a virtual machine
    bucket of 0.6000000000000001, the same rows in reverse order give 0.6. *)
Lemma row_order_changes_float_bucket :
  Permutation vm_rows (rev vm_rows)
  /\ exists c c',
       process_cost_data vm_rows = Ok c
       /\ process_cost_data (rev vm_rows) = Ok c'
       /\ c <> c'
       /\ py_eqb (costs_get c VirtualMachine) (costs_get c' VirtualMachine) = false.
Proof.
  split; [apply Permutation_rev|].
  eexists. eexists.
  split; [vm_compute; reflexivity|].
  split; [vm_compute; reflexivity|].
  split; [|vm_compute; reflexivity].
  intro H.
  apply (f_equal (fun c => match c_vm c with
                           | PyFloat f => PrimFloat.eqb f (0.3 + 0.2 + 0.1)
                           | PyInt _ => false
                           end)) in H.
  vm_compute in H. discriminate H.
Qed.

Lemma costs_in_perm (k : category) (rows rows' : list row) :
  Permutation rows rows' -> Permutation (costs_in k rows) (costs_in k rows').
Proof.
  unfold costs_in. induction 1 as [|r l l' _ IH|r r' l|l l' l'' _ IH1 _ IH2]; simpl.
  - constructor.
  - destruct (category_eqb (category_of r) k); simpl; [constructor|]; exact IH.
  - destruct (category_eqb (category_of r) k), (category_eqb (category_of r') k);
      simpl; try apply Permutation_refl. constructor.
  - eapply perm_trans; eauto.
Qed.

Lemma forallb_perm {A : Type} (p : A -> bool) (l l' : list A) :
  Permutation l l' -> forallb p l = true -> forallb p l' = true.
Proof.
  intros H Hl. apply forallb_forall. intros x Hx.
  rewrite forallb_forall in Hl. apply Hl.
  eapply Permutation_in; [apply Permutation_sym; exact H | exact Hx].
Qed.

(** C8 (amended): on rows the categorizer can read, the breakdown is
    determined by the sequence of costs filed under each category, so moving
    rows of different categories past one another does not change it; and
    for integer costs every permutation of the rows gives the same
    breakdown.  (Reordering float costs within one category reorders a
    floating-point sum, which can change the bucket.) *)
Theorem breakdown_and_row_order (rows rows' : list row) :
  forallb (row_with numeric) rows = true ->
  forallb (row_with numeric) rows' = true ->
  ((forall k, costs_in k rows = costs_in k rows') ->
   process_cost_data rows = process_cost_data rows')
  /\ (Permutation rows rows' -> forallb (row_with is_int) rows = true ->
      process_cost_data rows = process_cost_data rows').
Proof.
  intros H H'. split.
  - intro Hk. unfold process_cost_data.
    rewrite (process_rows_spec numeric rows (fun _ h => h) H).
    rewrite (process_rows_spec numeric rows' (fun _ h => h) H').
    unfold buckets_from. rewrite !Hk. reflexivity.
  - intros Hperm Hint.
    rewrite (process_int_rows rows Hint).
    rewrite (process_int_rows rows' (forallb_perm _ _ _ Hperm Hint)).
    rewrite (int_sum_perm _ _ (costs_in_perm Databricks _ _ Hperm)).
    rewrite (int_sum_perm _ _ (costs_in_perm VirtualMachine _ _ Hperm)).
    rewrite (int_sum_perm _ _ (costs_in_perm Storage _ _ Hperm)).
    rewrite (int_sum_perm _ _ (costs_in_perm Others _ _ Hperm)).
    reflexivity.
Qed.

Lemma breakdown_and_row_order_witness :
  process_cost_data mixed_rows = process_cost_data mixed_rows_moved
  /\ process_cost_data integer_rows = process_cost_data (rev integer_rows).
Proof.
  split.
  - apply (proj1 (breakdown_and_row_order mixed_rows mixed_rows_moved eq_refl eq_refl)).
    intros []; reflexivity.
  - apply (proj2 (breakdown_and_row_order integer_rows (rev integer_rows)
                    eq_refl eq_refl)).
    + apply Permutation_rev.
    + reflexivity.
Defined.

(** ** The tables, row by row *)

Lemma map_res_ok {A B : Type} (f : A -> res B) (l : list A) :
  forall bs, map_res f l = Ok bs -> Forall2 (fun a b => f a = Ok b) l bs.
Proof.
  induction l as [|a rest IH]; intros bs H; simpl in H.
  - injection H as <-. constructor.
  - bind_inv H b Hb.
    bind_inv H bs' Hbs.
    injection H as <-. constructor; auto.
Qed.

Lemma map_res_ext_in {A B : Type} (f g : A -> res B) (l : list A) :
  (forall a, In a l -> f a = g a) -> map_res f l = map_res g l.
Proof.
  induction l as [|a rest IH]; intro H; simpl; [reflexivity|].
  rewrite (H a (or_introl eq_refl)), IH; [reflexivity|].
  intros x Hx. apply H. now right.
Qed.

Lemma map_res_total {A B : Type} (f : A -> res B) (l : list A) :
  (forall a, In a l -> exists b, f a = Ok b) -> exists bs, map_res f l = Ok bs.
Proof.
  induction l as [|a rest IH]; intro H; simpl; [eauto|].
  destruct (H a (or_introl eq_refl)) as [b ->]. simpl.
  destruct IH as [bs ->]; [intros; apply H; simpl; auto|]. simpl. eauto.
Qed.

Lemma Forall2_nth_error {A B : Type} (R : A -> B -> Prop) (l : list A) (l' : list B) :
  Forall2 R l l' ->
  forall i a, nth_error l i = Some a -> exists b, nth_error l' i = Some b /\ R a b.
Proof.
  induction 1 as [|x y l l' Hxy _ IH]; intros i a Hi.
  - destruct i; discriminate Hi.
  - destruct i as [|i]; simpl in *.
    + injection Hi as <-. eauto.
    + eauto.
Qed.

(** A row of the percent table: its label, then one cell per category. *)
Lemma percent_row_ok (categories : list category) (label : string)
    (prev curr : costs) (r : list string) :
  percent_row categories label prev curr = Ok r ->
  exists cells,
    r = label :: cells
    /\ Forall2 (fun k s => percent_cell (costs_get prev k) (costs_get curr k) = Ok s)
               categories cells.
Proof.
  unfold percent_row. intro H. bind_inv H cells Hc.
  injection H as <-. exists cells. split; [reflexivity|].
  apply map_res_ok in Hc. exact Hc.
Qed.

(** A row of the cost table: its label, then one cell per category. *)
Lemma cost_row_ok (categories : list category) (label : string) (c : costs)
    (r : list string) :
  cost_row categories label c = Ok r ->
  exists cells,
    r = label :: cells
    /\ Forall2 (fun k s => cost_cell (costs_get c k) = Ok s) categories cells.
Proof.
  unfold cost_row. intro H. bind_inv H cells Hc.
  injection H as <-. exists cells. split; [reflexivity|].
  apply map_res_ok in Hc. exact Hc.
Qed.

(** The percent table has one row for each index [i] from 1 on: row [i - 1]
    compares [all_costs[i]] with [all_costs[i - 1]] and is labelled
    [label i]. *)
Lemma percent_rows_ok (categories : list category) (label : nat -> string)
    (rest : list costs) :
  forall i prev rows,
    percent_rows categories label i prev rest = Ok rows ->
    List.length rows = List.length rest
    /\ forall j p c,
         nth_error (prev :: rest) j = Some p ->
         nth_error rest j = Some c ->
         exists r, nth_error rows j = Some r
                   /\ percent_row categories (label (i + j)%nat) p c = Ok r.
Proof.
  induction rest as [|curr rest' IH]; intros i prev rows H; simpl in H.
  - injection H as <-. split; [reflexivity|]. intros j p c _ Hc.
    destruct j; discriminate Hc.
  - bind_inv H r Hr.
    bind_inv H rs Hrs.
    injection H as <-. destruct (IH _ _ _ Hrs) as [Hlen Hnth].
    split; [simpl; now rewrite Hlen|].
    intros j p c Hp Hc. destruct j as [|j]; simpl in *.
    + injection Hp as <-. injection Hc as <-.
      rewrite Nat.add_0_r. eauto.
    + replace (i + S j)%nat with (S i + j)%nat by lia. eauto.
Qed.

Lemma build_percent_table_ok (categories : list category) (label : nat -> string)
    (all_costs : list costs) (rows : list (list string)) :
  build_percent_table categories label all_costs = Ok rows ->
  List.length rows = (List.length all_costs - 1)%nat
  /\ forall i p c,
       nth_error all_costs i = Some p ->
       nth_error all_costs (S i) = Some c ->
       exists r, nth_error rows i = Some r
                 /\ percent_row categories (label (S i)) p c = Ok r.
Proof.
  destruct all_costs as [|first rest]; simpl; intro H.
  - injection H as <-. split; [reflexivity|]. intros i p c Hp.
    destruct i; discriminate Hp.
  - destruct (percent_rows_ok _ _ _ _ _ _ H) as [Hlen Hnth].
    split; [rewrite Hlen; lia|]. intros i p c Hp Hc. apply Hnth; assumption.
Qed.

(** ** The shape of a formatted number *)

Lemma append_assoc (a b c : string) : ((a ++ b) ++ c = a ++ (b ++ c))%string.
Proof. induction a as [|x a IH]; simpl; [reflexivity | now rewrite IH]. Qed.

Lemma uint_digits (u : Decimal.uint) : all_digits (NilEmpty.string_of_uint u) = true.
Proof. induction u; simpl; auto. Qed.

Lemma decimal_digits (n : Z) : all_digits (decimal n) = true /\ decimal n <> "".
Proof.
  unfold decimal, NilZero.string_of_uint.
  destruct (N.to_uint (Z.to_N n)) eqn:E; simpl;
    try (split; [try reflexivity; apply uint_digits | discriminate]).
Qed.

Lemma decimal_one_digit (n : Z) :
  0 <= n < 10 -> exists d, decimal n = String d "" /\ is_digit d = true.
Proof.
  intro H. rewrite <- (Z2Nat.id n) by lia.
  assert (Hlt : (Z.to_nat n < 10)%nat) by lia.
  destruct (Z.to_nat n) as [|[|[|[|[|[|[|[|[|[|k]]]]]]]]]];
    try lia; eexists; split; reflexivity.
Qed.

Lemma fixed2_shape (tail : string) (h : Z) :
  exists whole d1 d2,
    (fixed2 h ++ tail = whole ++ String "." (String d1 (String d2 tail)))%string
    /\ whole <> "" /\ all_digits whole = true
    /\ is_digit d1 = true /\ is_digit d2 = true.
Proof.
  unfold fixed2.
  destruct (decimal_one_digit ((h / 10) mod 10)) as [d1 [E1 H1]];
    [apply Z.mod_pos_bound; lia|].
  destruct (decimal_one_digit (h mod 10)) as [d2 [E2 H2]];
    [apply Z.mod_pos_bound; lia|].
  destruct (decimal_digits (h / 100)) as [Hd Hne].
  exists (decimal (h / 100)), d1, d2. rewrite E1, E2.
  rewrite !append_assoc. simpl. auto.
Qed.

Lemma finite_Prim2SF (f : float) :
  is_finite f = true ->
  (exists s, Prim2SF f = S754_zero s) \/ (exists s m e, Prim2SF f = S754_finite s m e).
Proof.
  unfold is_finite, Prim2SF. intro H.
  destruct (is_nan f); [discriminate H|]. simpl in H.
  destruct (is_zero f); [eauto|].
  destruct (is_infinity f); [discriminate H|].
  destruct (Z.frexp f) as [r ex].
  destruct (shr_fexp prec emax (Uint63Axioms.to_Z (normfr_mantissa r)) (ex - prec)
              loc_Exact) as [shr e'].
  destruct (shr_m shr); eauto.
Qed.

(** A finite float formats as a sign, digits, a point and two digits. *)
Lemma format_float_shape (tail : string) (f : float) :
  is_finite f = true ->
  signed_two_decimals tail (format_float_2f true f ++ tail).
Proof.
  intro H. unfold format_float_2f.
  destruct (finite_Prim2SF f H) as [[s ->] | [s [m [e ->]]]].
  - exists (if s then "-"%char else "+"%char), "0", "0"%char, "0"%char.
    destruct s; simpl; repeat split; auto; discriminate.
  - destruct (fixed2_shape tail (hundredths m e)) as [whole [d1 [d2 [E [H1 [H2 [H3 H4]]]]]]].
    exists (if s then "-"%char else "+"%char), whole, d1, d2.
    destruct s; simpl; rewrite E; repeat split; auto.
Qed.

(** ** The window and the grouped response *)

Lemma day_offsets_length (num_days : Z) :
  List.length (day_offsets num_days) = Z.to_nat num_days.
Proof. unfold day_offsets. now rewrite length_map, length_seq. Qed.

Lemma window_length (now num_days : Z) :
  List.length (window now num_days) = Z.to_nat num_days.
Proof. unfold window. now rewrite length_map, day_offsets_length. Qed.

(** Day [j + 1] of the window is [num_days - j] days before [now]. *)
Lemma window_nth (now num_days : Z) (j : nat) :
  (j < Z.to_nat num_days)%nat ->
  nth_error (window now num_days) j = Some (now - num_days + Z.of_nat j).
Proof.
  intro H. unfold window, day_offsets. rewrite !map_map.
  rewrite nth_error_map, nth_error_seq.
  destruct (Nat.ltb_spec j (Z.to_nat num_days)) as [_|Hge]; [|lia].
  simpl. unfold day_of. f_equal. lia.
Qed.

Lemma nth_error_nth_default {A : Type} (l : list A) (i : nat) (a d : A) :
  nth_error l i = Some a -> nth i l d = a.
Proof. intro H. now apply nth_error_nth. Qed.

Lemma daily_get_stored (daily_data : daily) (k : Z) (r : row) :
  In r (daily_get daily_data k) -> In r (stored daily_data).
Proof.
  unfold stored. induction daily_data as [|[key rows] rest IH]; simpl; [auto|].
  intro H. apply in_or_app. destruct (key_eqb key (CInt k)); auto.
Qed.

Lemma append_row_stored (daily_data : daily) (date : cell) (r x : row) :
  In x (stored (append_row daily_data date r)) -> x = r \/ In x (stored daily_data).
Proof.
  unfold stored. induction daily_data as [|[key rows] rest IH]; simpl.
  - intros [H|[]]; auto.
  - destruct (key_eqb key date); simpl; intro H; apply in_app_or in H.
    + destruct H as [H|H].
      * apply in_app_or in H. destruct H as [H|[H|[]]]; auto.
        right. apply in_or_app. auto.
      * right. apply in_or_app. auto.
    + destruct H as [H|H].
      * right. apply in_or_app. auto.
      * destruct (IH H); auto. right. apply in_or_app. auto.
Qed.

Lemma group_rows_stored (idx : nat) (rows : list row) :
  forall d0 d, group_rows idx d0 rows = Ok d ->
  forall x, In x (stored d) -> In x rows \/ In x (stored d0).
Proof.
  induction rows as [|r rest IH]; intros d0 d H x Hx; simpl in H.
  - injection H as <-. auto.
  - apply bind_ok in H. destruct H as [date [_ H]].
    destruct (IH _ _ H x Hx) as [Hin|Hin]; [simpl; auto|].
    apply append_row_stored in Hin. destruct Hin as [->|Hin]; simpl; auto.
Qed.

Lemma group_rows_total (idx : nat) (rows : list row) :
  (forall r, In r rows -> (idx < List.length r)%nat) ->
  forall d0, exists d, group_rows idx d0 rows = Ok d.
Proof.
  induction rows as [|r rest IH]; intros H d0; simpl; [eauto|].
  unfold item. destruct (nth_error r idx) eqn:E.
  - simpl. apply IH. intros; apply H; simpl; auto.
  - apply nth_error_None in E. specialize (H r (or_introl eq_refl)). lia.
Qed.

(** The keys of a grouping are date cells of the rows it was built from. *)
Lemma append_row_keys (daily_data : daily) (date : cell) (r : row) (k : cell)
    (rows : list row) :
  In (k, rows) (append_row daily_data date r) ->
  k = date \/ exists rows', In (k, rows') daily_data.
Proof.
  induction daily_data as [|[key rs] rest IH]; simpl.
  - intros [H|[]]. injection H as <- _. auto.
  - destruct (key_eqb key date); simpl; intros [H|H].
    + injection H as <- _. right. eauto.
    + right. eauto.
    + injection H as <- <-. right. eauto.
    + destruct (IH H) as [->|[rows' H']]; [auto|]. right. eauto.
Qed.

Lemma group_rows_keys (idx : nat) (rows : list row) :
  forall d0 d, group_rows idx d0 rows = Ok d ->
  forall k rs, In (k, rs) d ->
  (exists r, In r rows /\ nth_error r idx = Some k) \/ exists rs', In (k, rs') d0.
Proof.
  induction rows as [|r rest IH]; intros d0 d H k rs Hk; simpl in H.
  - injection H as <-. right. eauto.
  - bind_inv H date Hdate.
    destruct (IH _ _ H k rs Hk) as [[r' [Hin Hnth]]|[rs' Hin]].
    + left. exists r'. simpl. auto.
    + apply append_row_keys in Hin. destruct Hin as [->|Hin]; [|auto].
      left. exists r. split; [simpl; auto|].
      unfold item in Hdate. destruct (nth_error r idx); [|discriminate Hdate].
      now injection Hdate as ->.
Qed.

Lemma daily_get_absent (daily_data : daily) (key : Z) :
  (forall k rs, In (k, rs) daily_data -> key_eqb k (CInt key) = false) ->
  daily_get daily_data key = [].
Proof.
  induction daily_data as [|[k rs] rest IH]; simpl; intro H; [reflexivity|].
  rewrite (H k rs (or_introl eq_refl)). apply IH. intros; eapply H; eauto.
Qed.

(** ** Responses with float costs: the tables are built *)

Lemma parse_float_response (p : properties) :
  float_response p ->
  exists d, parse_range_response p = Ok d
            /\ forall x, In x (stored d) -> In x (rows_of p).
Proof.
  intro H. unfold parse_range_response.
  destruct (dict_is_empty p); [exists []; split; [reflexivity | intros x []]|].
  unfold float_response, rows_of, columns_of in H.
  destruct (p_rows p) as [rows|] eqn:Hrows;
    [|exists []; split; [reflexivity | intros x []]].
  destruct (group_rows_total (date_idx match p_columns p with
                                       | Some cols => cols
                                       | None => []
                                       end) rows (fun r Hr => proj2 (H r Hr)) [])
    as [d Hd].
  exists d. split; [exact Hd|]. intros x Hx. unfold rows_of. rewrite Hrows.
  destruct (group_rows_stored _ _ _ _ Hd x Hx) as [Hin|[]]. exact Hin.
Qed.

Lemma day_costs_float (p : properties) (d : daily) (key : Z) :
  float_response p ->
  (forall x, In x (stored d) -> In x (rows_of p)) ->
  exists c, process_cost_data (daily_get d key) = Ok c /\ all_zero_or_float c.
Proof.
  intros Hp Hd. apply process_float_rows. apply forallb_forall.
  intros r Hr. apply Hp, Hd. eapply daily_get_stored. exact Hr.
Qed.

Lemma float_of_int_100 : float_of_int 100 = Ok 100%float.
Proof. vm_compute. reflexivity. Qed.

Lemma to_float_zero_or_float (v : pynum) :
  zero_or_float v = true -> exists f, to_float v = Ok f.
Proof.
  destruct v as [z|f]; simpl; intro H; [|eauto].
  apply Z.eqb_eq in H. subst z. eexists. reflexivity.
Qed.

Lemma cost_cell_total (v : pynum) :
  zero_or_float v = true -> exists s, cost_cell v = Ok s.
Proof.
  intro H. unfold cost_cell, format_2f.
  destruct (to_float_zero_or_float v H) as [f ->]. simpl. eauto.
Qed.

Lemma py_truediv_floats (d p : float) :
  PrimFloat.eqb p PrimFloat.zero = false ->
  py_truediv (PyFloat d) (PyFloat p) = Ok (PyFloat (d / p)).
Proof. intro H. unfold py_truediv, py_eq0. rewrite H. reflexivity. Qed.

Lemma py_mul_100 (q : float) :
  py_mul (PyFloat q) (PyInt 100) = Ok (PyFloat (q * 100)).
Proof.
  unfold py_mul, float_binop, to_float. rewrite float_of_int_100. reflexivity.
Qed.

(** On floats the change is the float expression of the source. *)
Lemma percent_change_floats (p c : float) :
  PrimFloat.eqb p PrimFloat.zero = false ->
  percent_change (PyFloat p) (PyFloat c) = Ok (PyFloat ((c - p) / p * 100)).
Proof.
  intro H. unfold percent_change, py_eq0. rewrite H.
  unfold py_sub, float_binop, to_float. cbn [bind].
  rewrite (py_truediv_floats _ _ H). cbn [bind]. apply py_mul_100.
Qed.

Lemma percent_change_total (prev curr : pynum) :
  zero_or_float prev = true -> zero_or_float curr = true ->
  exists x, percent_change prev curr = Ok x
            /\ (x = PyInt 0 \/ x = PyInt 100 \/ exists f, x = PyFloat f).
Proof.
  intros Hp Hc. unfold percent_change.
  destruct (py_eq0 prev) eqn:E0.
  - destruct (py_eq0 curr); eexists; split; try reflexivity; auto.
  - destruct prev as [z|p]; simpl in Hp, E0; [congruence|].
    destruct (to_float_zero_or_float curr Hc) as [c Hcf].
    assert (Hsub : py_sub curr (PyFloat p) = Ok (PyFloat (c - p))).
    { destruct curr; unfold py_sub, float_binop; rewrite Hcf; reflexivity. }
    rewrite Hsub. cbn [bind]. rewrite (py_truediv_floats _ _ E0). cbn [bind].
    rewrite py_mul_100. eexists. split; [reflexivity|]. right. right. eauto.
Qed.

Lemma percent_cell_total (prev curr : pynum) :
  zero_or_float prev = true -> zero_or_float curr = true ->
  exists s, percent_cell prev curr = Ok s.
Proof.
  intros Hp Hc. unfold percent_cell.
  destruct (percent_change_total prev curr Hp Hc) as [x [-> Hx]]. simpl.
  unfold format_2f.
  destruct Hx as [->|[->|[f ->]]]; unfold to_float;
    try rewrite float_of_int_100; try (change (float_of_int 0) with (Ok 0%float));
    cbn [bind]; eauto.
Qed.

Lemma cost_row_total (categories : list category) (label : string) (c : costs) :
  all_zero_or_float c -> exists r, cost_row categories label c = Ok r.
Proof.
  intro H. unfold cost_row.
  destruct (map_res_total (fun k => cost_cell (costs_get c k)) categories) as [cells ->].
  - intros k _. apply cost_cell_total, H.
  - simpl. eauto.
Qed.

Lemma percent_row_total (categories : list category) (label : string)
    (prev curr : costs) :
  all_zero_or_float prev -> all_zero_or_float curr ->
  exists r, percent_row categories label prev curr = Ok r.
Proof.
  intros Hp Hc. unfold percent_row.
  destruct (map_res_total
              (fun k => percent_cell (costs_get prev k) (costs_get curr k)) categories)
    as [cells ->].
  - intros k _. apply percent_cell_total; auto.
  - simpl. eauto.
Qed.

Lemma cost_rows_total (categories : list category) (labels : list string)
    (all_costs : list costs) :
  Forall all_zero_or_float all_costs ->
  forall i, exists rows, cost_rows categories labels i all_costs = Ok rows.
Proof.
  induction 1 as [|c rest Hc _ IH]; intro i; simpl; [eauto|].
  destruct (cost_row_total categories (nth i labels "") c Hc) as [r ->]. simpl.
  destruct (IH (S i)) as [rs ->]. simpl. eauto.
Qed.

Lemma percent_rows_total (categories : list category) (label : nat -> string)
    (rest : list costs) :
  Forall all_zero_or_float rest ->
  forall i prev, all_zero_or_float prev ->
                 exists rows, percent_rows categories label i prev rest = Ok rows.
Proof.
  induction 1 as [|c rest Hc _ IH]; intros i prev Hprev; simpl; [eauto|].
  destruct (percent_row_total categories (label i) prev c Hprev Hc) as [r ->]. simpl.
  destruct (IH (S i) c Hc) as [rs ->]. simpl. eauto.
Qed.

Lemma build_percent_table_total (categories : list category) (label : nat -> string)
    (all_costs : list costs) :
  Forall all_zero_or_float all_costs ->
  exists rows, build_percent_table categories label all_costs = Ok rows.
Proof.
  intro H. destruct H as [|c rest Hc Hrest]; simpl; [eauto|].
  apply percent_rows_total; assumption.
Qed.

(** ** What the two report functions build *)

Lemma cost_rows_ok (categories : list category) (labels : list string)
    (all_costs : list costs) :
  forall i rows,
    cost_rows categories labels i all_costs = Ok rows ->
    List.length rows = List.length all_costs
    /\ forall j c, nth_error all_costs j = Some c ->
                   exists r, nth_error rows j = Some r
                             /\ cost_row categories (nth (i + j) labels "") c = Ok r.
Proof.
  induction all_costs as [|c0 rest IH]; intros i rows H; simpl in H.
  - injection H as <-. split; [reflexivity|]. intros j c Hc. destruct j; discriminate Hc.
  - bind_inv H r Hr.
    bind_inv H rs Hrs.
    injection H as <-. destruct (IH _ _ Hrs) as [Hlen Hnth].
    split; [simpl; now rewrite Hlen|].
    intros j c Hc. destruct j as [|j]; simpl in *.
    + injection Hc as <-. rewrite Nat.add_0_r. eauto.
    + replace (i + S j)%nat with (S i + j)%nat by lia. eauto.
Qed.

(** The parts of the dict that [generate_data_for_subscription] returns. *)
Lemma build_report_ok (now : Z) (subscription_name : string) (p : properties)
    (num_days : Z) (r : report) :
  build_report now subscription_name p num_days = Ok r ->
  exists d all_costs,
    parse_range_response p = Ok d
    /\ Forall2 (fun date c => process_cost_data (daily_get d (date_key date)) = Ok c)
               (window now num_days) all_costs
    /\ cost_rows (categories_for subscription_name all_costs)
                 (map date_str (window now num_days)) 0 all_costs = Ok (cost_table r)
    /\ build_percent_table (categories_for subscription_name all_costs)
         (fun i => nth i (map date_str (window now num_days)) "") all_costs
       = Ok (percent_table r)
    /\ headers r = "Date" :: map category_name (categories_for subscription_name all_costs)
    /\ date_strings r = map date_str (window now num_days).
Proof.
  unfold build_report. intro H.
  bind_inv H d Hd.
  bind_inv H all_costs Hall.
  bind_inv H ct Hct.
  bind_inv H pt Hpt.
  injection H as <-. exists d, all_costs. simpl.
  repeat split; auto. apply map_res_ok in Hall. exact Hall.
Qed.

Lemma Forall2_length_eq {A B : Type} (R : A -> B -> Prop) (l : list A) (l' : list B) :
  Forall2 R l l' -> List.length l' = List.length l.
Proof. induction 1; simpl; congruence. Qed.

Lemma Forall2_Forall_r {A B : Type} (R : A -> B -> Prop) (P : B -> Prop)
    (l : list A) (l' : list B) :
  Forall2 R l l' -> (forall a b, R a b -> P b) -> Forall P l'.
Proof. induction 1; intro H'; constructor; eauto. Qed.

Lemma build_report_total (now : Z) (subscription_name : string) (p : properties)
    (num_days : Z) :
  float_response p ->
  exists r, build_report now subscription_name p num_days = Ok r.
Proof.
  intro Hp. unfold build_report.
  destruct (parse_float_response p Hp) as [d [-> Hd]]. cbn [bind].
  destruct (map_res_total
              (fun date => process_cost_data (daily_get d (date_key date)))
              (map (day_of now) (day_offsets num_days))) as [all_costs Hall].
  { intros date _. destruct (day_costs_float p d (date_key date) Hp Hd) as [c [Hc _]].
    eauto. }
  rewrite Hall. cbn [bind].
  assert (Hzf : Forall all_zero_or_float all_costs).
  { apply map_res_ok in Hall. eapply Forall2_Forall_r; [exact Hall|].
    intros date c Hc. simpl in Hc.
    destruct (day_costs_float p d (date_key date) Hp Hd) as [c' [Hc' Hz]].
    congruence. }
  destruct (cost_rows_total (categories_for subscription_name all_costs)
              (map date_str (map (day_of now) (day_offsets num_days))) all_costs Hzf 0)
    as [ct ->]. cbn [bind].
  destruct (build_percent_table_total (categories_for subscription_name all_costs)
              (fun i => nth i (map date_str (map (day_of now) (day_offsets num_days))) "")
              all_costs Hzf) as [pt ->]. cbn [bind]. eauto.
Qed.

Lemma console_day_ok (now : Z) (d : daily) (i : Z) (c : costs) (r : list string) :
  console_day now d i = Ok (c, r) ->
  process_cost_data (daily_get d (date_key (day_of now i))) = Ok c
  /\ cost_row all_categories (date_str (day_of now i)) c = Ok r.
Proof.
  unfold console_day. intro H.
  bind_inv H c' Hc.
  bind_inv H r' Hr.
  injection H as <- <-. auto.
Qed.

(** The console's [all_costs] and [table_data], day by day. *)
Lemma console_costs_ok (now : Z) (p : properties) (num_days : Z)
    (all_costs : list costs) (table_data : list (list string)) :
  console_costs now p num_days = Ok (all_costs, table_data) ->
  exists d,
    parse_range_response p = Ok d
    /\ Forall2 (fun date c => process_cost_data (daily_get d (date_key date)) = Ok c)
               (window now num_days) all_costs
    /\ Forall2 (fun date r => exists c,
                  process_cost_data (daily_get d (date_key date)) = Ok c
                  /\ cost_row all_categories (date_str date) c = Ok r)
               (window now num_days) table_data.
Proof.
  unfold console_costs. intro H.
  bind_inv H d Hd.
  bind_inv H days Hdays.
  injection H as <- <-. exists d. split; [exact Hd|].
  apply map_res_ok in Hdays. unfold window.
  induction Hdays as [|i [c r] offs days Hi _ IH]; simpl; [split; constructor|].
  destruct IH as [IH1 IH2]. apply console_day_ok in Hi. destruct Hi as [Hc Hr].
  split; constructor; eauto.
Qed.

Lemma console_costs_total (now : Z) (p : properties) (num_days : Z) :
  float_response p ->
  exists all_costs table_data,
    console_costs now p num_days = Ok (all_costs, table_data)
    /\ Forall all_zero_or_float all_costs.
Proof.
  intro Hp. unfold console_costs.
  destruct (parse_float_response p Hp) as [d [-> Hd]]. cbn [bind].
  destruct (map_res_total (console_day now d) (day_offsets num_days)) as [days Hdays].
  { intros i _. unfold console_day.
    destruct (day_costs_float p d (date_key (day_of now i)) Hp Hd) as [c [-> Hz]].
    cbn [bind].
    destruct (cost_row_total all_categories (date_str (day_of now i)) c Hz) as [r ->].
    cbn [bind]. eauto. }
  rewrite Hdays. cbn [bind]. do 2 eexists. split; [reflexivity|].
  apply map_res_ok in Hdays.
  induction Hdays as [|i [c r] offs days Hi _ IH]; simpl; constructor; [|exact IH].
  apply console_day_ok in Hi. destruct Hi as [Hc _].
  destruct (day_costs_float p d (date_key (day_of now i)) Hp Hd) as [c' [Hc' Hz]].
  simpl. congruence.
Qed.

(** ** From the fetch to the tables *)

Lemma generate_data_fetched (fuel : nat) (now : Z) (subscription_id subscription_name : string)
    (num_days : Z) (w w' : world) (p : properties) :
  get_cost_data_range fuel subscription_id (now - 1 - (num_days - 1)) (now - 1)
    (print (FetchingData subscription_name) w) = Some (Some p, w') ->
  dict_is_empty p = false ->
  generate_data_for_subscription fuel now subscription_id subscription_name num_days w
  = match build_report now subscription_name p num_days with
    | Raise e => Some (Raise e, w')
    | Ok r => Some (Ok (ReportDict r), w')
    end.
Proof.
  intros H Hne. unfold generate_data_for_subscription. rewrite H, Hne. reflexivity.
Qed.

Lemma generate_table_fetched (fuel : nat) (now : Z) (subscription_id subscription_name : string)
    (num_days : Z) (w w' : world) (p : properties)
    (all_costs : list costs) (table_data percent_table_data : list (list string)) :
  get_cost_data_range fuel subscription_id (now - 1 - (num_days - 1)) (now - 1)
    (print (FetchingFromTo (now - 1 - (num_days - 1)) (now - 1))
       (print (Banner subscription_name) w)) = Some (Some p, w') ->
  dict_is_empty p = false ->
  console_costs now p num_days = Ok (all_costs, table_data) ->
  console_percent now all_costs = Ok percent_table_data ->
  generate_table_for_subscription fuel now subscription_id subscription_name num_days w
  = Some (Ok tt, mkWorld (server w') (issued w')
                   (trace w' ++ console_output table_data percent_table_data)).
Proof.
  intros H Hne Hc Hp. unfold generate_table_for_subscription.
  rewrite H, Hne, Hc, Hp. unfold print, emit, console_output. simpl.
  rewrite <- !app_assoc. reflexivity.
Qed.

(** ** The day-over-day change *)

(** The cells of a percent table compare consecutive days, category by
    category. *)
Lemma percent_table_cells (categories : list category) (label : nat -> string)
    (all_costs : list costs) (rows : list (list string)) :
  build_percent_table categories label all_costs = Ok rows ->
  forall i p c,
    nth_error all_costs i = Some p ->
    nth_error all_costs (S i) = Some c ->
    exists cells,
      nth_error rows i = Some (label (S i) :: cells)
      /\ Forall2 (fun k s => percent_cell (costs_get p k) (costs_get c k) = Ok s)
                 categories cells.
Proof.
  intros H i p c Hp Hc.
  destruct (build_percent_table_ok _ _ _ _ H) as [_ Hnth].
  destruct (Hnth i p c Hp Hc) as [r [Hr Hrow]].
  apply percent_row_ok in Hrow. destruct Hrow as [cells [-> Hcells]].
  eauto.
Qed.

Lemma not_finite_Prim2SF (f : float) :
  is_finite f = false ->
  Prim2SF f = S754_nan \/ exists s, Prim2SF f = S754_infinity s.
Proof.
  unfold is_finite, is_nan, is_infinity. rewrite !eqb_spec, abs_spec.
  destruct (Prim2SF f) as [s| s| |s m e]; eauto.
  - destruct s; discriminate.
  - unfold SFeqb, SFcompare, SFabs.
    rewrite Z.compare_refl, Pos.compare_cont_refl. destruct s; discriminate.
Qed.

Lemma py_sub_raise (a b : pynum) (e : exn) :
  py_sub a b = Raise e -> e = OverflowError.
Proof.
  destruct a as [x|f], b as [y|g]; unfold py_sub, float_binop, to_float; simpl;
    try discriminate.
  - destruct (float_of_int x) eqn:E; simpl; [discriminate|].
    intro H. injection H as <-. eapply float_of_int_raise; eauto.
  - destruct (float_of_int y) eqn:E; simpl; [discriminate|].
    intro H. injection H as <-. eapply float_of_int_raise; eauto.
Qed.

Lemma py_mul_raise (a b : pynum) (e : exn) :
  py_mul a b = Raise e -> e = OverflowError.
Proof.
  destruct a as [x|f], b as [y|g]; unfold py_mul, float_binop, to_float; simpl;
    try discriminate.
  - destruct (float_of_int x) eqn:E; simpl; [discriminate|].
    intro H. injection H as <-. eapply float_of_int_raise; eauto.
  - destruct (float_of_int y) eqn:E; simpl; [discriminate|].
    intro H. injection H as <-. eapply float_of_int_raise; eauto.
Qed.

Lemma py_truediv_raise (a b : pynum) (e : exn) :
  py_eq0 b = false -> py_truediv a b = Raise e -> e = OverflowError.
Proof.
  intro Hb. unfold py_truediv. rewrite Hb.
  destruct a as [x|f], b as [y|g]; unfold float_binop, to_float; simpl;
    try discriminate.
  - destruct (SFdiv prec emax (Z2SF x) (Z2SF y)); intro H;
      first [discriminate H | now injection H].
  - destruct (float_of_int x) eqn:E; simpl; [discriminate|].
    intro H. injection H as <-. eapply float_of_int_raise; eauto.
  - destruct (float_of_int y) eqn:E; simpl; [discriminate|].
    intro H. injection H as <-. eapply float_of_int_raise; eauto.
Qed.

Lemma percent_cell_raise (prev curr : pynum) (e : exn) :
  percent_cell prev curr = Raise e -> e = OverflowError.
Proof.
  unfold percent_cell, percent_change, format_2f.
  destruct (py_eq0 prev) eqn:Hp.
  - destruct (py_eq0 curr); vm_compute; discriminate.
  - destruct (py_sub curr prev) as [d|e1] eqn:Hd; cbn [bind];
      [|intro H; injection H as <-; eapply py_sub_raise; eauto].
    destruct (py_truediv d prev) as [q|e1] eqn:Hq; cbn [bind];
      [|intro H; injection H as <-; eapply py_truediv_raise; eauto].
    destruct (py_mul q (PyInt 100)) as [x|e1] eqn:Hx; cbn [bind];
      [|intro H; injection H as <-; eapply py_mul_raise; eauto].
    destruct x as [z|f]; cbn [to_float].
    + destruct (float_of_int z) as [f|e1] eqn:Hf; cbn [bind]; [discriminate|].
      intro H. injection H as <-. eapply float_of_int_raise; eauto.
    + cbn [bind]. discriminate.
Qed.

Lemma second_is_a_digit (tail : string) (c x : ascii) (rest : string) :
  signed_two_decimals tail (String c (String x rest)) -> is_digit x = true.
Proof.
  intros [sign [whole [d1 [d2 [E [_ [Hne [Hw _]]]]]]]].
  injection E as _ E. destruct whole as [|a whole]; [contradiction|].
  simpl in E. injection E as -> _. simpl in Hw.
  destruct (is_digit a); [reflexivity | discriminate Hw].
Qed.

(** C3, as stated, fails: not every pair of costs gives a change with two
    decimals.  From 1e-300 to 1e300 the quotient overflows and the cell
    reads [+inf%], from 1e-300 to -1e300 it reads [-inf%]; when both costs
    are infinite (a sum of costs can be) it reads [+nan%]; and from 1 to
    10^400, two [int]s, the division raises [OverflowError] and there is no
    cell at all.  The report of [surge_response], whose virtual machines
    cost 1e-300 on 2026-11-01 and 1e300 the day after, carries such a
    cell. *)
Lemma change_is_not_always_two_decimals :
  percent_cell (PyFloat 1e-300) (PyFloat 1e300) = Ok "+inf%"
  /\ ~ signed_two_decimals "%" "+inf%"
  /\ percent_cell (PyFloat 1e-300) (PyFloat (-1e300)) = Ok "-inf%"
  /\ ~ signed_two_decimals "%" "-inf%"
  /\ percent_cell (PyFloat infinity) (PyFloat infinity) = Ok "+nan%"
  /\ ~ signed_two_decimals "%" "+nan%"
  /\ percent_cell (PyInt 1) (PyInt (10 ^ 400)) = Raise OverflowError
  /\ exists r, build_report today "prod" surge_response 2 = Ok r
               /\ percent_table r = [["11/02"; "+0.00%"; "+inf%"; "+0.00%"; "+0.00%"]].
Proof.
  split; [vm_compute; reflexivity|].
  split; [intro H; apply second_is_a_digit in H; discriminate H|].
  split; [vm_compute; reflexivity|].
  split; [intro H; apply second_is_a_digit in H; discriminate H|].
  split; [vm_compute; reflexivity|].
  split; [intro H; apply second_is_a_digit in H; discriminate H|].
  split; [vm_compute; reflexivity|].
  eexists. split; vm_compute; reflexivity.
Qed.

(** C3, as the code has it: the change of a category from one day to the
    next is 0 when both costs are 0, 100 when the previous cost is 0 and
    the current one is not, and otherwise ((curr - prev) / prev) * 100 in
    Python's arithmetic.  The cell of either percent table is that number
    in the [+.2f] format followed by a percent sign: a sign, the whole
    part, a point and two decimals when the number is finite, and [+inf],
    [-inf] or [+nan] when it is not; the only exception a cell can raise is
    [OverflowError], on an [int] too large for a float.  The cells of both
    tables compare the breakdowns of consecutive days of the window.  The
    four values the specification lists come out as it says. *)
Theorem day_over_day_change :
  (forall prev curr, py_eq0 prev = true -> py_eq0 curr = true ->
     percent_change prev curr = Ok (PyInt 0))
  /\ (forall prev curr, py_eq0 prev = true -> py_eq0 curr = false ->
        percent_change prev curr = Ok (PyInt 100))
  /\ (forall prev curr, py_eq0 prev = false ->
        percent_change prev curr
        = (d <- py_sub curr prev ;; q <- py_truediv d prev ;; py_mul q (PyInt 100)))
  /\ (forall p c, PrimFloat.eqb p PrimFloat.zero = false ->
        percent_change (PyFloat p) (PyFloat c) = Ok (PyFloat ((c - p) / p * 100)))
  /\ (forall prev curr,
        percent_cell prev curr
        = (x <- percent_change prev curr ;; s <- format_2f true x ;; Ok (s ++ "%")%string))
  /\ (forall x f, to_float x = Ok f -> is_finite f = true ->
        exists s, format_2f true x = Ok s /\ signed_two_decimals "%" (s ++ "%"))
  /\ (forall x f, to_float x = Ok f -> is_finite f = false ->
        format_2f true x = Ok "+inf" \/ format_2f true x = Ok "-inf"
        \/ format_2f true x = Ok "+nan")
  /\ (forall prev curr e, percent_cell prev curr = Raise e -> e = OverflowError)
  /\ (percent_cell (PyInt 0) (PyInt 0) = Ok "+0.00%"
      /\ percent_cell (PyInt 0) (PyInt 5) = Ok "+100.00%"
      /\ percent_cell (PyInt 100) (PyInt 150) = Ok "+50.00%"
      /\ percent_cell (PyInt 100) (PyInt 50) = Ok "-50.00%"
      /\ percent_cell (PyFloat 0) (PyFloat 0) = Ok "+0.00%"
      /\ percent_cell (PyFloat 0) (PyFloat 5) = Ok "+100.00%"
      /\ percent_cell (PyFloat 100) (PyFloat 150) = Ok "+50.00%"
      /\ percent_cell (PyFloat 100) (PyFloat 50) = Ok "-50.00%")
  /\ (forall now subscription_name p num_days r,
        build_report now subscription_name p num_days = Ok r ->
        exists d all_costs,
          parse_range_response p = Ok d
          /\ breakdowns now num_days d all_costs
          /\ List.length all_costs = Z.to_nat num_days
          /\ forall i prev curr,
               nth_error all_costs i = Some prev ->
               nth_error all_costs (S i) = Some curr ->
               exists label cells,
                 nth_error (percent_table r) i = Some (label :: cells)
                 /\ Forall2 (fun k s => percent_cell (costs_get prev k)
                                                     (costs_get curr k) = Ok s)
                            (categories_for subscription_name all_costs) cells)
  /\ (forall now p num_days all_costs table_data rows,
        console_costs now p num_days = Ok (all_costs, table_data) ->
        console_percent now all_costs = Ok rows ->
        exists d,
          parse_range_response p = Ok d
          /\ breakdowns now num_days d all_costs
          /\ forall i prev curr,
               nth_error all_costs i = Some prev ->
               nth_error all_costs (S i) = Some curr ->
               exists label cells,
                 nth_error rows i = Some (label :: cells)
                 /\ Forall2 (fun k s => percent_cell (costs_get prev k)
                                                     (costs_get curr k) = Ok s)
                            all_categories cells).
Proof.
  split; [|split; [|split; [|split; [|split; [|split; [|split; [|split;
    [|split; [|split]]]]]]]]].
  - intros prev curr Hp Hc. unfold percent_change. now rewrite Hp, Hc.
  - intros prev curr Hp Hc. unfold percent_change. now rewrite Hp, Hc.
  - intros prev curr Hp. unfold percent_change. now rewrite Hp.
  - exact percent_change_floats.
  - reflexivity.
  - intros x f Hx Hf. unfold format_2f. rewrite Hx. cbn [bind].
    eexists. split; [reflexivity|]. apply format_float_shape. exact Hf.
  - intros x f Hx Hf. unfold format_2f, format_float_2f. rewrite Hx. cbn [bind].
    destruct (not_finite_Prim2SF f Hf) as [->|[s ->]]; [auto|].
    destruct s; auto.
  - exact percent_cell_raise.
  - repeat split; vm_compute; reflexivity.
  - intros now subscription_name p num_days r H.
    apply build_report_ok in H.
    destruct H as [d [all_costs [Hd [Hall [_ [Hpt _]]]]]].
    exists d, all_costs. split; [exact Hd|]. split; [exact Hall|]. split.
    + rewrite (Forall2_length_eq _ _ _ Hall). apply window_length.
    + intros i prev curr Hp Hc.
      destruct (percent_table_cells _ _ _ _ Hpt i prev curr Hp Hc) as [cells [Hr Hcells]].
      eauto.
  - intros now p num_days all_costs table_data rows Hcosts H.
    destruct (console_costs_ok _ _ _ _ _ Hcosts) as [d [Hd [Hall _]]].
    exists d. split; [exact Hd|]. split; [exact Hall|].
    intros i prev curr Hp Hc.
    destruct (percent_table_cells _ _ _ _ H i prev curr Hp Hc) as [cells [Hr Hcells]].
    eauto.
Qed.

Lemma day_over_day_change_witness :
  percent_change (PyInt 0) (PyInt 0) = Ok (PyInt 0)
  /\ percent_change (PyFloat 0) (PyFloat (-5)) = Ok (PyInt 100)
  /\ percent_change (PyFloat 100) (PyFloat 150) = Ok (PyFloat ((150 - 100) / 100 * 100))
  /\ (exists s, format_2f true (PyFloat (-50)) = Ok s /\ signed_two_decimals "%" (s ++ "%"))
  /\ (format_2f true (PyFloat neg_infinity) = Ok "+inf"
      \/ format_2f true (PyFloat neg_infinity) = Ok "-inf"
      \/ format_2f true (PyFloat neg_infinity) = Ok "+nan").
Proof.
  destruct day_over_day_change as [H0 [H100 [_ [Hf [_ [Hshape [Hinf _]]]]]]].
  split; [apply H0; reflexivity|].
  split; [apply H100; reflexivity|].
  split; [apply Hf; reflexivity|].
  split; [apply (Hshape (PyFloat (-50)) (-50)%float); reflexivity|].
  apply (Hinf (PyFloat neg_infinity) neg_infinity); reflexivity.
Defined.

(** ** Columns *)

Lemma cost_row_length (categories : list category) (label : string) (c : costs)
    (r : list string) :
  cost_row categories label c = Ok r -> List.length r = S (List.length categories).
Proof.
  intro H. apply cost_row_ok in H. destruct H as [cells [-> H]].
  simpl. now rewrite (Forall2_length_eq _ _ _ H).
Qed.

Lemma percent_row_length (categories : list category) (label : string)
    (prev curr : costs) (r : list string) :
  percent_row categories label prev curr = Ok r ->
  List.length r = S (List.length categories).
Proof.
  intro H. apply percent_row_ok in H. destruct H as [cells [-> H]].
  simpl. now rewrite (Forall2_length_eq _ _ _ H).
Qed.

Lemma cost_rows_lengths (categories : list category) (labels : list string)
    (all_costs : list costs) :
  forall i rows, cost_rows categories labels i all_costs = Ok rows ->
  Forall (fun r => List.length r = S (List.length categories)) rows.
Proof.
  induction all_costs as [|c rest IH]; intros i rows H; simpl in H.
  - injection H as <-. constructor.
  - bind_inv H r Hr.
    bind_inv H rs Hrs.
    injection H as <-. constructor; [eapply cost_row_length; eauto | eauto].
Qed.

Lemma percent_rows_lengths (categories : list category) (label : nat -> string)
    (rest : list costs) :
  forall i prev rows, percent_rows categories label i prev rest = Ok rows ->
  Forall (fun r => List.length r = S (List.length categories)) rows.
Proof.
  induction rest as [|c rest' IH]; intros i prev rows H; simpl in H.
  - injection H as <-. constructor.
  - bind_inv H r Hr.
    bind_inv H rs Hrs.
    injection H as <-. constructor; [eapply percent_row_length; eauto | eauto].
Qed.

Lemma build_percent_table_lengths (categories : list category) (label : nat -> string)
    (all_costs : list costs) (rows : list (list string)) :
  build_percent_table categories label all_costs = Ok rows ->
  Forall (fun r => List.length r = S (List.length categories)) rows.
Proof.
  destruct all_costs as [|c rest]; simpl; intro H.
  - injection H as <-. constructor.
  - eapply percent_rows_lengths; eauto.
Qed.

(** Every row of the two tables of a report has one cell per header. *)
Lemma report_rows_match_headers (now : Z) (subscription_name : string)
    (p : properties) (num_days : Z) (r : report) :
  build_report now subscription_name p num_days = Ok r ->
  Forall (fun row => List.length row = List.length (headers r))
         (cost_table r ++ percent_table r).
Proof.
  intro H. apply build_report_ok in H.
  destruct H as [d [all_costs [_ [_ [Hct [Hpt [Hh _]]]]]]].
  rewrite Hh. simpl. rewrite length_map. apply Forall_app. split.
  - eapply cost_rows_lengths; eauto.
  - eapply build_percent_table_lengths; eauto.
Qed.

(** What [generate_data_for_subscription] returned a dict from. *)
Lemma generate_data_report (fuel : nat) (now : Z)
    (subscription_id subscription_name : string) (num_days : Z) (w w' : world)
    (r : report) :
  generate_data_for_subscription fuel now subscription_id subscription_name num_days w
  = Some (Ok (ReportDict r), w') ->
  exists p,
    get_cost_data_range fuel subscription_id (now - 1 - (num_days - 1)) (now - 1)
      (print (FetchingData subscription_name) w) = Some (Some p, w')
    /\ dict_is_empty p = false
    /\ build_report now subscription_name p num_days = Ok r.
Proof.
  unfold generate_data_for_subscription.
  destruct (get_cost_data_range _ _ _ _ _) as [[[p|] w1]|]; try discriminate.
  destruct (dict_is_empty p) eqn:E; [discriminate|].
  destruct (build_report now subscription_name p num_days) as [r'|e] eqn:Hb;
    [|discriminate].
  intro H. injection H as <- <-. exists p. auto.
Qed.

Lemma has_databricks_iff (all_costs : list costs) :
  has_databricks all_costs = true
  <-> exists c, In c all_costs /\ py_gt0 (costs_get c Databricks) = true.
Proof. unfold has_databricks. apply existsb_exists. Qed.

(** ** The Databricks column of the main subscription *)

(** C4, as stated, fails: on 2026-11-02 the main subscription has a
    Databricks cost of -5, which is not zero, and the report for the one-day
    window has no Databricks column. *)
Lemma negative_databricks_is_dropped :
  exists r w' d c,
    generate_data_for_subscription 1 today "id-main" "main" 1 (always refund_response)
    = Some (Ok (ReportDict r), w')
    /\ headers r = ["Date"; "Virtual Machine"; "Storage"; "Others"]
    /\ cost_table r = [["11/02"; "$12.50"; "$0.00"; "$0.00"]]
    /\ parse_range_response refund_response = Ok d
    /\ process_cost_data (daily_get d (date_key (today - 1))) = Ok c
    /\ costs_get c Databricks = PyFloat (-5)
    /\ py_eq0 (costs_get c Databricks) = false.
Proof.
  do 4 eexists.
  split; [vm_compute; reflexivity|].
  split; [reflexivity|].
  split; [reflexivity|].
  split; [vm_compute; reflexivity|].
  split; [vm_compute; reflexivity|].
  split; reflexivity.
Qed.

Lemma has_databricks_false (all_costs : list costs) :
  has_databricks all_costs = false
  <-> forall c, In c all_costs -> py_gt0 (costs_get c Databricks) = false.
Proof.
  split.
  - intros H c Hc. destruct (py_gt0 (costs_get c Databricks)) eqn:E; [|reflexivity].
    assert (Ht : has_databricks all_costs = true)
      by (apply has_databricks_iff; eauto).
    congruence.
  - intro H. destruct (has_databricks all_costs) eqn:E; [|reflexivity].
    apply has_databricks_iff in E. destruct E as [c [Hc Hgt]].
    rewrite (H c Hc) in Hgt. discriminate Hgt.
Qed.

Lemma cost_rows_show (categories : list category) (labels : list string)
    (all_costs : list costs) :
  forall i rows,
    cost_rows categories labels i all_costs = Ok rows ->
    cost_table_of categories all_costs rows.
Proof.
  induction all_costs as [|c rest IH]; intros i rows H; simpl in H.
  - injection H as <-. constructor.
  - bind_inv H r Hr.
    bind_inv H rs Hrs.
    injection H as <-. constructor; [|eapply IH; eauto].
    apply cost_row_ok in Hr. destruct Hr as [cells [-> Hcells]].
    exists (nth i labels ""), cells. auto.
Qed.

Lemma percent_table_shows (categories : list category) (label : nat -> string)
    (all_costs : list costs) (rows : list (list string)) :
  build_percent_table categories label all_costs = Ok rows ->
  percent_table_of categories all_costs rows.
Proof.
  intro H. destruct (build_percent_table_ok _ _ _ _ H) as [Hlen Hnth].
  split; [exact Hlen|]. intros i prev curr Hp Hc.
  destruct (Hnth i prev curr Hp Hc) as [r [Hr Hrow]].
  apply percent_row_ok in Hrow. destruct Hrow as [cells [-> Hcells]].
  exists (label (S i) :: cells). split; [exact Hr|].
  exists (label (S i)), cells. auto.
Qed.

(** What a report holds: the tables of the breakdowns of the window's days,
    in the categories its headers name. *)
Lemma build_report_shows (now : Z) (subscription_name : string) (p : properties)
    (num_days : Z) (r : report) :
  build_report now subscription_name p num_days = Ok r ->
  exists d all_costs,
    parse_range_response p = Ok d
    /\ breakdowns now num_days d all_costs
    /\ headers r = "Date" :: map category_name (categories_for subscription_name all_costs)
    /\ cost_table_of (categories_for subscription_name all_costs) all_costs (cost_table r)
    /\ percent_table_of (categories_for subscription_name all_costs) all_costs
         (percent_table r).
Proof.
  intro H. apply build_report_ok in H.
  destruct H as [d [all_costs [Hd [Hall [Hct [Hpt [Hh _]]]]]]].
  exists d, all_costs. split; [exact Hd|]. split; [exact Hall|]. split; [exact Hh|].
  split; [eapply cost_rows_show; eauto | eapply percent_table_shows; eauto].
Qed.

(** The categories of a report, by the name of the subscription and the
    Databricks costs of the days. *)
Lemma categories_for_cases (subscription_name : string) (all_costs : list costs) :
  (lower subscription_name = "main"
   /\ (forall c, In c all_costs -> py_gt0 (costs_get c Databricks) = false)
   /\ categories_for subscription_name all_costs = [VirtualMachine; Storage; Others])
  \/ ((lower subscription_name <> "main"
       \/ exists c, In c all_costs /\ py_gt0 (costs_get c Databricks) = true)
      /\ categories_for subscription_name all_costs
         = [Databricks; VirtualMachine; Storage; Others]).
Proof.
  unfold categories_for.
  destruct (String.eqb_spec (lower subscription_name) "main") as [Hm|Hm].
  - destruct (has_databricks all_costs) eqn:Hdb.
    + right. split; [|reflexivity]. right. apply has_databricks_iff. exact Hdb.
    + left. split; [exact Hm|]. split; [|reflexivity].
      apply has_databricks_false. exact Hdb.
  - right. auto.
Qed.

(** C4 (amended): the data [generate_data_for_subscription] returns for the
    document are the tables of the response that the fetch returned: a
    breakdown for every day of the window, a cost row for every breakdown
    and a percent row for every breakdown but the first, each with one cell
    for every category of the headers.  The Databricks category is dropped
    from the headers, and so from every row of both tables, exactly when
    the subscription is named "main" (in any letter case) and no day of the
    window has a Databricks cost greater than 0; if some day has one, or for
    "prod", "dev" and "test", all four categories are present. *)
Theorem databricks_column_rule (fuel : nat) (now : Z)
    (subscription_id subscription_name : string) (num_days : Z) (w w' : world)
    (r : report) :
  generate_data_for_subscription fuel now subscription_id subscription_name num_days w
  = Some (Ok (ReportDict r), w') ->
  exists p d all_costs categories,
    get_cost_data_range fuel subscription_id (now - 1 - (num_days - 1)) (now - 1)
      (print (FetchingData subscription_name) w) = Some (Some p, w')
    /\ parse_range_response p = Ok d
    /\ breakdowns now num_days d all_costs
    /\ headers r = "Date" :: map category_name categories
    /\ cost_table_of categories all_costs (cost_table r)
    /\ percent_table_of categories all_costs (percent_table r)
    /\ (categories = [VirtualMachine; Storage; Others]
        <-> lower subscription_name = "main"
            /\ forall c, In c all_costs -> py_gt0 (costs_get c Databricks) = false)
    /\ (categories = [Databricks; VirtualMachine; Storage; Others]
        <-> lower subscription_name <> "main"
            \/ exists c, In c all_costs /\ py_gt0 (costs_get c Databricks) = true)
    /\ (headers r = ["Date"; "Virtual Machine"; "Storage"; "Others"]
        <-> lower subscription_name = "main"
            /\ forall c, In c all_costs -> py_gt0 (costs_get c Databricks) = false)
    /\ (headers r = ["Date"; "Databricks"; "Virtual Machine"; "Storage"; "Others"]
        <-> lower subscription_name <> "main"
            \/ exists c, In c all_costs /\ py_gt0 (costs_get c Databricks) = true)
    /\ (subscription_name = "prod" \/ subscription_name = "dev"
        \/ subscription_name = "test" ->
        headers r = ["Date"; "Databricks"; "Virtual Machine"; "Storage"; "Others"])
    /\ Forall (fun row => List.length row = List.length (headers r))
              (cost_table r ++ percent_table r).
Proof.
  intro H. apply generate_data_report in H. destruct H as [p [Hfetch [_ Hb]]].
  pose proof (report_rows_match_headers _ _ _ _ _ Hb) as Hrows.
  apply build_report_shows in Hb.
  destruct Hb as [d [all_costs [Hd [Hall [Hh [Hct Hpt]]]]]].
  exists p, d, all_costs, (categories_for subscription_name all_costs).
  split; [exact Hfetch|]. split; [exact Hd|]. split; [exact Hall|].
  split; [exact Hh|]. split; [exact Hct|]. split; [exact Hpt|].
  assert (Hpos : forall c, In c all_costs ->
                   py_gt0 (costs_get c Databricks) = true ->
                   (forall c', In c' all_costs -> py_gt0 (costs_get c' Databricks) = false)
                   -> False).
  { intros c Hc Hgt Hno. rewrite (Hno c Hc) in Hgt. discriminate Hgt. }
  destruct (categories_for_cases subscription_name all_costs)
    as [[Hm [Hno H3]]|[Hor H4]]; rewrite ?H3, ?H4 in *; rewrite Hh in Hrows;
    rewrite Hh; simpl.
  - split; [|split; [|split; [|split; [|split; [|exact Hrows]]]]].
    + split; auto.
    + split; [discriminate|]. intros [Hn|[c [Hc Hgt]]]; [contradiction|].
      exfalso. eapply Hpos; eauto.
    + split; auto.
    + split; [discriminate|]. intros [Hn|[c [Hc Hgt]]]; [contradiction|].
      exfalso. eapply Hpos; eauto.
    + intros [-> | [-> | ->]]; vm_compute in Hm; discriminate Hm.
  - split; [|split; [|split; [|split; [|split; [|exact Hrows]]]]].
    + split; [discriminate|]. intros [Hm Hno]. exfalso.
      destruct Hor as [Hn|[c [Hc Hgt]]]; [contradiction | eapply Hpos; eauto].
    + split; auto.
    + split; [discriminate|]. intros [Hm Hno]. exfalso.
      destruct Hor as [Hn|[c [Hc Hgt]]]; [contradiction | eapply Hpos; eauto].
    + split; auto.
    + auto.
Qed.

Lemma databricks_column_rule_witness :
  (exists r w',
     generate_data_for_subscription 1 today "id-main" "main" 1 (always refund_response)
     = Some (Ok (ReportDict r), w')
     /\ headers r = ["Date"; "Virtual Machine"; "Storage"; "Others"])
  /\ (exists r w',
        generate_data_for_subscription 1 today "id-main" "main" 1
          (always databricks_response) = Some (Ok (ReportDict r), w')
        /\ headers r = ["Date"; "Databricks"; "Virtual Machine"; "Storage"; "Others"])
  /\ (exists r w',
        generate_data_for_subscription 1 today "id-prod" "prod" 1
          (always refund_response) = Some (Ok (ReportDict r), w')
        /\ headers r = ["Date"; "Databricks"; "Virtual Machine"; "Storage"; "Others"]).
Proof.
  split; [|split].
  - do 2 eexists. split; [vm_compute; reflexivity | reflexivity].
  - do 2 eexists. split; [vm_compute; reflexivity | reflexivity].
  - assert (H : exists r w',
               generate_data_for_subscription 1 today "id-prod" "prod" 1
                 (always refund_response) = Some (Ok (ReportDict r), w'))
      by (do 2 eexists; vm_compute; reflexivity).
    destruct H as [r [w' H]]. exists r, w'. split; [exact H|].
    destruct (databricks_column_rule _ _ _ _ _ _ _ _ H)
      as [p [d [all_costs [categories [_ [_ [_ [_ [_ [_ [_ [_ [_ [_ [Hprod _]]]]]]]]]]]]]]].
    apply Hprod. auto.
Defined.

(** ** The console's columns and the document's *)

Lemma tables_app (t t' : list event) : tables (t ++ t') = tables t ++ tables t'.
Proof. apply filter_app. Qed.

Lemma range_try_tables (subscription_id : string) (start_date end_date : Z)
    (w w' : world) (a : res (attempt (option properties))) :
  range_try subscription_id start_date end_date w = (a, w') ->
  tables (trace w') = tables (trace w) /\ server w' = server w.
Proof.
  unfold range_try, requests_post, sleep, print, emit.
  destruct (server w (issued w)) as [e|r].
  - intro H. injection H as <- <-. simpl. rewrite tables_app, app_nil_r. auto.
  - destruct (status_code r =? 429).
    + destruct (retry_after_or r 60) as [secs|e].
      * destruct (secs <? 0); [|destruct (max_sleep <? secs)];
          intro H; injection H as <- <-; simpl;
          rewrite !tables_app; simpl; rewrite !app_nil_r; auto.
      * intro H. injection H as <- <-. simpl. rewrite tables_app, app_nil_r. auto.
    + destruct (raise_for_status r);
        [destruct (json_properties r)|];
        intro H; injection H as <- <-; simpl; rewrite tables_app, app_nil_r; auto.
Qed.

(** A fetch prints no table and leaves the server as it is. *)
Lemma get_cost_data_range_tables (fuel : nat) (subscription_id : string)
    (start_date end_date : Z) :
  forall w w' v,
    get_cost_data_range fuel subscription_id start_date end_date w = Some (v, w') ->
    tables (trace w') = tables (trace w) /\ server w' = server w.
Proof.
  induction fuel as [|fuel IH]; intros w w' v H; simpl in H;
    destruct (range_try subscription_id start_date end_date w) as [a w1] eqn:E;
    apply range_try_tables in E; destruct E as [Et Es];
    destruct a as [[|p]|e];
    try (apply IH in H; destruct H as [Ht Hs]; split; congruence);
    injection H as <- <-; auto;
    unfold print, emit; simpl; rewrite tables_app, app_nil_r; auto.
Qed.

Lemma console_costs_shape (now : Z) (p : properties) (num_days : Z)
    (all_costs : list costs) (table_data : list (list string)) :
  console_costs now p num_days = Ok (all_costs, table_data) ->
  List.length all_costs = Z.to_nat num_days
  /\ List.length table_data = Z.to_nat num_days
  /\ five_cells table_data.
Proof.
  intro H. apply console_costs_ok in H.
  destruct H as [d [_ [Hall Htab]]].
  split; [|split].
  - rewrite (Forall2_length_eq _ _ _ Hall). apply window_length.
  - rewrite (Forall2_length_eq _ _ _ Htab). apply window_length.
  - eapply Forall2_Forall_r; [exact Htab|].
    intros date r [c [_ Hr]]. apply cost_row_length in Hr. exact Hr.
Qed.








(** ** Rows of the tables and days of the window *)


(** The label of the console's percent row [i] is the date of day [i + 1]
    of the window (days counted from 1). *)
Lemma console_label_window (now num_days : Z) (all_costs : list costs) (i : nat) :
  List.length all_costs = Z.to_nat num_days ->
  (i < Z.to_nat num_days)%nat ->
  console_label now all_costs i = date_str (now - num_days + Z.of_nat i).
Proof.
  intros Hlen Hi. unfold console_label. rewrite Hlen. f_equal. lia.
Qed.

Lemma date_strings_nth (now num_days : Z) (i : nat) :
  (i < Z.to_nat num_days)%nat ->
  nth i (map date_str (window now num_days)) "" = date_str (now - num_days + Z.of_nat i).
Proof.
  intro Hi. apply nth_error_nth_default.
  rewrite nth_error_map, (window_nth now num_days i Hi). reflexivity.
Qed.

Lemma nth_error_defined {A : Type} (l : list A) (i : nat) :
  (i < List.length l)%nat -> exists a, nth_error l i = Some a.
Proof.
  intro H. destruct (nth_error l i) eqn:E; [eauto|].
  apply nth_error_None in E. lia.
Qed.






(** ** Days without rows *)

Lemma parse_absent (p : properties) (d : daily) (key : Z) :
  parse_range_response p = Ok d -> absent p key -> daily_get d key = [].
Proof.
  unfold parse_range_response, absent, rows_of, columns_of. intros H Ha.
  destruct (dict_is_empty p); [injection H as <-; reflexivity|].
  destruct (p_rows p) as [rows|]; [|injection H as <-; reflexivity].
  apply daily_get_absent. intros k rs Hk.
  destruct (group_rows_keys _ _ _ _ H k rs Hk) as [[r [Hr Hnth]]|[rs' []]].
  eapply Ha; eauto.
Qed.

Lemma cost_cell_zero : cost_cell (PyInt 0) = Ok "$0.00".
Proof. vm_compute. reflexivity. Qed.

(** The cost row of a day without rows. *)
Lemma cost_row_zero (categories : list category) (label : string) :
  cost_row categories label zero_costs
  = Ok (label :: map (fun _ => "$0.00") categories).
Proof.
  unfold cost_row.
  assert (H : map_res (fun k => cost_cell (costs_get zero_costs k)) categories
              = Ok (map (fun _ => "$0.00") categories)).
  { induction categories as [|k rest IH]; simpl; [reflexivity|].
    replace (costs_get zero_costs k) with (PyInt 0) by (destruct k; reflexivity).
    rewrite cost_cell_zero, IH. reflexivity. }
  rewrite H. reflexivity.
Qed.

Lemma format_plus_zero : format_2f true (PyInt 0) = Ok "+0.00".
Proof. vm_compute. reflexivity. Qed.

Lemma format_plus_hundred : format_2f true (PyInt 100) = Ok "+100.00".
Proof. vm_compute. reflexivity. Qed.

(** The change from a cost of zero. *)
Lemma percent_cell_from_zero (curr : pynum) :
  percent_cell (PyInt 0) curr
  = Ok (if py_eq0 curr then "+0.00%" else "+100.00%").
Proof.
  unfold percent_cell, percent_change. simpl.
  destruct (py_eq0 curr); cbn [bind];
    [rewrite format_plus_zero | rewrite format_plus_hundred]; reflexivity.
Qed.

Lemma percent_row_from_zero (categories : list category) (label : string)
    (curr : costs) :
  percent_row categories label zero_costs curr
  = Ok (label :: map (fun k => if py_eq0 (costs_get curr k)
                              then "+0.00%" else "+100.00%") categories).
Proof.
  unfold percent_row.
  assert (H : map_res (fun k => percent_cell (costs_get zero_costs k) (costs_get curr k))
                      categories
              = Ok (map (fun k => if py_eq0 (costs_get curr k)
                                  then "+0.00%" else "+100.00%") categories)).
  { induction categories as [|k rest IH]; simpl; [reflexivity|].
    replace (costs_get zero_costs k) with (PyInt 0) by (destruct k; reflexivity).
    rewrite percent_cell_from_zero, IH. reflexivity. }
  rewrite H. reflexivity.
Qed.

Lemma breakdowns_length (now num_days : Z) (d : daily) (all_costs : list costs) :
  breakdowns now num_days d all_costs -> List.length all_costs = Z.to_nat num_days.
Proof.
  intro H. rewrite (Forall2_length_eq _ _ _ H). apply window_length.
Qed.

Lemma breakdown_of_absent_day (now num_days : Z) (p : properties) (d : daily)
    (all_costs : list costs) (j : nat) :
  parse_range_response p = Ok d ->
  breakdowns now num_days d all_costs ->
  (j < Z.to_nat num_days)%nat ->
  absent p (date_key (now - num_days + Z.of_nat j)) ->
  nth_error all_costs j = Some zero_costs.
Proof.
  intros Hd Hall Hj Ha.
  destruct (Forall2_nth_error _ _ _ Hall j _ (window_nth now num_days j Hj))
    as [c [Hc Hproc]].
  rewrite (parse_absent _ _ _ Hd Ha) in Hproc. simpl in Hproc.
  injection Hproc as <-. exact Hc.
Qed.

(** The rows of the two tables around a day without rows in the response. *)
Lemma tables_of_absent_day (now num_days : Z) (p : properties) (d : daily)
    (all_costs : list costs) (categories : list category) (label : nat -> string)
    (pt : list (list string)) (j : nat) :
  parse_range_response p = Ok d ->
  breakdowns now num_days d all_costs ->
  build_percent_table categories label all_costs = Ok pt ->
  (S j < Z.to_nat num_days)%nat ->
  absent p (date_key (now - num_days + Z.of_nat j)) ->
  exists curr,
    process_cost_data (daily_get d (date_key (now - num_days + Z.of_nat (S j)))) = Ok curr
    /\ nth_error pt j = Some (label (S j) :: change_from_zero categories curr).
Proof.
  intros Hd Hall Hpt Hj Ha.
  assert (Hz : nth_error all_costs j = Some zero_costs)
    by (eapply breakdown_of_absent_day; eauto; lia).
  destruct (Forall2_nth_error _ _ _ Hall (S j) _ (window_nth now num_days (S j) Hj))
    as [curr [Hc Hproc]].
  exists curr. split; [exact Hproc|].
  destruct (build_percent_table_ok _ _ _ _ Hpt) as [_ Hnth].
  destruct (Hnth j zero_costs curr Hz Hc) as [r [Hr Hrow]].
  rewrite percent_row_from_zero in Hrow. injection Hrow as <-. exact Hr.
Qed.

(** When every pass of the loop reads the same day, the report is the one
    of that day. *)
Lemma build_report_one_day (today : Z -> Z) (loop_day : Z) (subscription_name : string)
    (p : properties) (num_days : Z) :
  (forall i, today i = loop_day) ->
  Clock.build_report today subscription_name p num_days
  = build_report loop_day subscription_name p num_days.
Proof.
  intro H. unfold Clock.build_report, build_report.
  replace (map (fun i => day_of (today i) i) (day_offsets num_days))
    with (map (day_of loop_day) (day_offsets num_days)); [reflexivity|].
  apply map_ext. intro i. now rewrite H.
Qed.

Lemma console_costs_one_day (today : Z -> Z) (loop_day : Z) (p : properties)
    (num_days : Z) :
  (forall i, today i = loop_day) ->
  Clock.console_costs today p num_days = console_costs loop_day p num_days.
Proof.
  intro H. unfold Clock.console_costs, console_costs.
  destruct (parse_range_response p) as [d|e]; [|reflexivity]. cbn [bind].
  rewrite (map_res_ext_in _ (console_day loop_day d)); [reflexivity|].
  intros i _. now rewrite H.
Qed.

Lemma percent_rows_ext (categories : list category) (label label' : nat -> string) :
  (forall i, label i = label' i) ->
  forall rest i prev,
    percent_rows categories label i prev rest
    = percent_rows categories label' i prev rest.
Proof.
  intro H. induction rest as [|curr rest IH]; intros i prev; simpl; [reflexivity|].
  now rewrite H, IH.
Qed.

Lemma console_percent_one_day (later : nat -> Z) (loop_day : Z) (all_costs : list costs) :
  (forall i, later i = loop_day) ->
  Clock.console_percent later all_costs = console_percent loop_day all_costs.
Proof.
  intro H. unfold Clock.console_percent, console_percent, build_percent_table.
  destruct all_costs as [|first rest]; [reflexivity|].
  apply percent_rows_ext. intro i. now rewrite H.
Qed.

(** On a run within one day the functions of [Clock] are the ones of the
    model. *)
Lemma within_one_day (fuel : nat) (now : Z) (subscription_id subscription_name : string)
    (num_days : Z) (w : world) :
  Clock.generate_data_for_subscription fuel now (fun _ => now) subscription_id
    subscription_name num_days w
  = generate_data_for_subscription fuel now subscription_id subscription_name num_days w
  /\ Clock.generate_table_for_subscription fuel now (fun _ => now) (fun _ => now)
       subscription_id subscription_name num_days w
     = generate_table_for_subscription fuel now subscription_id subscription_name
         num_days w.
Proof. split; reflexivity. Qed.

Lemma clock_data_report (fuel : nat) (now : Z) (today : Z -> Z)
    (subscription_id subscription_name : string) (num_days : Z) (w w' : world)
    (r : report) :
  Clock.generate_data_for_subscription fuel now today subscription_id subscription_name
    num_days w = Some (Ok (ReportDict r), w') ->
  exists p,
    get_cost_data_range fuel subscription_id (now - 1 - (num_days - 1)) (now - 1)
      (print (FetchingData subscription_name) w) = Some (Some p, w')
    /\ dict_is_empty p = false
    /\ Clock.build_report today subscription_name p num_days = Ok r.
Proof.
  unfold Clock.generate_data_for_subscription.
  destruct (get_cost_data_range _ _ _ _ _) as [[[p|] w1]|]; try discriminate.
  destruct (dict_is_empty p) eqn:E; [discriminate|].
  destruct (Clock.build_report today subscription_name p num_days) as [r'|e] eqn:Hb;
    [|discriminate].
  intro H. injection H as <- <-. exists p. auto.
Qed.

Lemma clock_table_printed (fuel : nat) (now : Z) (today : Z -> Z) (later : nat -> Z)
    (subscription_id subscription_name : string) (num_days : Z) (w w' : world)
    (t pt : list (list string)) (hs hs' : list string) :
  Clock.generate_table_for_subscription fuel now today later subscription_id
    subscription_name num_days w = Some (Ok tt, w') ->
  tables (trace w') = tables (trace w) ++ [EvTable hs t; EvTable hs' pt] ->
  exists p all_costs w1,
    get_cost_data_range fuel subscription_id (now - 1 - (num_days - 1)) (now - 1)
      (print (FetchingFromTo (now - 1 - (num_days - 1)) (now - 1))
         (print (Banner subscription_name) w)) = Some (Some p, w1)
    /\ dict_is_empty p = false
    /\ Clock.console_costs today p num_days = Ok (all_costs, t)
    /\ Clock.console_percent later all_costs = Ok pt.
Proof.
  unfold Clock.generate_table_for_subscription.
  destruct (get_cost_data_range _ _ _ _ _) as [[v w1]|] eqn:E; [|discriminate].
  pose proof E as Hfetch.
  apply get_cost_data_range_tables in E. destruct E as [Et _].
  unfold print, emit in Et. simpl in Et.
  rewrite !tables_app in Et. simpl in Et. rewrite !app_nil_r in Et.
  assert (Hnil : forall l : list event, tables (trace w) ++ [] = tables (trace w) ++ l
                                        -> l = []).
  { intros l Hl. apply app_inv_head in Hl. auto. }
  destruct v as [p|].
  - destruct (dict_is_empty p) eqn:Hne.
    + intros H Ht. injection H as <-. unfold print, emit in Ht. simpl in Ht.
      rewrite tables_app, Et in Ht. simpl in Ht. apply Hnil in Ht. discriminate Ht.
    + destruct (Clock.console_costs today p num_days) as [[all_costs table_data]|e]
        eqn:Hc; [|discriminate].
      destruct (Clock.console_percent later all_costs) as [rows|e] eqn:Hp;
        [|discriminate].
      intros H Ht. injection H as <-. unfold print, emit in Ht. simpl in Ht.
      rewrite !tables_app, Et in Ht. simpl in Ht. rewrite <- !app_assoc in Ht.
      simpl in Ht. apply app_inv_head in Ht. injection Ht as _ <- _ <-.
      exists p, all_costs, w1. repeat split; auto.
  - intros H Ht. injection H as <-. unfold print, emit in Ht. simpl in Ht.
    rewrite tables_app, Et in Ht. simpl in Ht. apply Hnil in Ht. discriminate Ht.
Qed.

(** C10, as stated, fails: the rows are not those of the requested window
    when the day changes between the reading of the clock for the request
    and the readings of the loop.  The request is made on 2026-11-03 for
    the three days from 10/31 to 11/02; the API answers 429 twice, the
    fetch sleeps 65 seconds, and the loop runs on 2026-11-04.  The cost
    table has rows for 11/01, 11/02 and 11/03: the first day of the
    requested window has no row, though the response has its costs, and a
    day that was not requested has a row of zeros. *)
Lemma first_requested_day_has_no_row :
  exists r w',
    Clock.generate_data_for_subscription 2 today (fun _ => today + 1)
      "id-prod" "prod" 3 throttled_twice = Some (Ok (ReportDict r), w')
    /\ trace w' = [EvPrint (FetchingData "prod");
                   EvRequest (range_request "id-prod" (today - 3) (today - 1));
                   EvPrint (RateLimitHit 5); EvSleep 5;
                   EvRequest (range_request "id-prod" (today - 3) (today - 1));
                   EvPrint (RateLimitHit 60); EvSleep 60;
                   EvRequest (range_request "id-prod" (today - 3) (today - 1))]
    /\ map date_str (window today 3) = ["10/31"; "11/01"; "11/02"]
    /\ rows_dated three_day_response (date_key (today - 3))
       = [[CFloat 10; CInt 20261031; CStr "Microsoft.Compute/virtualMachines";
           CStr "Usage"; CStr "USD"];
          [CFloat 5; CInt 20261031; CStr "Microsoft.Storage/storageAccounts";
           CStr "Usage"; CStr "USD"]]
    /\ cost_table r = [["11/01"; "$0.00"; "$20.00"; "$5.00"; "$0.00"];
                       ["11/02"; "$0.00"; "$0.00"; "$5.00"; "$0.00"];
                       ["11/03"; "$0.00"; "$0.00"; "$0.00"; "$0.00"]].
Proof.
  do 2 eexists.
  split; [vm_compute; reflexivity|].
  split; [reflexivity|].
  split; [vm_compute; reflexivity|].
  split; [vm_compute; reflexivity|].
  reflexivity.
Qed.

(** C10 (amended): when every pass of the loop over the days reads the
    same day, the cost table has exactly one row for each of the N days
    before that day, in order and labelled with the day's date, whether or
    not the response has rows for that day; these are the days of the
    requested window when the day has not changed since the clock was read
    for the request.  A day none of whose rows the response carries has the
    breakdown 0 in all four categories and a cost row of "$0.00" cells,
    and the percent row of the following day is computed against that
    baseline: "+0.00%" where that day's cost is 0 too, and "+100.00%"
    elsewhere.  This holds for the data of the document and for the
    console, and on a fetched response with float costs both produce their
    tables. *)
Theorem every_day_has_a_cost_row :
  (forall fuel now today loop_day subscription_id subscription_name num_days w w' r,
     (forall i, today i = loop_day) ->
     Clock.generate_data_for_subscription fuel now today subscription_id
       subscription_name num_days w = Some (Ok (ReportDict r), w') ->
     exists p d categories,
       get_cost_data_range fuel subscription_id (now - 1 - (num_days - 1)) (now - 1)
         (print (FetchingData subscription_name) w) = Some (Some p, w')
       /\ parse_range_response p = Ok d
       /\ headers r = "Date" :: map category_name categories
       /\ List.length (cost_table r) = Z.to_nat num_days
       /\ (forall j, (j < Z.to_nat num_days)%nat ->
             exists cells,
               nth_error (cost_table r) j
               = Some (date_str (loop_day - num_days + Z.of_nat j) :: cells))
       /\ (loop_day = now ->
           forall j, (j < Z.to_nat num_days)%nat ->
             exists cells,
               nth_error (cost_table r) j
               = Some (date_str (now - 1 - (num_days - 1) + Z.of_nat j) :: cells))
       /\ (forall j, (j < Z.to_nat num_days)%nat ->
             absent p (date_key (loop_day - num_days + Z.of_nat j)) ->
             process_cost_data
               (daily_get d (date_key (loop_day - num_days + Z.of_nat j)))
             = Ok zero_costs
             /\ nth_error (cost_table r) j
                = Some (date_str (loop_day - num_days + Z.of_nat j)
                        :: zero_cells categories)
             /\ ((S j < Z.to_nat num_days)%nat ->
                 exists curr,
                   process_cost_data
                     (daily_get d (date_key (loop_day - num_days + Z.of_nat (S j))))
                   = Ok curr
                   /\ nth_error (percent_table r) j
                      = Some (date_str (loop_day - num_days + Z.of_nat (S j))
                              :: change_from_zero categories curr))))
  /\ (forall fuel now today later loop_day subscription_id subscription_name num_days
             w w' hs t hs' pt,
        (forall i, today i = loop_day) ->
        (forall i, later i = loop_day) ->
        Clock.generate_table_for_subscription fuel now today later subscription_id
          subscription_name num_days w = Some (Ok tt, w') ->
        tables (trace w') = tables (trace w) ++ [EvTable hs t; EvTable hs' pt] ->
        exists p d w1,
          get_cost_data_range fuel subscription_id (now - 1 - (num_days - 1)) (now - 1)
            (print (FetchingFromTo (now - 1 - (num_days - 1)) (now - 1))
               (print (Banner subscription_name) w)) = Some (Some p, w1)
          /\ parse_range_response p = Ok d
          /\ List.length t = Z.to_nat num_days
          /\ (forall j, (j < Z.to_nat num_days)%nat ->
                exists cells,
                  nth_error t j
                  = Some (date_str (loop_day - num_days + Z.of_nat j) :: cells))
          /\ (forall j, (j < Z.to_nat num_days)%nat ->
                absent p (date_key (loop_day - num_days + Z.of_nat j)) ->
                process_cost_data
                  (daily_get d (date_key (loop_day - num_days + Z.of_nat j)))
                = Ok zero_costs
                /\ nth_error t j
                   = Some (date_str (loop_day - num_days + Z.of_nat j)
                           :: zero_cells all_categories)
                /\ ((S j < Z.to_nat num_days)%nat ->
                    exists curr,
                      process_cost_data
                        (daily_get d (date_key (loop_day - num_days + Z.of_nat (S j))))
                      = Ok curr
                      /\ nth_error pt j
                         = Some (date_str (loop_day - num_days + Z.of_nat (S j))
                                 :: change_from_zero all_categories curr))))
  /\ (forall fuel now today loop_day subscription_id subscription_name num_days w w' p,
        (forall i, today i = loop_day) ->
        get_cost_data_range fuel subscription_id (now - 1 - (num_days - 1)) (now - 1)
          (print (FetchingData subscription_name) w) = Some (Some p, w') ->
        dict_is_empty p = false ->
        float_response p ->
        exists r,
          Clock.generate_data_for_subscription fuel now today subscription_id
            subscription_name num_days w = Some (Ok (ReportDict r), w'))
  /\ (forall fuel now today later loop_day subscription_id subscription_name num_days
             w w' p,
        (forall i, today i = loop_day) ->
        (forall i, later i = loop_day) ->
        get_cost_data_range fuel subscription_id (now - 1 - (num_days - 1)) (now - 1)
          (print (FetchingFromTo (now - 1 - (num_days - 1)) (now - 1))
             (print (Banner subscription_name) w)) = Some (Some p, w') ->
        dict_is_empty p = false ->
        float_response p ->
        exists t pt w'',
          Clock.generate_table_for_subscription fuel now today later subscription_id
            subscription_name num_days w = Some (Ok tt, w'')
          /\ tables (trace w'')
             = tables (trace w) ++ [EvTable console_headers t;
                                    EvTable console_headers pt]).
Proof.
  split; [|split; [|split]].
  - intros fuel now today loop_day subscription_id subscription_name num_days w w' r
           Hday H.
    apply clock_data_report in H. destruct H as [p [Hfetch [_ Hb]]].
    rewrite (build_report_one_day _ _ _ _ _ Hday) in Hb.
    apply build_report_ok in Hb.
    destruct Hb as [d [all_costs [Hd [Hall [Hct [Hpt [Hh _]]]]]]].
    exists p, d, (categories_for subscription_name all_costs).
    pose proof (breakdowns_length _ _ _ _ Hall) as Hlen.
    destruct (cost_rows_ok _ _ _ _ _ Hct) as [Hrows Hnth].
    assert (Hlabels : forall j, (j < Z.to_nat num_days)%nat ->
              exists cells,
                nth_error (cost_table r) j
                = Some (date_str (loop_day - num_days + Z.of_nat j) :: cells)).
    { intros j Hj.
      destruct (nth_error_defined all_costs j) as [c Hc]; [lia|].
      destruct (Hnth j c Hc) as [row [Hrow Hcr]].
      apply cost_row_ok in Hcr. destruct Hcr as [cells [-> _]].
      exists cells. rewrite Hrow. simpl.
      rewrite (date_strings_nth loop_day num_days j Hj). reflexivity. }
    split; [exact Hfetch|]. split; [exact Hd|]. split; [exact Hh|].
    split; [congruence|]. split; [exact Hlabels|]. split.
    + intros -> j Hj. destruct (Hlabels j Hj) as [cells Hcells].
      exists cells. rewrite Hcells. do 3 f_equal. lia.
    + intros j Hj Ha.
      pose proof (breakdown_of_absent_day _ _ _ _ _ _ Hd Hall Hj Ha) as Hz.
      split; [rewrite (parse_absent _ _ _ Hd Ha); reflexivity|]. split.
      * destruct (Hnth j zero_costs Hz) as [row [Hrow Hcr]].
        rewrite cost_row_zero in Hcr. injection Hcr as <-.
        rewrite Hrow. simpl. rewrite (date_strings_nth loop_day num_days j Hj).
        reflexivity.
      * intro HSj.
        destruct (tables_of_absent_day _ _ _ _ _ _ _ _ _ Hd Hall Hpt HSj Ha)
          as [curr [Hcurr Hrow]].
        exists curr. split; [exact Hcurr|]. rewrite Hrow.
        rewrite (date_strings_nth loop_day num_days (S j) HSj). reflexivity.
  - intros fuel now today later loop_day subscription_id subscription_name num_days
           w w' hs t hs' pt Hday Hlater H Ht.
    destruct (clock_table_printed _ _ _ _ _ _ _ _ _ _ _ _ _ H Ht)
      as [p [all_costs [w1 [Hfetch [_ [Hc Hp]]]]]].
    rewrite (console_costs_one_day _ _ _ _ Hday) in Hc.
    rewrite (console_percent_one_day _ _ _ Hlater) in Hp.
    pose proof (console_costs_shape _ _ _ _ _ Hc) as [Hlen [Hlent _]].
    apply console_costs_ok in Hc. destruct Hc as [d [Hd [Hall Htab]]].
    exists p, d, w1.
    split; [exact Hfetch|]. split; [exact Hd|]. split; [exact Hlent|]. split.
    + intros j Hj.
      destruct (Forall2_nth_error _ _ _ Htab j _ (window_nth loop_day num_days j Hj))
        as [row [Hrow [c [_ Hcr]]]].
      apply cost_row_ok in Hcr. destruct Hcr as [cells [-> _]]. eauto.
    + intros j Hj Ha.
      split; [rewrite (parse_absent _ _ _ Hd Ha); reflexivity|]. split.
      * destruct (Forall2_nth_error _ _ _ Htab j _ (window_nth loop_day num_days j Hj))
          as [row [Hrow [c [Hproc Hcr]]]].
        rewrite (parse_absent _ _ _ Hd Ha) in Hproc. simpl in Hproc.
        injection Hproc as <-. rewrite cost_row_zero in Hcr. injection Hcr as <-.
        exact Hrow.
      * intro HSj.
        destruct (tables_of_absent_day _ _ _ _ _ _ _ _ _ Hd Hall Hp HSj Ha)
          as [curr [Hcurr Hrow]].
        exists curr. split; [exact Hcurr|]. rewrite Hrow.
        rewrite (console_label_window loop_day num_days all_costs (S j) Hlen HSj).
        reflexivity.
  - intros fuel now today loop_day subscription_id subscription_name num_days w w' p
           Hday Hf Hne Hp.
    destruct (build_report_total loop_day subscription_name p num_days Hp) as [r Hr].
    exists r. unfold Clock.generate_data_for_subscription.
    rewrite Hf, Hne, (build_report_one_day _ _ _ _ _ Hday), Hr. reflexivity.
  - intros fuel now today later loop_day subscription_id subscription_name num_days
           w w' p Hday Hlater Hf Hne Hp.
    destruct (console_costs_total loop_day p num_days Hp) as [all_costs [t [Hc Hz]]].
    destruct (build_percent_table_total all_categories (console_label loop_day all_costs)
                all_costs Hz) as [pt Hpt].
    exists t, pt. eexists. split.
    + unfold Clock.generate_table_for_subscription.
      rewrite Hf, Hne, (console_costs_one_day _ _ _ _ Hday), Hc,
        (console_percent_one_day _ _ _ Hlater).
      unfold console_percent. rewrite Hpt. reflexivity.
    + simpl. rewrite !tables_app.
      destruct (get_cost_data_range_tables _ _ _ _ _ _ _ Hf) as [-> _].
      unfold print, emit. simpl. rewrite !tables_app. simpl.
      rewrite !app_nil_r, <- !app_assoc. reflexivity.
Qed.

Lemma gap_response_absent : absent gap_response (date_key (today - 3 + Z.of_nat 1)).
Proof.
  intros r c [<-|[<-|[]]] H; vm_compute in H; injection H as <-; reflexivity.
Qed.

Lemma every_day_has_a_cost_row_witness :
  exists r w',
    Clock.generate_data_for_subscription 1 today (fun _ => today) "id-dev" "dev" 3
      (always gap_response) = Some (Ok (ReportDict r), w')
    /\ List.length (cost_table r) = 3%nat
    /\ nth_error (cost_table r) 1 = Some ["11/01"; "$0.00"; "$0.00"; "$0.00"; "$0.00"]
    /\ nth_error (percent_table r) 1
       = Some ["11/02"; "+0.00%"; "+0.00%"; "+100.00%"; "+0.00%"].
Proof.
  assert (H : exists r w',
             Clock.generate_data_for_subscription 1 today (fun _ => today) "id-dev"
               "dev" 3 (always gap_response) = Some (Ok (ReportDict r), w')
             /\ headers r = ["Date"; "Databricks"; "Virtual Machine"; "Storage"; "Others"]
             /\ nth_error (percent_table r) 1
                = Some ["11/02"; "+0.00%"; "+0.00%"; "+100.00%"; "+0.00%"])
    by (do 2 eexists; split; [vm_compute; reflexivity | split; reflexivity]).
  destruct H as [r [w' [H [Hh Hpt]]]]. exists r, w'. split; [exact H|].
  destruct every_day_has_a_cost_row as [Hdoc _].
  destruct (Hdoc _ _ _ today _ _ _ _ _ _ (fun _ => eq_refl) H)
    as [p [d [categories [Hfetch [_ [Hcats [Hlen [_ [_ Habsent]]]]]]]]].
  split; [exact Hlen|]. split; [|exact Hpt].
  assert (Hp : p = gap_response).
  { vm_compute in Hfetch. injection Hfetch as <- _. reflexivity. }
  subst p.
  destruct (Habsent 1%nat ltac:(vm_compute; lia) gap_response_absent) as [_ [Hrow _]].
  rewrite Hrow. f_equal. rewrite Hh in Hcats. injection Hcats as Hcats.
  assert (Hn : List.length categories = 4%nat).
  { apply (f_equal (@List.length string)) in Hcats. rewrite length_map in Hcats.
    simpl in Hcats. lia. }
  unfold zero_cells.
  destruct categories as [|k1 [|k2 [|k3 [|k4 [|k5 rest]]]]]; simpl in Hn; try lia.
  reflexivity.
Defined.

(** ** Rate limiting *)


















(** ** Column positions *)

(** C5 fails on the code: [parse_range_response] resolves the three
    positions by name but uses only the usage date's; [process_cost_data]
    reads the cost at position 0 and the resource type at position 2
    whatever the schema says.  With the usage date named first, the date
    20261102 is read as the cost; with the resource type named fourth, the
    charge type "Usage" is read as the resource type and a virtual machine
    cost is filed under Others. *)
Theorem cost_and_type_read_at_fixed_positions :
  (forall c r, add_row c r
               = (cost <- item r 0 ;; resource_type <- resource_type_of r ;;
                  v <- add_cell (costs_get c (categorize resource_type)) cost ;;
                  Ok (costs_set c (categorize resource_type) v)))
  /\ (cost_idx date_first_columns = 1%nat
      /\ date_idx date_first_columns = 0%nat
      /\ parse_range_response date_first_response = Ok [(CInt 20261102, date_first_rows)]
      /\ process_cost_data date_first_rows
         = Ok (mkCosts (PyInt 0) (PyInt 0) (PyInt 20261102) (PyInt 0))
      /\ process_cost_data_by_schema date_first_columns date_first_rows
         = Ok (mkCosts (PyInt 0) (PyInt 0) (PyFloat 5) (PyInt 0))
      /\ exists r, build_report today "prod" date_first_response 1 = Ok r
                   /\ cost_table r
                      = [["11/02"; "$0.00"; "$0.00"; "$20261102.00"; "$0.00"]])
  /\ (resource_idx type_last_columns = 3%nat
      /\ process_cost_data type_last_rows
         = Ok (mkCosts (PyInt 0) (PyInt 0) (PyInt 0) (PyFloat 5))
      /\ process_cost_data_by_schema type_last_columns type_last_rows
         = Ok (mkCosts (PyInt 0) (PyFloat 5) (PyInt 0) (PyInt 0))
      /\ exists r, build_report today "prod" type_last_response 1 = Ok r
                   /\ cost_table r
                      = [["11/02"; "$0.00"; "$0.00"; "$0.00"; "$5.00"]]).
Proof.
  split; [reflexivity|]. split.
  - repeat split; try (vm_compute; reflexivity).
    eexists. split; vm_compute; reflexivity.
  - repeat split; try (vm_compute; reflexivity).
    eexists. split; vm_compute; reflexivity.
Qed.

(** ** A subscription whose fetch fails *)

(** On a failed fetch [get_cost_data_range] returns [None]. *)
Lemma failed_fetch_returns_none (fuel : nat) (subscription_id : string)
    (start_date end_date : Z) (w : world) :
  fetch_failure (server w (issued w)) ->
  exists e,
    get_cost_data_range (S fuel) subscription_id start_date end_date w
    = Some (None,
            after w 1 [EvRequest (range_request subscription_id start_date end_date);
                       EvPrint (ErrorFetchingRange e)])
    \/ get_cost_data_range (S fuel) subscription_id start_date end_date w
       = Some (None,
               after w 1 [EvRequest (range_request subscription_id start_date end_date)]).
Proof.
  intro H. cbn [get_cost_data_range]. unfold range_try, requests_post.
  assert (Hw : forall ev, mkWorld (server w) (S (issued w)) (trace w ++ ev)
                          = after w 1 ev).
  { intro ev. unfold after. f_equal. lia. }
  destruct (server w (issued w)) as [e|r]; simpl in H.
  - exists e. left. unfold print, emit. simpl. rewrite <- app_assoc. simpl.
    now rewrite Hw.
  - destruct H as [H429 H].
    destruct (Z.eqb_spec (status_code r) 429) as [|_]; [contradiction|].
    unfold raise_for_status, json_properties.
    destruct (andb (400 <=? status_code r) (status_code r <? 600)) eqn:Hst.
    + exists HTTPError. left. unfold print, emit. simpl. rewrite <- app_assoc. simpl.
      now rewrite Hw.
    + destruct H as [H|[H|[H|H]]].
      * apply andb_false_iff in Hst. destruct Hst as [Hst|Hst];
          [apply Z.leb_gt in Hst | apply Z.ltb_ge in Hst]; lia.
      * rewrite H. exists ValueError. left. unfold print, emit. simpl.
        rewrite <- app_assoc. simpl. now rewrite Hw.
      * rewrite H. exists KeyError. left. unfold print, emit. simpl.
        rewrite <- app_assoc. simpl. now rewrite Hw.
      * rewrite H. exists ValueError. right. now rewrite Hw.
Qed.

(** Once [all_data] holds the tuple under a name the document lists, the
    document's loop raises. *)
Lemma add_subscriptions_raises (all_data : all_data_dict) (sub_name : string)
    (sub_names : list string) :
  In sub_name sub_names ->
  lookup all_data sub_name = Some NonePair ->
  forall doc, exists e, add_subscriptions all_data doc sub_names = Raise e.
Proof.
  intros Hin Hl. induction sub_names as [|s rest IH]; intro doc; [destruct Hin|].
  simpl. destruct (add_subscription all_data doc s) as [doc'|e] eqn:E; simpl; [|eauto].
  destruct Hin as [->|Hin]; [|apply IH; exact Hin].
  unfold add_subscription in E. rewrite Hl in E. simpl in E. discriminate E.
Qed.

(** C1 fails on the code.  On a failed fetch the console path prints its
    notice and returns, but [generate_data_for_subscription] returns the
    tuple [(None, None)], which is true in a condition: the main block
    stores it in [all_data], and [create_word_document] raises [TypeError]
    when it subscripts the tuple with ['cost_table'].  With the fetches
    for prod failing, the run prints the console tables of the three other
    subscriptions and then ends with the uncaught [TypeError]: no document
    is saved. *)
Theorem failed_fetch_ends_the_run :
  (forall fuel subscription_id start_date end_date w,
     fetch_failure (server w (issued w)) ->
     exists w', get_cost_data_range (S fuel) subscription_id start_date end_date w
                = Some (None, w'))
  /\ (forall fuel now subscription_id subscription_name num_days w w',
     get_cost_data_range fuel subscription_id (now - 1 - (num_days - 1)) (now - 1)
       (print (FetchingFromTo (now - 1 - (num_days - 1)) (now - 1))
          (print (Banner subscription_name) w)) = Some (None, w') ->
     generate_table_for_subscription fuel now subscription_id subscription_name
       num_days w = Some (Ok tt, print FailedThisSubscription w'))
  /\ (forall fuel now subscription_id subscription_name num_days w w',
        get_cost_data_range fuel subscription_id (now - 1 - (num_days - 1)) (now - 1)
          (print (FetchingData subscription_name) w) = Some (None, w') ->
        generate_data_for_subscription fuel now subscription_id subscription_name
          num_days w
        = Some (Ok NonePair, print (FailedToFetch subscription_name) w'))
  /\ truthy NonePair = true
  /\ (forall now all_data num_days w sub_name,
        In sub_name ["prod"; "dev"; "test"; "main"] ->
        lookup all_data sub_name = Some NonePair ->
        exists e, create_word_document now all_data num_days w = (Raise e, w))
  /\ (exists w',
        main 1 today subscriptions 3 prod_down = Some (Raise TypeError, w')
        /\ List.length (tables (trace w')) = 6%nat
        /\ prints (trace w')
           = [ReportTitle 3;
              Banner "MAIN"; FetchingFromTo 739920 739922; CostTableTitle; Blank;
              PercentChangeTitle; Blank; FetchingData "main"; Waiting;
              Banner "PROD"; FetchingFromTo 739920 739922;
              ErrorFetchingRange HTTPError; FailedThisSubscription;
              FetchingData "prod"; ErrorFetchingRange HTTPError;
              FailedToFetch "prod"; Waiting;
              Banner "DEV"; FetchingFromTo 739920 739922; CostTableTitle; Blank;
              PercentChangeTitle; Blank; FetchingData "dev"; Waiting;
              Banner "TEST"; FetchingFromTo 739920 739922; CostTableTitle; Blank;
              PercentChangeTitle; Blank; FetchingData "test";
              ReportCompleted; GeneratingDocument]).
Proof.
  split; [|split; [|split; [|split; [|split]]]].
  - intros fuel subscription_id start_date end_date w H.
    destruct (failed_fetch_returns_none fuel subscription_id start_date end_date w H)
      as [e [-> | ->]]; eauto.
  - intros fuel now subscription_id subscription_name num_days w w' H.
    unfold generate_table_for_subscription. rewrite H. reflexivity.
  - intros fuel now subscription_id subscription_name num_days w w' H.
    unfold generate_data_for_subscription. rewrite H. reflexivity.
  - reflexivity.
  - intros now all_data num_days w sub_name Hin Hl. unfold create_word_document.
    destruct (add_subscriptions_raises all_data sub_name _ Hin Hl
                [Heading "Azure Cost Summary Report" 0;
                 Paragraph (greeting now num_days)]) as [e ->].
    eauto.
  - eexists. split; [vm_compute; reflexivity|]. split; vm_compute; reflexivity.
Qed.

(** ** The categorization table *)

Lemma prefix_app_l (a b : string) :
  forall t, String.prefix (a ++ b) t = true -> String.prefix a t = true.
Proof.
  induction a as [|x a IH]; intros t H; [destruct t; reflexivity|].
  destruct t as [|y t]; simpl in *; [discriminate H|].
  destruct (ascii_dec x y); [apply IH; exact H | discriminate H].
Qed.

Lemma contains_prefix (needle hay : string) :
  String.prefix needle hay = true -> contains needle hay = true.
Proof. intro H. destruct hay; cbn [contains]; rewrite H; reflexivity. Qed.

Lemma contains_tail (needle : string) (c : ascii) (hay : string) :
  contains needle hay = true -> contains needle (String c hay) = true.
Proof.
  intro H. cbn [contains].
  destruct (String.prefix needle (String c hay)); [reflexivity | exact H].
Qed.

Lemma prefix_app_r (a b : string) :
  forall t, String.prefix (a ++ b) t = true -> contains b t = true.
Proof.
  induction a as [|x a IH]; intros t H; [apply contains_prefix; exact H|].
  destruct t as [|y t]; simpl in H; [discriminate H|].
  destruct (ascii_dec x y); [|discriminate H].
  apply contains_tail, IH. exact H.
Qed.

(** A text that contains [a ++ b] contains [a] and contains [b]. *)
Lemma contains_app (a b t : string) :
  contains (a ++ b) t = true -> contains a t = true /\ contains b t = true.
Proof.
  induction t as [|y t IH]; intro H; cbn [contains] in H.
  - destruct (String.prefix (a ++ b) "") eqn:E; [|discriminate H]. split.
    + apply contains_prefix. eapply prefix_app_l; eauto.
    + eapply prefix_app_r; eauto.
  - destruct (String.prefix (a ++ b) (String y t)) eqn:E.
    + split.
      * apply contains_prefix. eapply prefix_app_l; eauto.
      * eapply prefix_app_r; eauto.
    + destruct (IH H) as [Ha Hb]. split; apply contains_tail; assumption.
Qed.

Lemma lower_upper_ascii (c : ascii) : lower_ascii (upper_ascii c) = lower_ascii c.
Proof. destruct c as [[] [] [] [] [] [] [] []]; reflexivity. Qed.

Lemma lower_upper (s : string) : lower (upper s) = lower s.
Proof.
  induction s as [|c s IH]; simpl; [reflexivity|].
  now rewrite lower_upper_ascii, IH.
Qed.

Lemma lower_lower_ascii (c : ascii) : lower_ascii (lower_ascii c) = lower_ascii c.
Proof. destruct c as [[] [] [] [] [] [] [] []]; reflexivity. Qed.

Lemma lower_idempotent (s : string) : lower (lower s) = lower s.
Proof.
  induction s as [|c s IH]; simpl; [reflexivity|].
  now rewrite lower_lower_ascii, IH.
Qed.

Lemma upper_is_ascii (s : string) : is_ascii s = true -> is_ascii (upper s) = true.
Proof.
  induction s as [|c s IH]; simpl; [reflexivity|].
  intro H. apply andb_true_iff in H. destruct H as [Hc Hs].
  rewrite (IH Hs), andb_true_r.
  destruct c as [[] [] [] [] [] [] [] []]; first [reflexivity | discriminate Hc].
Qed.

Lemma lower_is_ascii (s : string) : is_ascii s = true -> is_ascii (lower s) = true.
Proof.
  induction s as [|c s IH]; simpl; [reflexivity|].
  intro H. apply andb_true_iff in H. destruct H as [Hc Hs].
  rewrite (IH Hs), andb_true_r.
  destruct c as [[] [] [] [] [] [] [] []]; first [reflexivity | discriminate Hc].
Qed.

(** X1: the categorizer's chain of tests is the table of the specification:
    a resource type that contains "databricks/workspace" is Databricks,
    else one that contains "compute/virtualmachines" is Virtual Machine,
    else one that contains "storage/storageaccounts" is Storage, else it is
    Others (the second alternative of each test in the source is implied by
    or implies the first).  The test is on the lower-cased text, so for a
    resource type written in ASCII characters the letter case does not
    matter: written in capitals, or in small letters, it stays an ASCII
    text and falls in the same category.  The vendor prefix does not
    matter either. *)
Theorem categorize_is_the_table :
  (forall t, categorize t
             = if contains "databricks/workspace" t then Databricks
               else if contains "compute/virtualmachines" t then VirtualMachine
               else if contains "storage/storageaccounts" t then Storage
               else Others)
  /\ (forall s, is_ascii s = true ->
                is_ascii (upper s) = true
                /\ categorize (lower (upper s)) = categorize (lower s))
  /\ (forall s, is_ascii s = true ->
                is_ascii (lower s) = true
                /\ categorize (lower (lower s)) = categorize (lower s))
  /\ categorize (lower "Microsoft.Storage/storageAccounts") = Storage
  /\ categorize (lower "storage/storageaccounts") = Storage
  /\ categorize (lower "Microsoft.Compute/virtualMachines") = VirtualMachine
  /\ categorize (lower "MICROSOFT.DATABRICKS/WORKSPACES") = Databricks
  /\ categorize (lower "Microsoft.Network/publicIPAddresses") = Others.
Proof.
  split; [|split; [|split]]; [| | |repeat split; reflexivity].
  - intro t. unfold categorize.
    assert (H1 : contains "databricks/workspaces" t = true ->
                 contains "databricks/workspace" t = true)
      by (intro H; apply (contains_app "databricks/workspace" "s" t H)).
    assert (H2 : contains "microsoft.compute/virtualmachines" t = true ->
                 contains "compute/virtualmachines" t = true)
      by (intro H; apply (contains_app "microsoft." "compute/virtualmachines" t H)).
    assert (H3 : contains "microsoft.storage/storageaccounts" t = true ->
                 contains "storage/storageaccounts" t = true)
      by (intro H; apply (contains_app "microsoft." "storage/storageaccounts" t H)).
    destruct (contains "databricks/workspaces" t);
      [rewrite (H1 eq_refl); reflexivity|].
    destruct (contains "databricks/workspace" t); [reflexivity|]. simpl.
    destruct (contains "microsoft.compute/virtualmachines" t);
      [rewrite (H2 eq_refl); reflexivity|].
    destruct (contains "compute/virtualmachines" t); [reflexivity|]. simpl.
    destruct (contains "microsoft.storage/storageaccounts" t);
      [rewrite (H3 eq_refl); reflexivity|].
    destruct (contains "storage/storageaccounts" t); reflexivity.
  - intros s Hs. split; [exact (upper_is_ascii s Hs)|]. now rewrite lower_upper.
  - intros s Hs. split; [exact (lower_is_ascii s Hs)|]. now rewrite lower_idempotent.
Qed.

(** ** Rows without a resource type, responses without rows *)

(** X2: a row with fewer than three cells has the resource type [''] and is
    filed under Others; a response without a [rows] member parses to the
    empty mapping, on which every day has no rows and the breakdown 0. *)
Theorem missing_fields_default :
  (forall r, (List.length r <= 2)%nat ->
             resource_type_of r = Ok "" /\ category_of r = Others)
  /\ (forall p, p_rows p = None -> parse_range_response p = Ok [])
  /\ (forall key, daily_get [] key = [])
  /\ process_cost_data [] = Ok zero_costs.
Proof.
  split; [|split; [|split]]; try reflexivity.
  - intros r H. unfold category_of, resource_type_of.
    destruct (Z.ltb_spec 2 (Z.of_nat (List.length r))); [lia|]. split; reflexivity.
  - intros p H. unfold parse_range_response. rewrite H.
    destruct (dict_is_empty p); reflexivity.
Qed.

Lemma missing_fields_default_witness :
  category_of [CFloat 1.5; CInt 20261102] = Others
  /\ parse_range_response (mkProperties None (Some usual_columns) true) = Ok [].
Proof.
  destruct missing_fields_default as [Hrow [Hparse _]]. split.
  - apply Hrow. simpl. lia.
  - apply Hparse. reflexivity.
Defined.

(** ** One retry *)



(** ** A run without failures *)

Lemma adds_trans (w w1 w2 : world) (s1 s2 : list string) (z1 z2 : list Z) :
  adds w w1 s1 z1 -> adds w1 w2 s2 z2 -> adds w w2 (s1 ++ s2) (z1 ++ z2).
Proof.
  intros [Ha [Hb Hc]] [Ha' [Hb' Hc']]. unfold adds.
  rewrite Ha', Ha, Hb', Hb, Hc', Hc, !app_assoc. auto.
Qed.

Lemma add_table_fits (doc : document) (rows : list (list string))
    (hs : list string) (title : string) :
  Forall (fun row => List.length row = List.length hs) rows ->
  exists items,
    add_table_to_doc doc rows hs title = Ok (doc ++ items) /\ headings items = [].
Proof.
  intro H. unfold add_table_to_doc.
  assert (Hfit : existsb (fun row_data => Nat.ltb (List.length hs) (List.length row_data))
                         rows = false).
  { induction H as [|row rest Hrow _ IH]; simpl; [reflexivity|].
    rewrite Hrow, Nat.ltb_irrefl. exact IH. }
  rewrite Hfit. destruct (String.eqb title "").
  - exists [Table hs rows; Paragraph ""]. auto.
  - exists [Paragraph title; Table hs rows; Paragraph ""].
    rewrite <- app_assoc. auto.
Qed.

Lemma add_subscription_report (all_data : all_data_dict) (doc : document)
    (sub_name : string) (r : report) :
  lookup all_data sub_name = Some (ReportDict r) ->
  Forall (fun row => List.length row = List.length (headers r))
         (cost_table r ++ percent_table r) ->
  exists items,
    add_subscription all_data doc sub_name
    = Ok (doc ++ Heading (capitalize sub_name ++ " Environment") 2 :: items)
    /\ headings items = [].
Proof.
  intros Hl Hfit. apply Forall_app in Hfit. destruct Hfit as [Hc Hp].
  unfold add_subscription. rewrite Hl. cbn [truthy field bind].
  destruct (add_table_fits (doc ++ [Heading (capitalize sub_name ++ " Environment") 2])
              (cost_table r) (headers r) "" Hc) as [i1 [-> H1]].
  cbn [bind].
  destruct (add_table_fits
              ((doc ++ [Heading (capitalize sub_name ++ " Environment") 2]) ++ i1)
              (percent_table r) (headers r)
              ("Percentage difference for " ++ sub_name) Hp) as [i2 [-> H2]].
  exists (i1 ++ i2). split.
  - rewrite <- !app_assoc. reflexivity.
  - unfold headings in *. rewrite flat_map_app, H1, H2. reflexivity.
Qed.

Section SteadyRun.

(** Every request is answered with the data [p], a response with float
    costs. *)
Variable p : properties.
Variable fuel : nat.
Variable now : Z.
Variable ids : string -> string.
Variable num_days : Z.
Hypothesis p_not_empty : dict_is_empty p = false.
Hypothesis p_floats : float_response p.

Lemma steady_fetch (w : world) (subscription_id : string) (start_date end_date : Z) :
  steady p w ->
  get_cost_data_range (S fuel) subscription_id start_date end_date w
  = Some (Some p,
          after w 1 [EvRequest (range_request subscription_id start_date end_date)]).
Proof.
  intro H. cbn [get_cost_data_range]. unfold range_try, requests_post.
  rewrite H. simpl. unfold after. do 3 f_equal. lia.
Qed.

Lemma adds_steady (w w' : world) (subs : list string) (secs : list Z) :
  steady p w -> adds w w' subs secs -> steady p w'.
Proof. intros Hs [Hserver _] n. rewrite Hserver. apply Hs. Qed.

Lemma generate_table_steady (w : world) (subscription_id subscription_name : string) :
  steady p w ->
  exists w1,
    generate_table_for_subscription (S fuel) now subscription_id subscription_name
      num_days w = Some (Ok tt, w1)
    /\ adds w w1 [subscription_id] [].
Proof.
  intros Hs.
  destruct (console_costs_total now p num_days p_floats) as [all_costs [t [Hc Hz]]].
  destruct (build_percent_table_total all_categories (console_label now all_costs)
              all_costs Hz) as [pt Hpt].
  eexists. split.
  - eapply generate_table_fetched; eauto. apply steady_fetch. exact Hs.
  - unfold adds, requested, sleeps, after, print, emit. simpl.
    rewrite !flat_map_app. simpl. rewrite !app_nil_r. auto.
Qed.

Lemma generate_data_steady (w : world) (subscription_id subscription_name : string) :
  steady p w ->
  exists r w1,
    generate_data_for_subscription (S fuel) now subscription_id subscription_name
      num_days w = Some (Ok (ReportDict r), w1)
    /\ build_report now subscription_name p num_days = Ok r
    /\ adds w w1 [subscription_id] [].
Proof.
  intros Hs.
  destruct (build_report_total now subscription_name p num_days p_floats) as [r Hr].
  exists r. eexists. split; [|split; [exact Hr|]].
  - rewrite (generate_data_fetched (S fuel) now subscription_id subscription_name
               num_days w _ p
               (steady_fetch (print (FetchingData subscription_name) w) _ _ _ Hs)
               p_not_empty).
    rewrite Hr. reflexivity.
  - unfold adds, requested, sleeps, after, print, emit. simpl.
    rewrite !flat_map_app. simpl. rewrite !app_nil_r. auto.
Qed.

Lemma process_subscription_steady (w : world) (idx : Z) (sub_name : string)
    (all_data : all_data_dict) :
  steady p w ->
  exists r w1,
    process_subscription (S fuel) now ids num_days idx sub_name all_data w
    = Some (Ok (store all_data sub_name (ReportDict r)), w1)
    /\ build_report now sub_name p num_days = Ok r
    /\ adds w w1 [ids sub_name; ids sub_name] (if idx <? 3 then [2] else []).
Proof.
  intros Hs. unfold process_subscription.
  destruct (generate_table_steady w (ids sub_name) (upper sub_name) Hs)
    as [w1 [-> H1]].
  destruct (generate_data_steady w1 (ids sub_name) sub_name
              (adds_steady _ _ _ _ Hs H1)) as [r [w2 [-> [Hr H2]]]].
  exists r. simpl. destruct (idx <? 3).
  - eexists. split; [reflexivity|]. split; [exact Hr|].
    apply (adds_trans _ _ _ _ _ _ _ (adds_trans _ _ _ _ _ _ _ H1 H2)).
    unfold adds, requested, sleeps, print, emit. simpl.
    rewrite !flat_map_app. simpl. rewrite !app_nil_r. auto.
  - exists w2. split; [reflexivity|]. split; [exact Hr|].
    rewrite <- (app_nil_r []).
    apply (adds_trans _ _ _ _ _ _ _ (adds_trans _ _ _ _ _ _ _ H1 H2)).
    unfold adds. rewrite !app_nil_r. auto.
Qed.

Lemma process_all_steady (w : world) :
  steady p w ->
  exists r1 r2 r3 r4 w',
    process_subscriptions (S fuel) now ids num_days 0
      ["main"; "prod"; "dev"; "test"] [] w
    = Some (Ok [("main", ReportDict r1); ("prod", ReportDict r2);
                ("dev", ReportDict r3); ("test", ReportDict r4)], w')
    /\ (build_report now "main" p num_days = Ok r1
        /\ build_report now "prod" p num_days = Ok r2
        /\ build_report now "dev" p num_days = Ok r3
        /\ build_report now "test" p num_days = Ok r4)
    /\ adds w w' [ids "main"; ids "main"; ids "prod"; ids "prod";
                  ids "dev"; ids "dev"; ids "test"; ids "test"] [2; 2; 2].
Proof.
  intros Hs. cbn [process_subscriptions].
  destruct (process_subscription_steady w 0 "main" [] Hs) as [r1 [w1 [-> [Hr1 H1]]]].
  pose proof (adds_steady _ _ _ _ Hs H1) as Hs1.
  destruct (process_subscription_steady w1 (0 + 1) "prod"
              (store [] "main" (ReportDict r1)) Hs1) as [r2 [w2 [-> [Hr2 H2]]]].
  pose proof (adds_steady _ _ _ _ Hs1 H2) as Hs2.
  destruct (process_subscription_steady w2 (0 + 1 + 1) "dev"
              (store (store [] "main" (ReportDict r1)) "prod" (ReportDict r2)) Hs2)
    as [r3 [w3 [-> [Hr3 H3]]]].
  pose proof (adds_steady _ _ _ _ Hs2 H3) as Hs3.
  destruct (process_subscription_steady w3 (0 + 1 + 1 + 1) "test"
              (store (store (store [] "main" (ReportDict r1)) "prod" (ReportDict r2))
                     "dev" (ReportDict r3)) Hs3) as [r4 [w4 [-> [Hr4 H4]]]].
  exists r1, r2, r3, r4, w4. split; [reflexivity|]. split; [auto|].
  pose proof (adds_trans _ _ _ _ _ _ _ (adds_trans _ _ _ _ _ _ _
                (adds_trans _ _ _ _ _ _ _ H1 H2) H3) H4) as H.
  simpl in H. exact H.
Qed.

(** X4: when every fetch succeeds with data, the run completes: the
    subscriptions are asked for in the order main, prod, dev, test, twice
    each (console, then document), with a sleep of 2 seconds after each
    but the last, and the saved document has the title and one section
    per subscription in the order prod, dev, test, main. *)
Theorem complete_run (w : world) :
  steady p w ->
  exists doc w',
    main (S fuel) now ids num_days w = Some (Ok doc, w')
    /\ headings doc = ["Azure Cost Summary Report"; "Prod Environment";
                       "Dev Environment"; "Test Environment"; "Main Environment"]
    /\ requested (trace w')
       = requested (trace w) ++ [ids "main"; ids "main"; ids "prod"; ids "prod";
                                 ids "dev"; ids "dev"; ids "test"; ids "test"]
    /\ sleeps (trace w') = sleeps (trace w) ++ [2; 2; 2].
Proof.
  intros Hs. unfold main.
  destruct (process_all_steady (print (ReportTitle num_days) w) Hs)
    as [r1 [r2 [r3 [r4 [w1 [-> [[Hr1 [Hr2 [Hr3 Hr4]]] [_ [Hreq Hsl]]]]]]]]].
  unfold create_word_document. cbn [add_subscriptions].
  set (all_data := [("main", ReportDict r1); ("prod", ReportDict r2);
                    ("dev", ReportDict r3); ("test", ReportDict r4)]).
  destruct (add_subscription_report all_data
              [Heading "Azure Cost Summary Report" 0;
               Paragraph (greeting now num_days)]
              "prod" r2 eq_refl (report_rows_match_headers _ _ _ _ _ Hr2))
    as [i2 [-> H2]]. cbn [bind].
  destruct (add_subscription_report all_data
              ([Heading "Azure Cost Summary Report" 0;
                Paragraph (greeting now num_days)]
               ++ Heading (capitalize "prod" ++ " Environment") 2 :: i2)
              "dev" r3 eq_refl (report_rows_match_headers _ _ _ _ _ Hr3))
    as [i3 [-> H3]]. cbn [bind].
  destruct (add_subscription_report all_data
              (([Heading "Azure Cost Summary Report" 0;
                 Paragraph (greeting now num_days)]
                ++ Heading (capitalize "prod" ++ " Environment") 2 :: i2)
               ++ Heading (capitalize "dev" ++ " Environment") 2 :: i3)
              "test" r4 eq_refl (report_rows_match_headers _ _ _ _ _ Hr4))
    as [i4 [-> H4]]. cbn [bind].
  destruct (add_subscription_report all_data
              ((([Heading "Azure Cost Summary Report" 0;
                  Paragraph (greeting now num_days)]
                 ++ Heading (capitalize "prod" ++ " Environment") 2 :: i2)
                ++ Heading (capitalize "dev" ++ " Environment") 2 :: i3)
               ++ Heading (capitalize "test" ++ " Environment") 2 :: i4)
              "main" r1 eq_refl (report_rows_match_headers _ _ _ _ _ Hr1))
    as [i1 [-> H1]]. cbn [bind].
  do 2 eexists. split; [reflexivity|]. split; [|split].
  - unfold headings in *. repeat (rewrite flat_map_app; simpl).
    rewrite H1, H2, H3, H4. reflexivity.
  - unfold print, emit, requested in *. simpl in *.
    rewrite !flat_map_app in *. simpl in *. rewrite !app_nil_r in *. exact Hreq.
  - unfold print, emit, sleeps in *. simpl in *.
    rewrite !flat_map_app in *. simpl in *. rewrite !app_nil_r in *. exact Hsl.
Qed.

End SteadyRun.

Lemma three_day_response_floats : float_response three_day_response.
Proof.
  intros r [<-|[<-|[<-|[<-|[<-|[]]]]]]; split; try reflexivity; vm_compute; lia.
Qed.

Lemma complete_run_witness :
  exists doc w',
    main 1 today subscriptions 3 (always three_day_response) = Some (Ok doc, w')
    /\ headings doc = ["Azure Cost Summary Report"; "Prod Environment";
                       "Dev Environment"; "Test Environment"; "Main Environment"]
    /\ sleeps (trace w') = [2; 2; 2].
Proof.
  destruct (complete_run three_day_response 0 today subscriptions 3 eq_refl
              three_day_response_floats (always three_day_response) (fun _ => eq_refl))
    as [doc [w' [Hrun [Hh [_ Hs]]]]].
  exists doc, w'. auto.
Defined.

(** ** The range request *)

Lemma range_try_trace (subscription_id : string) (start_date end_date : Z)
    (w w1 : world) (a : res (attempt (option properties))) :
  range_try subscription_id start_date end_date w = (a, w1) ->
  exists rest,
    trace w1 = trace w ++ EvRequest (range_request subscription_id start_date end_date)
                          :: rest.
Proof.
  unfold range_try, requests_post, sleep, print, emit.
  destruct (server w (issued w)) as [e|r].
  - intro H. injection H as <- <-. exists []. reflexivity.
  - destruct (status_code r =? 429).
    + destruct (retry_after_or r 60) as [secs|e].
      * destruct (secs <? 0); [|destruct (max_sleep <? secs)];
          intro H; injection H as <- <-; simpl;
          rewrite <- ?app_assoc; simpl; eauto.
      * intro H. injection H as <- <-. exists []. reflexivity.
    + destruct (raise_for_status r); [destruct (json_properties r)|];
        intro H; injection H as <- <-; exists []; reflexivity.
Qed.

Lemma fetch_trace (fuel : nat) (subscription_id : string) (start_date end_date : Z) :
  forall w w' v,
    get_cost_data_range fuel subscription_id start_date end_date w = Some (v, w') ->
    exists rest,
      trace w' = trace w ++ EvRequest (range_request subscription_id start_date end_date)
                            :: rest.
Proof.
  induction fuel as [|fuel IH]; intros w w' v H; simpl in H;
    destruct (range_try subscription_id start_date end_date w) as [a w1] eqn:E;
    apply range_try_trace in E; destruct E as [rest E];
    destruct a as [[|p]|e];
    try (apply IH in H; destruct H as [rest' H]; rewrite H, E;
         rewrite <- app_assoc; simpl; eauto; fail);
    injection H as <- <-; eauto;
    unfold print, emit; simpl; rewrite E; rewrite <- app_assoc; simpl; eauto.
Qed.

(** X5: both report functions open with one request for the whole window,
    from [num_days] days before today to yesterday, grouped by resource
    type and charge type, with a timeout of 30 seconds. *)
Theorem one_request_for_the_window :
  (forall fuel now subscription_id subscription_name num_days w w' result,
     generate_table_for_subscription fuel now subscription_id subscription_name
       num_days w = Some (result, w') ->
     exists rest,
       trace w' = trace w
                  ++ [EvPrint (Banner subscription_name);
                      EvPrint (FetchingFromTo (now - num_days) (now - 1));
                      EvRequest (mkRequest subscription_id (now - num_days) (now - 1)
                                   ["ResourceType"; "ChargeType"] (Some 30))]
                  ++ rest)
  /\ (forall fuel now subscription_id subscription_name num_days w w' result,
        generate_data_for_subscription fuel now subscription_id subscription_name
          num_days w = Some (result, w') ->
        exists rest,
          trace w' = trace w
                     ++ [EvPrint (FetchingData subscription_name);
                         EvRequest (mkRequest subscription_id (now - num_days) (now - 1)
                                      ["ResourceType"; "ChargeType"] (Some 30))]
                     ++ rest).
Proof.
  split.
  - intros fuel now subscription_id subscription_name num_days w w' result.
    unfold generate_table_for_subscription.
    replace (now - 1 - (num_days - 1)) with (now - num_days) by lia.
    destruct (get_cost_data_range _ _ _ _ _) as [[v w1]|] eqn:E; [|discriminate].
    apply fetch_trace in E. destruct E as [rest E].
    unfold print, emit in E. simpl in E. rewrite <- !app_assoc in E. simpl in E.
    unfold range_request in E.
    destruct v as [p|];
      [destruct (dict_is_empty p);
       [|destruct (console_costs now p num_days) as [[all_costs t]|e];
         [destruct (console_percent now all_costs)|]]|];
      intro H; injection H as <- <-; unfold print, emit; simpl; rewrite E;
      rewrite <- ?app_assoc; simpl; eauto.
  - intros fuel now subscription_id subscription_name num_days w w' result.
    unfold generate_data_for_subscription.
    replace (now - 1 - (num_days - 1)) with (now - num_days) by lia.
    destruct (get_cost_data_range _ _ _ _ _) as [[v w1]|] eqn:E; [|discriminate].
    apply fetch_trace in E. destruct E as [rest E].
    unfold print, emit in E. simpl in E. rewrite <- !app_assoc in E. simpl in E.
    unfold range_request in E.
    destruct v as [p|];
      [destruct (dict_is_empty p);
       [|destruct (build_report now subscription_name p num_days)]|];
      intro H; injection H as <- <-; unfold print, emit; simpl; rewrite ?E;
      rewrite <- ?app_assoc; simpl; eauto.
Qed.

Lemma one_request_for_the_window_witness :
  exists w' rest,
    generate_data_for_subscription 1 today "id-dev" "dev" 3 (always gap_response)
    = Some (Ok (ReportDict
                  (mkReport [["10/31"; "$0.00"; "$10.00"; "$0.00"; "$0.00"];
                             ["11/01"; "$0.00"; "$0.00"; "$0.00"; "$0.00"];
                             ["11/02"; "$0.00"; "$0.00"; "$4.00"; "$0.00"]]
                            [["11/01"; "+0.00%"; "-100.00%"; "+0.00%"; "+0.00%"];
                             ["11/02"; "+0.00%"; "+0.00%"; "+100.00%"; "+0.00%"]]
                            ["Date"; "Databricks"; "Virtual Machine"; "Storage"; "Others"]
                            ["10/31"; "11/01"; "11/02"])), w')
    /\ trace w' = [EvPrint (FetchingData "dev");
                   EvRequest (mkRequest "id-dev" (today - 3) (today - 1)
                                ["ResourceType"; "ChargeType"] (Some 30))] ++ rest.
Proof.
  assert (H : exists w',
             generate_data_for_subscription 1 today "id-dev" "dev" 3
               (always gap_response)
             = Some (Ok (ReportDict
                  (mkReport [["10/31"; "$0.00"; "$10.00"; "$0.00"; "$0.00"];
                             ["11/01"; "$0.00"; "$0.00"; "$0.00"; "$0.00"];
                             ["11/02"; "$0.00"; "$0.00"; "$4.00"; "$0.00"]]
                            [["11/01"; "+0.00%"; "-100.00%"; "+0.00%"; "+0.00%"];
                             ["11/02"; "+0.00%"; "+0.00%"; "+100.00%"; "+0.00%"]]
                            ["Date"; "Databricks"; "Virtual Machine"; "Storage"; "Others"]
                            ["10/31"; "11/01"; "11/02"])), w'))
    by (eexists; vm_compute; reflexivity).
  destruct H as [w' H]. exists w'.
  destruct one_request_for_the_window as [_ Hdata].
  destruct (Hdata _ _ _ _ _ _ _ _ H) as [rest Hrest].
  exists rest. split; [exact H | exact Hrest].
Defined.

(** ** Grouping by date *)

Lemma digits2_bounds (m : positive) :
  2 ^ (Zpos (digits2_pos m) - 1) <= Zpos m < 2 ^ Zpos (digits2_pos m).
Proof.
  induction m as [m IH|m IH|]; cbn [digits2_pos].
  - rewrite Pos2Z.inj_succ. change (Zpos m~1) with (2 * Zpos m + 1).
    replace (Z.succ (Zpos (digits2_pos m)) - 1) with (Z.succ (Zpos (digits2_pos m) - 1))
      by lia.
    rewrite !Z.pow_succ_r by lia. lia.
  - rewrite Pos2Z.inj_succ. change (Zpos m~0) with (2 * Zpos m).
    replace (Z.succ (Zpos (digits2_pos m)) - 1) with (Z.succ (Zpos (digits2_pos m) - 1))
      by lia.
    rewrite !Z.pow_succ_r by lia. lia.
  - simpl. lia.
Qed.

Lemma float_is_int_functional (f : float) (a b : Z) :
  float_is_int f a = true -> float_is_int f b = true -> a = b.
Proof.
  unfold float_is_int.
  destruct (Prim2SF f) as [s|s| |s m e]; try discriminate.
  - intros Ha Hb. apply Z.eqb_eq in Ha, Hb. congruence.
  - destruct (0 <=? e); intros Ha Hb.
    + apply Z.eqb_eq in Ha, Hb. congruence.
    + apply andb_true_iff in Ha, Hb. destruct Ha as [_ Ha], Hb as [_ Hb].
      apply Z.eqb_eq in Ha, Hb. congruence.
Qed.

Lemma same_mantissa (m m' a b : Z) :
  0 <= a -> 0 <= b ->
  2 ^ 52 <= m < 2 ^ 53 -> 2 ^ 52 <= m' < 2 ^ 53 ->
  m * 2 ^ a = m' * 2 ^ b -> a = b /\ m = m'.
Proof.
  intros Ha Hb Hm Hm' H.
  assert (Hlt : forall x y u v, 0 <= u -> u < v ->
                  2 ^ 52 <= x < 2 ^ 53 -> 2 ^ 52 <= y < 2 ^ 53 ->
                  x * 2 ^ u = y * 2 ^ v -> False).
  { intros x y u v Hu Huv Hx Hy E.
    replace v with (u + (v - u)) in E by lia.
    rewrite Z.pow_add_r in E by lia.
    assert (Hpu : 0 < 2 ^ u) by (apply Z.pow_pos_nonneg; lia).
    assert (Hpd : 2 ^ 1 <= 2 ^ (v - u)) by (apply Z.pow_le_mono_r; lia).
    change (2 ^ 1) with 2 in Hpd.
    rewrite Z.mul_assoc, (Z.mul_comm y), <- Z.mul_assoc in E.
    rewrite (Z.mul_comm x) in E.
    apply Z.mul_reg_l in E; [|lia].
    change (2 ^ 52) with 4503599627370496 in *.
    change (2 ^ 53) with 9007199254740992 in *.
    nia. }
  destruct (Z.lt_trichotomy a b) as [Hab|[Hab|Hab]].
  - exfalso. exact (Hlt m m' a b Ha Hab Hm Hm' H).
  - split; [exact Hab|]. subst b.
    assert (Hpa : 0 < 2 ^ a) by (apply Z.pow_pos_nonneg; lia).
    apply Z.mul_reg_r in H; [exact H | lia].
  - exfalso. exact (Hlt m' m b a Hb Hab Hm' Hm (eq_sym H)).
Qed.

Lemma float_is_int_value (f : float) (z : Z) (s : bool) (m : positive) (e : Z) :
  Prim2SF f = S754_finite s m e ->
  float_is_int f z = true ->
  (if s then - z else z) * 2 ^ 1074 = Zpos m * 2 ^ (e + 1074)
  /\ -1074 <= e
  /\ 2 ^ 52 <= Zpos m < 2 ^ 53.
Proof.
  intros Hf Hz.
  pose proof (Prim2SF_valid f) as Hv. rewrite Hf in Hv.
  unfold valid_binary, bounded, canonical_mantissa, fexp, emin in Hv.
  apply andb_true_iff in Hv. destruct Hv as [Hc _].
  apply Z.eqb_eq in Hc. change prec with 53 in Hc. change emax with 1024 in Hc.
  change (IntDef.Z.max ?a ?b) with (Z.max a b) in Hc.
  pose proof (digits2_bounds m) as Hd.
  unfold float_is_int in Hz. rewrite Hf in Hz.
  assert (He : -1074 <= e) by lia.
  assert (Hval : (if s then - z else z) * 2 ^ 1074 = Zpos m * 2 ^ (e + 1074)).
  { destruct (Z.leb_spec 0 e) as [H0|H0].
    - apply Z.eqb_eq in Hz. rewrite Z.pow_add_r by lia.
      destruct s; subst z; [change (Z.neg m) with (- Z.pos m)|]; ring.
    - apply andb_true_iff in Hz. destruct Hz as [Hm Hq].
      apply Z.eqb_eq in Hm, Hq.
      assert (Hp : 0 < 2 ^ (- e)) by (apply Z.pow_pos_nonneg; lia).
      pose proof (Z.div_mod (if s then Z.neg m else Z.pos m) (2 ^ (- e))) as Hdm.
      rewrite Hm, <- Hq, Z.add_0_r in Hdm. specialize (Hdm ltac:(lia)).
      replace 1074 with (- e + (e + 1074)) at 1 by lia.
      rewrite Z.pow_add_r by lia.
      destruct s.
      + change (Z.neg m) with (- Z.pos m) in Hdm.
        replace (Z.pos m) with (- (2 ^ (- e) * z)) by lia. ring.
      + rewrite Hdm. ring. }
  split; [exact Hval|]. split; [exact He|].
  assert (Hdig : Zpos (digits2_pos m) = 53 \/ (e = -1074 /\ Zpos (digits2_pos m) < 53)) by lia.
  destruct Hdig as [Hdig|[He' Hdig]].
  - rewrite Hdig in Hd. exact Hd.
  - exfalso. subst e. change (-1074 + 1074) with 0 in Hval.
    rewrite Z.pow_0_r, Z.mul_1_r in Hval.
    assert (H1 : Zpos m < 2 ^ 52).
    { apply Z.lt_le_trans with (1 := proj2 Hd). apply Z.pow_le_mono_r; lia. }
    assert (H2 : 2 ^ 52 < 2 ^ 1074) by (apply Z.pow_lt_mono_r; lia).
    assert (H3 : 0 < 2 ^ 1074) by (apply Z.pow_pos_nonneg; lia).
    remember (2 ^ 1074) as big. remember (2 ^ 52) as small.
    clear - Hval H1 H2 H3.
    assert (H4 : 1 <= (if s then - z else z)) by nia.
    nia.
Qed.

Lemma float_is_int_unique (f g : float) (z : Z) :
  float_is_int f z = true -> float_is_int g z = true -> PrimFloat.eqb f g = true.
Proof.
  intros Hf Hg. rewrite eqb_spec.
  destruct (Prim2SF f) as [s|s| |s m e] eqn:Ef;
    try (unfold float_is_int in Hf; rewrite Ef in Hf; discriminate Hf);
  destruct (Prim2SF g) as [s'|s'| |s' m' e'] eqn:Eg;
    try (unfold float_is_int in Hg; rewrite Eg in Hg; discriminate Hg).
  - reflexivity.
  - exfalso. destruct (float_is_int_value g z s' m' e' Eg Hg) as [Hv [He Hm]].
    unfold float_is_int in Hf. rewrite Ef in Hf. apply Z.eqb_eq in Hf. subst z.
    assert (0 < Zpos m' * 2 ^ (e' + 1074)).
    { apply Z.mul_pos_pos; [lia | apply Z.pow_pos_nonneg; lia]. }
    destruct s'; rewrite ?Z.opp_0, Z.mul_0_l in Hv; lia.
  - exfalso. destruct (float_is_int_value f z s m e Ef Hf) as [Hv [He Hm]].
    unfold float_is_int in Hg. rewrite Eg in Hg. apply Z.eqb_eq in Hg. subst z.
    assert (0 < Zpos m * 2 ^ (e + 1074)).
    { apply Z.mul_pos_pos; [lia | apply Z.pow_pos_nonneg; lia]. }
    destruct s; rewrite ?Z.opp_0, Z.mul_0_l in Hv; lia.
  - destruct (float_is_int_value f z s m e Ef Hf) as [Hv [He Hm]].
    destruct (float_is_int_value g z s' m' e' Eg Hg) as [Hv' [He' Hm']].
    assert (Hmq : 0 < Zpos m * 2 ^ (e + 1074)).
    { apply Z.mul_pos_pos; [lia | apply Z.pow_pos_nonneg; lia]. }
    assert (Hmq' : 0 < Zpos m' * 2 ^ (e' + 1074)).
    { apply Z.mul_pos_pos; [lia | apply Z.pow_pos_nonneg; lia]. }
    assert (Hs : s = s').
    { rewrite <- Hv in Hmq. rewrite <- Hv' in Hmq'.
      destruct s, s'; try reflexivity; exfalso;
        rewrite Z.mul_opp_l in *; remember (z * 2 ^ 1074) as C;
        clear - Hmq Hmq'; lia. }
    subst s'.
    assert (Heq : Zpos m * 2 ^ (e + 1074) = Zpos m' * 2 ^ (e' + 1074)) by congruence.
    destruct (same_mantissa (Zpos m) (Zpos m') (e + 1074) (e' + 1074)
                ltac:(lia) ltac:(lia) Hm Hm' Heq) as [Hee Hmm].
    assert (e = e') by lia. subst e'.
    injection Hmm as Hmm. subst m'.
    unfold SFeqb, SFcompare. rewrite Z.compare_refl.
    destruct s; rewrite ?Pos.compare_cont_refl; reflexivity.
Qed.
Lemma SFeqb_same (x y : spec_float) :
  SFeqb x y = true ->
  (exists s s', x = S754_zero s /\ y = S754_zero s') \/ x = y.
Proof.
  unfold SFeqb, SFcompare.
  destruct x as [s|s| |s m e], y as [s'|s'| |s' m' e']; try discriminate;
    try (destruct s; discriminate); try (destruct s'; discriminate).
  - intros _. left. eauto.
  - destruct s, s'; try discriminate; intros _; right; reflexivity.
  - destruct s, s'; try discriminate; destruct (Z.compare_spec e e') as [He|He|He];
      try discriminate; destruct (Pos.compare_cont Eq m m') eqn:Hm; try discriminate;
      intros _; right; apply (Pos.compare_eq m m') in Hm; congruence.
Qed.

Lemma eqb_float_is_int (f g : float) (z : Z) :
  PrimFloat.eqb f g = true -> float_is_int f z = float_is_int g z.
Proof.
  rewrite eqb_spec. intro H. unfold float_is_int.
  destruct (SFeqb_same _ _ H) as [[s [s' [-> ->]]]| ->]; reflexivity.
Qed.

Lemma float_is_int_not_nan (f : float) (z : Z) :
  float_is_int f z = true -> is_nan f = false.
Proof.
  unfold float_is_int, is_nan. rewrite eqb_spec.
  destruct (Prim2SF f) as [s|s| |s m e]; try discriminate; intros _.
  - reflexivity.
  - unfold SFeqb, SFcompare. rewrite Z.compare_refl.
    destruct s; rewrite ?Pos.compare_cont_refl; reflexivity.
Qed.

(** The key of a day is one dict key: cells equal to it are equal to each
    other, and a cell equal to one of them is equal to it. *)
Lemma key_eqb_day (k c : cell) (key : Z) :
  key_eqb c (CInt key) = true -> key_eqb k c = key_eqb k (CInt key).
Proof.
  destruct c as [|y|f|t]; cbn [key_eqb]; try discriminate.
  - intro H. apply Z.eqb_eq in H. subst y. reflexivity.
  - intro H. destruct k as [|x|g|t]; cbn [key_eqb]; try reflexivity.
    + destruct (float_is_int f x) eqn:Hx.
      * symmetry. apply Z.eqb_eq. exact (float_is_int_functional f x key Hx H).
      * symmetry. apply Z.eqb_neq. intro E. subst x. congruence.
    + rewrite (float_is_int_not_nan f key H), andb_false_r, orb_false_r.
      destruct (PrimFloat.eqb g f) eqn:Hgf.
      * rewrite (eqb_float_is_int g f key Hgf). symmetry. exact H.
      * destruct (float_is_int g key) eqn:Hg; [|reflexivity].
        rewrite (float_is_int_unique g f key Hg H) in Hgf. discriminate Hgf.
Qed.

Lemma key_eqb_sym_day (k c : cell) (key : Z) :
  key_eqb k (CInt key) = true -> key_eqb k c = true -> key_eqb c (CInt key) = true.
Proof.
  intros Hk Hkc. destruct k as [|x|g|t]; cbn [key_eqb] in Hk; try discriminate.
  - apply Z.eqb_eq in Hk. subst x.
    destruct c as [|y|f|t]; cbn [key_eqb] in *; try discriminate;
      [now rewrite Z.eqb_sym | assumption].
  - destruct c as [|y|f|t]; cbn [key_eqb] in *; try discriminate.
    + apply Z.eqb_eq. exact (float_is_int_functional g y key Hkc Hk).
    + rewrite (float_is_int_not_nan g key Hk), orb_false_r in Hkc.
      rewrite <- (eqb_float_is_int g f key Hkc). exact Hk.
Qed.

Lemma daily_get_append (daily_data : daily) (date : cell) (r : row) (key : Z) :
  daily_get (append_row daily_data date r) key
  = daily_get daily_data key ++ (if key_eqb date (CInt key) then [r] else []).
Proof.
  induction daily_data as [|[k rows] rest IH]; simpl.
  - destruct (key_eqb date (CInt key)); reflexivity.
  - destruct (key_eqb k date) eqn:Hkd; simpl.
    + destruct (key_eqb k (CInt key)) eqn:Hk.
      * rewrite (key_eqb_sym_day k date key Hk Hkd). reflexivity.
      * destruct (key_eqb date (CInt key)) eqn:Hd; [|now rewrite app_nil_r].
        rewrite (key_eqb_day k date key Hd) in Hkd. congruence.
    + destruct (key_eqb k (CInt key)) eqn:Hk; [|exact IH].
      destruct (key_eqb date (CInt key)) eqn:Hd; [|now rewrite app_nil_r].
      rewrite (key_eqb_day k date key Hd) in Hkd. congruence.
Qed.

Lemma daily_get_group (idx : nat) (key : Z) (rows : list row) :
  forall d0 d, group_rows idx d0 rows = Ok d ->
  daily_get d key = daily_get d0 key ++ filter (dated idx key) rows.
Proof.
  induction rows as [|r rest IH]; intros d0 d H; simpl in H.
  - injection H as <-. simpl. now rewrite app_nil_r.
  - unfold item in H. simpl. unfold dated at 1.
    destruct (nth_error r idx) as [date|]; [|discriminate H]. simpl in H.
    rewrite (IH _ _ H), daily_get_append, <- app_assoc.
    destruct (key_eqb date (CInt key)); reflexivity.
Qed.

Lemma group_rows_raise (idx : nat) (rows : list row) :
  forall d0 e, group_rows idx d0 rows = Raise e ->
  e = IndexError /\ exists r, In r rows /\ (List.length r <= idx)%nat.
Proof.
  induction rows as [|r rest IH]; intros d0 e H; simpl in H; [discriminate H|].
  unfold item in H. destruct (nth_error r idx) as [date|] eqn:Hn; simpl in H.
  - destruct (IH _ _ H) as [He [x [Hx Hl]]]. split; [exact He|].
    exists x. split; [now right | exact Hl].
  - injection H as <-. split; [reflexivity|].
    exists r. split; [now left | now apply nth_error_None].
Qed.

Lemma parse_as_group (p : properties) :
  parse_range_response p = group_rows (date_idx (columns_of p)) [] (rows_of p).
Proof.
  unfold parse_range_response, dict_is_empty, rows_of, columns_of.
  destruct (p_rows p) as [rows|], (p_columns p) as [cols|]; try reflexivity.
  destruct (negb (p_other_members p)); reflexivity.
Qed.

Lemma daily_get_parsed (p : properties) (d : daily) (key : Z) :
  parse_range_response p = Ok d -> daily_get d key = rows_dated p key.
Proof.
  rewrite parse_as_group. intro H. rewrite (daily_get_group _ key _ _ _ H). reflexivity.
Qed.

(** X6: whenever the grouping of a response returns, looking a day up in it
    gives exactly the rows of the response whose date cell equals the day's
    key (an integer, or a float with that value), in response order; a day
    that no row carries gives the empty list. *)
Theorem lookup_after_grouping (p : properties) (d : daily) :
  parse_range_response p = Ok d ->
  (forall key, daily_get d key = rows_dated p key)
  /\ (forall key r, In r (daily_get d key) <->
                    In r (rows_of p) /\ dated (date_idx (columns_of p)) key r = true)
  /\ (forall key, (forall r, In r (rows_of p) ->
                             dated (date_idx (columns_of p)) key r = false) ->
                  daily_get d key = []).
Proof.
  intro H.
  assert (Hget : forall key, daily_get d key = rows_dated p key)
    by (intro key; exact (daily_get_parsed p d key H)).
  split; [exact Hget|]. split.
  - intros key r. rewrite Hget. unfold rows_dated. apply filter_In.
  - intros key Hnone. rewrite Hget. unfold rows_dated.
    induction (rows_of p) as [|r rows IH]; [reflexivity|]. simpl.
    rewrite (Hnone r (or_introl eq_refl)). apply IH.
    intros r' Hr'. apply Hnone. now right.
Qed.

Lemma lookup_after_grouping_witness :
  exists d,
    parse_range_response mixed_dates_response = Ok d
    /\ daily_get d 20261102
       = [[CFloat 1; CInt 20261102; CStr "Microsoft.Storage/storageAccounts"];
          [CFloat 4; CFloat 20261102; CStr "Microsoft.Compute/virtualMachines"]]
    /\ daily_get d 20261102 = rows_dated mixed_dates_response 20261102.
Proof.
  assert (H : exists d, parse_range_response mixed_dates_response = Ok d)
    by (eexists; vm_compute; reflexivity).
  destruct H as [d Hd]. exists d. split; [exact Hd|].
  rewrite (proj1 (lookup_after_grouping mixed_dates_response d Hd)).
  split; [vm_compute; reflexivity | reflexivity].
Defined.

(** ** Days and their keys *)

Lemma month_day_checked (leapyear : bool) :
  forallb (month_day_ok leapyear) (map Z.of_nat (seq 0 365)) = true.
Proof. destruct leapyear; vm_compute; reflexivity. Qed.

Lemma month_and_day_spec (n : Z) (leapyear : bool) :
  0 <= n < 365 ->
  let '(month, day) := month_and_day n leapyear in
  1 <= month <= 12 /\ 1 <= day <= days_in_month month leapyear /\ day <= 31
  /\ days_before_month month leapyear + day = n + 1.
Proof.
  intro Hn.
  assert (Hok : month_day_ok leapyear n = true).
  { apply (proj1 (forallb_forall _ _) (month_day_checked leapyear)).
    apply in_map_iff. exists (Z.to_nat n). split; [lia|]. apply in_seq. lia. }
  unfold month_day_ok in Hok. destruct (month_and_day n leapyear) as [month day].
  repeat (apply andb_true_iff in Hok; destruct Hok as [Hok ?]).
  repeat match goal with
         | H : (_ <=? _) = true |- _ => apply Z.leb_le in H
         | H : (_ =? _) = true |- _ => apply Z.eqb_eq in H
         end.
  lia.
Qed.

Lemma ord2ymd_cases (ordinal : Z) :
  exists n400 n100 n4 n1 n,
    ordinal - 1 = n400 * 146097 + n100 * 36524 + n4 * 1461 + n1 * 365 + n
    /\ 0 <= n100 <= 4 /\ 0 <= n4 <= 24 /\ 0 <= n1 <= 4 /\ 0 <= n < 365
    /\ n1 * 365 + n < 1461
    /\ n4 * 1461 + n1 * 365 + n < 36524
    /\ n100 * 36524 + n4 * 1461 + n1 * 365 + n < 146097
    /\ ord2ymd ordinal
       = let year := n400 * 400 + 1 + n100 * 100 + n4 * 4 + n1 in
         if orb (n1 =? 4) (n100 =? 4) then (year - 1, 12, 31)
         else
           let '(month, day) :=
             month_and_day n (andb (n1 =? 3) (orb (negb (n4 =? 24)) (n100 =? 3))) in
           (year, month, day).
Proof.
  exists ((ordinal - 1) / 146097), ((ordinal - 1) mod 146097 / 36524),
         (((ordinal - 1) mod 146097) mod 36524 / 1461),
         ((((ordinal - 1) mod 146097) mod 36524) mod 1461 / 365),
         ((((ordinal - 1) mod 146097) mod 36524) mod 1461 mod 365).
  repeat split; try (Z.div_mod_to_equations; lia).
  unfold ord2ymd, month_and_day. cbv zeta.
  destruct (orb _ _); [reflexivity|].
  destruct (_ <? _); reflexivity.
Qed.

Lemma leapyear_is_leap (n400 n100 n4 n1 : Z) :
  0 <= n100 <= 3 -> 0 <= n4 <= 24 -> 0 <= n1 <= 3 ->
  is_leap (n400 * 400 + 1 + n100 * 100 + n4 * 4 + n1)
  = andb (n1 =? 3) (orb (negb (n4 =? 24)) (n100 =? 3)).
Proof.
  intros H100 H4 H1. unfold is_leap.
  destruct (Z.eqb_spec n1 3) as [E1|E1];
    destruct (Z.eqb_spec n4 24) as [E4|E4];
    destruct (Z.eqb_spec n100 3) as [E100|E100]; simpl;
    repeat match goal with
           | |- context [?a mod ?b =? 0] =>
               destruct (Z.eqb_spec (a mod b) 0); simpl
           end; try reflexivity; exfalso; Z.div_mod_to_equations; lia.
Qed.

Lemma ymd2ord_ord2ymd (ordinal : Z) : ymd2ord (ord2ymd ordinal) = ordinal.
Proof.
  destruct (ord2ymd_cases ordinal)
    as [n400 [n100 [n4 [n1 [n [Hord [H100 [H4 [H1 [Hn [Hc100 [Hc1 [Hc4 ->]]]]]]]]]]]]].
  cbv zeta.
  destruct (orb (n1 =? 4) (n100 =? 4)) eqn:Hlast.
  - unfold ymd2ord, days_before_year, is_leap. cbv zeta.
    apply orb_true_iff in Hlast.
    assert (Hleap : ((n400 * 400 + 1 + n100 * 100 + n4 * 4 + n1 - 1) mod 4 =? 0)
                    && (negb ((n400 * 400 + 1 + n100 * 100 + n4 * 4 + n1 - 1) mod 100 =? 0)
                        || ((n400 * 400 + 1 + n100 * 100 + n4 * 4 + n1 - 1) mod 400 =? 0))
                    = true).
    { destruct Hlast as [Hl|Hl]; apply Z.eqb_eq in Hl.
      - apply andb_true_iff. split.
        + apply Z.eqb_eq. Z.div_mod_to_equations. lia.
        + apply orb_true_iff. left. apply negb_true_iff. apply Z.eqb_neq.
          assert (n4 <> 24) by lia. Z.div_mod_to_equations. lia.
      - assert (n4 = 0 /\ n1 = 0) as [-> ->] by lia.
        apply andb_true_iff. split.
        + apply Z.eqb_eq. Z.div_mod_to_equations. lia.
        + apply orb_true_iff. right. apply Z.eqb_eq. Z.div_mod_to_equations. lia. }
    rewrite Hleap. change (days_before_month 12 true) with 335.
    destruct Hlast as [Hl|Hl]; apply Z.eqb_eq in Hl.
    + assert (n = 0 /\ n4 <> 24) as [-> Hne] by lia. Z.div_mod_to_equations. lia.
    + assert (n4 = 0 /\ n1 = 0 /\ n = 0) as [-> [-> ->]] by lia.
      Z.div_mod_to_equations. lia.
  - apply orb_false_iff in Hlast. destruct Hlast as [Hl1 Hl100].
    apply Z.eqb_neq in Hl1, Hl100.
    pose proof (month_and_day_spec n
                  (andb (n1 =? 3) (orb (negb (n4 =? 24)) (n100 =? 3))) Hn) as Hmd.
    destruct (month_and_day n _) as [month day].
    destruct Hmd as [Hm [Hd [_ Hsum]]].
    unfold ymd2ord, days_before_year. cbv zeta.
    rewrite leapyear_is_leap by lia. Z.div_mod_to_equations. lia.
Qed.

Lemma ord2ymd_valid (ordinal : Z) :
  let '(year, month, day) := ord2ymd ordinal in
  1 <= month <= 12 /\ 1 <= day <= days_in_month month (is_leap year) /\ day <= 31.
Proof.
  destruct (ord2ymd_cases ordinal)
    as [n400 [n100 [n4 [n1 [n [Hord [H100 [H4 [H1 [Hn [Hc1 [Hc4 [Hc100 ->]]]]]]]]]]]]].
  cbv zeta.
  destruct (orb (n1 =? 4) (n100 =? 4)) eqn:Hlast.
  - simpl. lia.
  - apply orb_false_iff in Hlast. destruct Hlast as [Hl1 Hl100].
    apply Z.eqb_neq in Hl1, Hl100.
    pose proof (month_and_day_spec n
                  (andb (n1 =? 3) (orb (negb (n4 =? 24)) (n100 =? 3))) Hn) as Hmd.
    destruct (month_and_day n _) as [month day].
    rewrite leapyear_is_leap by lia. tauto.
Qed.

Lemma date_key_injective (a b : Z) : date_key a = date_key b -> a = b.
Proof.
  intro H. rewrite <- (ymd2ord_ord2ymd a), <- (ymd2ord_ord2ymd b). f_equal.
  unfold date_key in H.
  pose proof (ord2ymd_valid a) as Ha. pose proof (ord2ymd_valid b) as Hb.
  destruct (ord2ymd a) as [[y m] d], (ord2ymd b) as [[y' m'] d'].
  assert (y = y' /\ m = m' /\ d = d') as [-> [-> ->]] by lia.
  reflexivity.
Qed.

Lemma key_eqb_one_day (c : cell) (a b : Z) :
  key_eqb c (CInt a) = true -> key_eqb c (CInt b) = true -> a = b.
Proof.
  destruct c as [|y|f|t]; cbn [key_eqb]; try discriminate.
  - intros Ha Hb. apply Z.eqb_eq in Ha, Hb. congruence.
  - apply float_is_int_functional.
Qed.

(** X7: the key of a day is its year, month and day of the month written as
    one number, the month from 1 to 12 and the day from 1 to the length of
    the month; the days are recovered from it, so two days never share a
    key, and a row of the response is counted for one day at most. *)
Theorem days_have_keys_of_their_own :
  (forall d, let '(year, month, day) := ord2ymd d in
             date_key d = year * 10000 + month * 100 + day
             /\ 1 <= month <= 12
             /\ 1 <= day <= days_in_month month (is_leap year))
  /\ (forall d, ymd2ord (ord2ymd d) = d)
  /\ (forall a b, date_key a = date_key b -> a = b)
  /\ (forall p daily_data r a b,
        parse_range_response p = Ok daily_data ->
        In r (daily_get daily_data (date_key a)) ->
        In r (daily_get daily_data (date_key b)) -> a = b).
Proof.
  split; [|split; [|split]].
  - intro d. pose proof (ord2ymd_valid d) as H. unfold date_key.
    destruct (ord2ymd d) as [[year month] day]. tauto.
  - exact ymd2ord_ord2ymd.
  - exact date_key_injective.
  - intros p daily_data r a b Hp Ha Hb.
    rewrite (daily_get_parsed p _ _ Hp) in Ha. rewrite (daily_get_parsed p _ _ Hp) in Hb.
    unfold rows_dated in Ha, Hb. apply filter_In in Ha, Hb.
    destruct Ha as [_ Ha], Hb as [_ Hb]. unfold dated in Ha, Hb.
    destruct (nth_error r (date_idx (columns_of p))) as [c|]; [|discriminate Ha].
    apply date_key_injective. exact (key_eqb_one_day c _ _ Ha Hb).
Qed.

Lemma days_have_keys_of_their_own_witness :
  ord2ymd today = (2026, 11, 3)
  /\ date_key today = 20261103
  /\ ymd2ord (2026, 11, 3) = today.
Proof.
  split; [reflexivity|]. split; [reflexivity|].
  exact (proj1 (proj2 days_have_keys_of_their_own) today).
Defined.

(** ** Rows outside the window *)

Lemma group_rows_lengths (idx : nat) (rows : list row) :
  forall d0 d, group_rows idx d0 rows = Ok d ->
  forall r, In r rows -> (idx < List.length r)%nat.
Proof.
  induction rows as [|x rest IH]; intros d0 d H r Hr; [contradiction Hr|].
  simpl in H. unfold item in H.
  destruct (nth_error x idx) as [date|] eqn:Hn; [|discriminate H]. simpl in H.
  destruct Hr as [<-|Hr].
  - apply nth_error_Some. congruence.
  - exact (IH _ _ H r Hr).
Qed.

Lemma within_window_parts (now num_days : Z) (p : properties) :
  columns_of (within_window now num_days p) = columns_of p
  /\ rows_of (within_window now num_days p)
     = filter (in_window now num_days (date_idx (columns_of p))) (rows_of p).
Proof.
  unfold within_window, columns_of, rows_of. simpl.
  destruct (p_rows p); split; reflexivity.
Qed.

Lemma within_window_parsed (now num_days : Z) (p : properties) (d : daily) :
  parse_range_response p = Ok d ->
  exists d', parse_range_response (within_window now num_days p) = Ok d'.
Proof.
  intro H. rewrite parse_as_group in *.
  destruct (within_window_parts now num_days p) as [-> ->].
  apply group_rows_total. intros r Hr. apply filter_In in Hr.
  exact (group_rows_lengths _ _ _ _ H r (proj1 Hr)).
Qed.

Lemma rows_dated_within (now num_days : Z) (p : properties) (day : Z) :
  In day (window now num_days) ->
  rows_dated (within_window now num_days p) (date_key day) = rows_dated p (date_key day).
Proof.
  intro Hday. unfold rows_dated.
  destruct (within_window_parts now num_days p) as [-> ->].
  induction (rows_of p) as [|r rest IH]; [reflexivity|]. simpl.
  destruct (dated (date_idx (columns_of p)) (date_key day) r) eqn:Hd.
  - assert (Hw : in_window now num_days (date_idx (columns_of p)) r = true).
    { apply existsb_exists. exists day. split; assumption. }
    rewrite Hw. simpl. rewrite Hd, IH. reflexivity.
  - destruct (in_window now num_days (date_idx (columns_of p)) r); simpl;
      rewrite ?Hd; exact IH.
Qed.

Lemma day_of_in_window (now num_days i : Z) :
  In i (day_offsets num_days) -> In (day_of now i) (window now num_days).
Proof. intro H. unfold window. now apply in_map. Qed.

(** X8: the rows of a response that carry no date of the window do not
    count: when the response can be grouped, the tables of the document and
    of the console are those of the response without these rows. *)
Theorem rows_outside_the_window_do_not_count (now num_days : Z)
    (subscription_name : string) (p : properties) (d : daily) :
  parse_range_response p = Ok d ->
  build_report now subscription_name (within_window now num_days p) num_days
  = build_report now subscription_name p num_days
  /\ console_costs now (within_window now num_days p) num_days
     = console_costs now p num_days.
Proof.
  intro Hp. destruct (within_window_parsed now num_days p d Hp) as [d' Hp'].
  assert (Hday : forall day, In day (window now num_days) ->
                             daily_get d' (date_key day) = daily_get d (date_key day)).
  { intros day Hin. rewrite (daily_get_parsed _ _ _ Hp'), (daily_get_parsed _ _ _ Hp).
    now apply rows_dated_within. }
  unfold build_report, console_costs. rewrite Hp, Hp'. cbn [bind]. split.
  - rewrite (map_res_ext_in
               (fun day => process_cost_data (daily_get d' (date_key day)))
               (fun day => process_cost_data (daily_get d (date_key day)))).
    + reflexivity.
    + intros day Hin. now rewrite (Hday day Hin).
  - rewrite (map_res_ext_in (console_day now d') (console_day now d)).
    + reflexivity.
    + intros i Hi. unfold console_day.
      now rewrite (Hday _ (day_of_in_window now num_days i Hi)).
Qed.

Lemma rows_outside_the_window_do_not_count_witness :
  within_window today 3 padded_response = three_day_response
  /\ build_report today "prod" three_day_response 3
     = build_report today "prod" padded_response 3.
Proof.
  split; [vm_compute; reflexivity|].
  change three_day_response with (within_window today 3 padded_response).
  refine (proj1 (rows_outside_the_window_do_not_count today 3 "prod" padded_response
                   ?[d] _)).
  vm_compute. reflexivity.
Defined.

(** ** Rows the categorizer cannot read *)

Lemma row_error_none (r : row) : row_error r = None <-> row_with numeric r = true.
Proof.
  unfold row_error, row_with. destruct r as [|cost rest]; [split; discriminate|].
  destruct (type_cell_ok (cost :: rest)), (numeric cost); simpl; split;
    intro H; try reflexivity; discriminate H.
Qed.

Lemma add_row_error (c : costs) (r : row) (e : exn) :
  row_error r = Some e -> add_row c r = Raise e.
Proof.
  unfold row_error, add_row, resource_type_of, type_cell_ok.
  destruct r as [|cost [|date [|t rest]]].
  - intro H. injection H as <-. reflexivity.
  - destruct cost; simpl; intro H; try discriminate H; injection H as <-; reflexivity.
  - destruct cost; simpl; intro H; try discriminate H; injection H as <-; reflexivity.
  - replace (2 <? Z.of_nat (List.length (cost :: date :: t :: rest))) with true
      by (symmetry; apply Z.ltb_lt; simpl List.length; lia).
    destruct cost, t; cbn [item nth_error bind negb is_str numeric add_cell];
      intro H; try discriminate H; injection H as <-; reflexivity.
Qed.

Lemma add_row_readable (c c' : costs) (r : row) :
  add_row c r = Ok c' -> row_with numeric r = true.
Proof.
  intro H. apply row_error_none. destruct (row_error r) as [e|] eqn:He; [|reflexivity].
  rewrite (add_row_error c r e He) in H. discriminate H.
Qed.

Lemma process_rows_readable (rows : list row) :
  forall c0 c, process_rows c0 rows = Ok c -> forallb (row_with numeric) rows = true.
Proof.
  induction rows as [|r rest IH]; intros c0 c H; [reflexivity|].
  simpl in H. bind_inv H c1 H1. simpl.
  rewrite (add_row_readable _ _ _ H1). exact (IH _ _ H).
Qed.

Lemma process_rows_app (rows1 rows2 : list row) :
  forall c0, process_rows c0 (rows1 ++ rows2)
             = (c1 <- process_rows c0 rows1 ;; process_rows c1 rows2).
Proof.
  induction rows1 as [|r rest IH]; intro c0; simpl; [reflexivity|].
  destruct (add_row c0 r) as [c1|e]; simpl; [apply IH | reflexivity].
Qed.

(** X9: the categorizer gives a breakdown only when it can read every row:
    on rows with numbers as costs it can fail with [OverflowError] only, on
    rows with float costs it does not fail, and the first row it cannot read
    decides the exception: [IndexError] for an empty row, [AttributeError]
    for a resource type that is not a string, [TypeError] for a cost that is
    not a number. *)
Theorem unreadable_row_fails_the_day :
  (forall rows c, process_cost_data rows = Ok c ->
                  forallb (row_with numeric) rows = true)
  /\ (forall rows e, forallb (row_with numeric) rows = true ->
                     process_cost_data rows = Raise e -> e = OverflowError)
  /\ (forall rows1 r rows2 e,
        forallb (row_with is_float) rows1 = true ->
        row_error r = Some e ->
        process_cost_data (rows1 ++ r :: rows2) = Raise e)
  /\ (forall r, row_error r = None <-> row_with numeric r = true)
  /\ row_error [] = Some IndexError
  /\ (forall cost date t rest,
        is_str t = false -> row_error (cost :: date :: t :: rest) = Some AttributeError)
  /\ (forall cost rest,
        type_cell_ok (cost :: rest) = true -> numeric cost = false ->
        row_error (cost :: rest) = Some TypeError)
  /\ (forall rows, forallb (row_with is_float) rows = true ->
                   exists c, process_cost_data rows = Ok c).
Proof.
  split; [|split; [|split; [|split; [|split; [|split; [|split]]]]]].
  - intros rows c H. exact (process_rows_readable rows _ _ H).
  - intros rows e Hr H. unfold process_cost_data in H.
    rewrite (process_rows_spec numeric rows (fun c H => H) Hr) in H.
    exact (buckets_from_raise numeric _ rows e (fun c H => H) Hr H).
  - intros rows1 r rows2 e H1 He. unfold process_cost_data.
    rewrite process_rows_app.
    destruct (process_float_rows rows1 H1) as [c1 [Hc1 _]].
    unfold process_cost_data in Hc1. rewrite Hc1. cbn [bind process_rows].
    rewrite (add_row_error c1 r e He). reflexivity.
  - exact row_error_none.
  - reflexivity.
  - intros cost date t rest Ht. unfold row_error, type_cell_ok. simpl.
    rewrite Ht. reflexivity.
  - intros cost rest Ht Hc. unfold row_error. rewrite Ht, Hc. reflexivity.
  - intros rows H. destruct (process_float_rows rows H) as [c [Hc _]]. eauto.
Qed.

Lemma unreadable_row_fails_the_day_witness :
  process_cost_data
    ([[CFloat 10; CInt 20261101; CStr "Microsoft.Compute/virtualMachines"]]
     ++ [CNull; CInt 20261101; CStr "Microsoft.Storage/storageAccounts"]
     :: [[]])
  = Raise TypeError.
Proof.
  apply (proj1 (proj2 (proj2 unreadable_row_fails_the_day))); reflexivity.
Defined.

Lemma process_rows_unreadable (rows : list row) (r : row) :
  In r rows -> row_with numeric r = false ->
  forall c0, exists e, process_rows c0 rows = Raise e.
Proof.
  intros Hin Hr c0. destruct (process_rows c0 rows) as [c|e] eqn:H; [|eauto].
  pose proof (process_rows_readable rows _ _ H) as Hall.
  rewrite forallb_forall in Hall. rewrite (Hall r Hin) in Hr. discriminate Hr.
Qed.

Lemma map_res_raises {A B : Type} (f : A -> res B) (l : list A) (a : A) :
  In a l -> (exists e, f a = Raise e) -> exists e, map_res f l = Raise e.
Proof.
  induction l as [|x rest IH]; intros Hin Ha; [contradiction Hin|]. simpl.
  destruct (f x) as [b|e] eqn:Hx; [|simpl; eauto].
  destruct Hin as [->|Hin].
  - destruct Ha as [e He]. congruence.
  - destruct (IH Hin Ha) as [e He]. rewrite He. simpl. eauto.
Qed.

Lemma window_offsets (now num_days day : Z) :
  In day (window now num_days) ->
  exists i, In i (day_offsets num_days) /\ day = day_of now i.
Proof.
  unfold window. intro H. apply in_map_iff in H. destruct H as [i [Hi Hin]]. eauto.
Qed.

Lemma console_costs_unreadable (now num_days : Z) (p : properties) (d : daily)
    (day : Z) (r : row) :
  parse_range_response p = Ok d ->
  In day (window now num_days) ->
  In r (rows_dated p (date_key day)) ->
  row_with numeric r = false ->
  exists e, console_costs now p num_days = Raise e.
Proof.
  intros Hp Hday Hr Hbad. unfold console_costs. rewrite Hp. cbn [bind].
  destruct (window_offsets now num_days day Hday) as [i [Hi ->]].
  destruct (map_res_raises (console_day now d) (day_offsets num_days) i Hi) as [e He].
  - unfold console_day. rewrite (daily_get_parsed p d _ Hp).
    destruct (process_rows_unreadable _ r Hr Hbad zero_costs) as [e He].
    unfold process_cost_data. rewrite He. simpl. eauto.
  - rewrite He. simpl. eauto.
Qed.

Lemma rows_dated_not_empty (p : properties) (key : Z) (r : row) :
  In r (rows_dated p key) -> dict_is_empty p = false.
Proof.
  unfold rows_dated, rows_of, dict_is_empty. intro H. apply filter_In in H.
  destruct (p_rows p); [reflexivity | destruct (proj1 H)].
Qed.

(** X10: a row that the categorizer cannot read, dated within the window,
    ends the run: when the first answer of the API (to the console's request
    for the main subscription) holds such a row, the run ends with the
    exception after that one request, before any table is printed. *)
Theorem unreadable_row_ends_the_run (fuel : nat) (now num_days : Z)
    (subscriptions : string -> string) (w : world) (p : properties) (d : daily)
    (day : Z) (r : row) :
  answers_first p w ->
  parse_range_response p = Ok d ->
  In day (window now num_days) ->
  In r (rows_dated p (date_key day)) ->
  row_with numeric r = false ->
  exists e w',
    main (S fuel) now subscriptions num_days w = Some (Raise e, w')
    /\ issued w' = S (issued w)
    /\ tables (trace w') = tables (trace w).
Proof.
  intros [rsp [Hs [Hst Hb]]] Hp Hday Hr Hbad.
  destruct (console_costs_unreadable now num_days p d day r Hp Hday Hr Hbad) as [e He].
  exists e. unfold main. cbn [process_subscriptions]. unfold process_subscription.
  unfold generate_table_for_subscription. cbn [get_cost_data_range].
  unfold range_try, requests_post, print, emit. cbn [server issued trace].
  rewrite Hs. rewrite Hst. cbn [Z.eqb Pos.eqb]. unfold raise_for_status. rewrite Hst.
  cbn [Z.leb Z.ltb Z.compare Pos.compare Pos.compare_cont andb].
  unfold json_properties. rewrite Hb.
  rewrite (rows_dated_not_empty p _ r Hr), He.
  eexists. split; [reflexivity|]. split; [reflexivity|].
  cbn [trace]. rewrite !tables_app. simpl. now rewrite !app_nil_r.
Qed.

Lemma unreadable_row_ends_the_run_witness :
  exists e w',
    main 1 today subscriptions 3 (always null_cost_response) = Some (Raise e, w')
    /\ issued w' = 1%nat
    /\ tables (trace w') = [].
Proof.
  refine (unreadable_row_ends_the_run 0 today 3 subscriptions (always null_cost_response)
            null_cost_response ?[d] (today - 2)
            [CNull; CInt 20261101; CStr "Microsoft.Storage/storageAccounts";
             CStr "Usage"; CStr "USD"] _ _ _ _ _).
  - eexists. split; [reflexivity|]. split; reflexivity.
  - vm_compute. reflexivity.
  - vm_compute. tauto.
  - vm_compute. tauto.
  - reflexivity.
Defined.

(** ** What a fetch returns *)




(** X12: a 429 answer whose [Retry-After] header is not an integer (an HTTP
    date, a fraction), or is negative, ends the fetch instead of delaying
    it: the range fetch returns [None] and the single-day fetch the empty
    list, after that one request and the error line, without a retry; a
    negative delay is announced first. *)
Theorem unusable_retry_after_ends_the_fetch :
  (forall fuel subscription_id start_date end_date w r,
     server w (issued w) = Responded r ->
     status_code r = 429 ->
     retry_after r = Some HNotAnInt ->
     get_cost_data_range (S fuel) subscription_id start_date end_date w
     = Some (None,
             after w 1 [EvRequest (range_request subscription_id start_date end_date);
                        EvPrint (ErrorFetchingRange ValueError)]))
  /\ (forall fuel subscription_id start_date end_date w r secs,
        server w (issued w) = Responded r ->
        status_code r = 429 ->
        retry_after r = Some (HInt secs) ->
        secs < 0 ->
        get_cost_data_range (S fuel) subscription_id start_date end_date w
        = Some (None,
                after w 1 [EvRequest (range_request subscription_id start_date end_date);
                           EvPrint (RateLimitHit secs);
                           EvPrint (ErrorFetchingRange ValueError)]))
  /\ (forall fuel subscription_id date retry_count max_retries w r,
        server w (issued w) = Responded r ->
        status_code r = 429 ->
        retry_count < max_retries ->
        retry_after r = Some HNotAnInt ->
        get_cost_data (S fuel) subscription_id date retry_count max_retries w
        = Some ([], after w 1 [EvRequest (day_request subscription_id date);
                               EvPrint (ErrorFetching date ValueError)]))
  /\ (forall fuel subscription_id date retry_count max_retries w r secs,
        server w (issued w) = Responded r ->
        status_code r = 429 ->
        retry_count < max_retries ->
        retry_after r = Some (HInt secs) ->
        secs < 0 ->
        get_cost_data (S fuel) subscription_id date retry_count max_retries w
        = Some ([], after w 1 [EvRequest (day_request subscription_id date);
                               EvPrint (RateLimitHit secs);
                               EvPrint (ErrorFetching date ValueError)])).
Proof.
  split; [|split; [|split]].
  - intros fuel sid s e w r Hs H429 Hh. cbn [get_cost_data_range].
    unfold range_try, requests_post, retry_after_or. rewrite Hs, H429, Hh. simpl.
    unfold after, print, emit. simpl. rewrite <- app_assoc, Nat.add_1_r. reflexivity.
  - intros fuel sid s e w r secs Hs H429 Hh Hneg. cbn [get_cost_data_range].
    unfold range_try, requests_post, retry_after_or, sleep. rewrite Hs, H429, Hh.
    apply Z.ltb_lt in Hneg. simpl. rewrite Hneg.
    unfold after, print, emit. simpl. rewrite <- !app_assoc, Nat.add_1_r. reflexivity.
  - intros fuel sid date rc mx w r Hs H429 Hlt Hh. cbn [get_cost_data].
    unfold day_try, requests_post, retry_after_or. rewrite Hs, H429, Hh.
    apply Z.ltb_lt in Hlt. simpl. rewrite Hlt.
    unfold after, print, emit. simpl. rewrite <- app_assoc, Nat.add_1_r. reflexivity.
  - intros fuel sid date rc mx w r secs Hs H429 Hlt Hh Hneg. cbn [get_cost_data].
    unfold day_try, requests_post, retry_after_or, sleep. rewrite Hs, H429, Hh.
    apply Z.ltb_lt in Hlt, Hneg. simpl. rewrite Hlt, Hneg.
    unfold after, print, emit. simpl. rewrite <- !app_assoc, Nat.add_1_r. reflexivity.
Qed.

Lemma unusable_retry_after_ends_the_fetch_witness :
  get_cost_data_range 1 "id-prod" (today - 3) (today - 1) throttled_until_a_date
  = Some (None,
          after throttled_until_a_date 1
            [EvRequest (range_request "id-prod" (today - 3) (today - 1));
             EvPrint (ErrorFetchingRange ValueError)])
  /\ get_cost_data 1 "id-prod" (today - 1) 0 3 throttled_until_a_date
     = Some ([], after throttled_until_a_date 1
                   [EvRequest (day_request "id-prod" (today - 1));
                    EvPrint (ErrorFetching (today - 1) ValueError)]).
Proof.
  split.
  - apply (proj1 unusable_retry_after_ends_the_fetch 0%nat "id-prod" (today - 3) (today - 1)
             throttled_until_a_date (mkResponse 429 (Some HNotAnInt) NotJson));
      reflexivity.
  - apply (proj1 (proj2 (proj2 unusable_retry_after_ends_the_fetch)) 0%nat "id-prod"
             (today - 1) 0 3 throttled_until_a_date
             (mkResponse 429 (Some HNotAnInt) NotJson)); reflexivity.
Defined.

Lemma day_try_inv (subscription_id : string) (date retry_count max_retries : Z)
    (w w1 : world) (a : res (attempt (list row))) :
  day_try subscription_id date retry_count max_retries w = (a, w1) ->
  issued w1 = S (issued w)
  /\ server w1 = server w
  /\ match a with
     | Ok Again =>
         retry_count < max_retries
         /\ exists secs, rate_limited (server w (issued w)) (2 ^ retry_count) secs
     | Ok (Return rows) =>
         rows = []
         \/ exists p, success_with p (server w (issued w)) /\ p_rows p = Some rows
     | Raise _ => True
     end.
Proof.
  unfold day_try, requests_post.
  destruct (server w (issued w)) as [e|r] eqn:Hs.
  - intro H. injection H as <- <-. simpl. auto.
  - destruct (Z.eqb_spec (status_code r) 429) as [H429|H429].
    + destruct (Z.ltb_spec retry_count max_retries) as [Hlt|Hge].
      * unfold retry_after_or, sleep, rate_limited.
        destruct (retry_after r) as [[secs|]|] eqn:Hh.
        -- destruct (Z.ltb_spec secs 0) as [Hneg|Hpos];
             [|destruct (Z.ltb_spec max_sleep secs) as [Hbig|Hfits]];
             intro H; injection H as <- <-; simpl; [auto|auto|].
           split; [reflexivity|]. split; [reflexivity|]. split; [exact Hlt|].
           exists secs, r. unfold retry_after_or. rewrite Hh. auto.
        -- intro H. injection H as <- <-. simpl. auto.
        -- assert (Hpow : 0 <= 2 ^ retry_count) by (apply Z.pow_nonneg; lia).
           apply Z.ltb_ge in Hpow. rewrite Hpow.
           destruct (Z.ltb_spec max_sleep (2 ^ retry_count)) as [Hbig|Hfits];
             intro H; injection H as <- <-; simpl; [auto|].
           split; [reflexivity|]. split; [reflexivity|]. split; [exact Hlt|].
           exists (2 ^ retry_count), r. unfold retry_after_or. rewrite Hh.
           apply Z.ltb_ge in Hpow. auto.
      * intro H. injection H as <- <-. simpl. auto.
    + unfold raise_for_status, json_rows, json_properties, success_with.
      destruct (andb (400 <=? status_code r) (status_code r <? 600)) eqn:Herr.
      * intro H. injection H as <- <-. simpl. auto.
      * assert (Hok : ~ 400 <= status_code r < 600).
        { apply andb_false_iff in Herr. lia. }
        destruct (body r) as [| |[p|]] eqn:Hb; cbn [bind];
          try (intro H; injection H as <- <-; simpl; auto; fail).
        destruct (p_rows p) as [rows|] eqn:Hr; intro H; injection H as <- <-; simpl;
          [|auto].
        split; [reflexivity|]. split; [reflexivity|]. right.
        exists p. split; [|exact Hr]. exists r. auto.
Qed.

(** X21: what the single-day fetch returns, read back from the API's
    answers: it has made one request more than the 429 answers it waited
    for, each of these below the retry cap and with a usable delay (the
    header, or 2 to the power of the retry count), and it returns rows other
    than the empty list only if the last answer had a status other than 429
    and outside 400 to 599 and a body whose properties hold these rows.
    Every failure gives the empty list, as a day without rows does. *)
Theorem day_fetch_result_read_back (fuel : nat) (subscription_id : string)
    (date max_retries : Z) :
  forall (retry_count : Z) (w w' : world) (rows : list row),
    get_cost_data fuel subscription_id date retry_count max_retries w = Some (rows, w') ->
    exists n,
      issued w' = (issued w + S n)%nat
      /\ (forall i, (i < n)%nat ->
                    retry_count + Z.of_nat i < max_retries
                    /\ exists secs,
                         rate_limited (server w (issued w + i))
                                      (2 ^ (retry_count + Z.of_nat i)) secs)
      /\ (rows = []
          \/ exists p, success_with p (server w (issued w + n)) /\ p_rows p = Some rows).
Proof.
  induction fuel as [|fuel IH]; intros retry_count w w' rows H;
    cbn [get_cost_data] in H;
    destruct (day_try subscription_id date retry_count max_retries w) as [a w1] eqn:Ht;
    destruct (day_try_inv _ _ _ _ _ _ _ Ht) as [Hi [Hsv Ha]];
    destruct a as [[|found]|e];
    try (injection H as <- <-; exists 0%nat; rewrite ?Nat.add_0_r;
         (split; [simpl; lia|]); (split; [intros i Hlt; lia|]);
         first [exact Ha | now left]).
  - destruct (IH _ _ _ _ H) as [n [Hn [Hbefore Hlast]]].
    exists (S n). rewrite Hi, Hsv in *.
    split; [lia|]. split.
    + intros i Hlt. destruct i as [|i].
      * rewrite Nat.add_0_r, Z.add_0_r. exact Ha.
      * replace (issued w + S i)%nat with (S (issued w) + i)%nat by lia.
        replace (retry_count + Z.of_nat (S i)) with (retry_count + 1 + Z.of_nat i) by lia.
        apply Hbefore. lia.
    + replace (issued w + S n)%nat with (S (issued w) + n)%nat by lia. exact Hlast.
Qed.

Lemma day_fetch_result_read_back_witness :
  exists n,
    (n < 4)%nat
    /\ forall i, (i < n)%nat ->
         exists secs, rate_limited (server always_throttled i) (2 ^ Z.of_nat i) secs.
Proof.
  destruct (day_fetch_result_read_back 4 "id-prod" (today - 1) 3 0 always_throttled
              (after always_throttled 4
                 (retry_events (day_request "id-prod" (today - 1)) 1
                  ++ retry_events (day_request "id-prod" (today - 1)) 2
                  ++ retry_events (day_request "id-prod" (today - 1)) 4
                  ++ [EvRequest (day_request "id-prod" (today - 1));
                      EvPrint (MaxRetriesReached (today - 1))]))
              [] eq_refl) as [n [Hn [Hbefore _]]].
  exists n. split; [simpl in Hn; lia|].
  intros i Hi. exact (proj2 (Hbefore i Hi)).
Defined.

(** ** The console's tables and the document's *)

Section SameRows.

(** The categories of a document and what they keep of a console row. *)
Variable categories : list category.
Variable kept : list string -> list string.
Hypothesis kept_cost : forall label c cells,
  cost_row all_categories label c = Ok cells ->
  cost_row categories label c = Ok (kept cells).
Hypothesis kept_percent : forall label prev curr cells,
  percent_row all_categories label prev curr = Ok cells ->
  percent_row categories label prev curr = Ok (kept cells).

Lemma cost_rows_of_console (now : Z) (d : daily) (offsets : list Z) :
  forall (days : list (costs * list string)) (before : list string),
    map_res (console_day now d) offsets = Ok days ->
    cost_rows categories
      (before ++ map date_str (map (day_of now) offsets))
      (List.length before) (map fst days)
    = Ok (map kept (map snd days)).
Proof.
  induction offsets as [|i rest IH]; intros days before H; simpl in H.
  - injection H as <-. reflexivity.
  - bind_inv H day Hday. bind_inv H days' Hdays. injection H as <-.
    destruct day as [c cells]. apply console_day_ok in Hday. destruct Hday as [_ Hrow].
    cbn [map fst snd cost_rows].
    rewrite nth_middle, (kept_cost _ _ _ Hrow). cbn [bind].
    specialize (IH days' (before ++ [date_str (day_of now i)]) Hdays).
    rewrite <- app_assoc, length_app, Nat.add_1_r in IH. simpl in IH.
    rewrite IH. reflexivity.
Qed.

Lemma percent_rows_of_console (label label' : nat -> string) (rest : list costs) :
  forall (i : nat) (prev : costs) (rows : list (list string)),
    percent_rows all_categories label i prev rest = Ok rows ->
    (forall j, (i <= j < i + List.length rest)%nat -> label' j = label j) ->
    percent_rows categories label' i prev rest = Ok (map kept rows).
Proof.
  induction rest as [|curr rest IH]; intros i prev rows H Hl; simpl in H.
  - injection H as <-. reflexivity.
  - bind_inv H r Hr. bind_inv H rs Hrs. injection H as <-.
    cbn [percent_rows map]. rewrite Hl by (simpl; lia).
    rewrite (kept_percent _ _ _ _ Hr). cbn [bind].
    rewrite (IH (S i) curr rs Hrs); [reflexivity|].
    intros j Hj. apply Hl. simpl. lia.
Qed.

End SameRows.

Lemma console_day_costs (now : Z) (d : daily) (offsets : list Z) :
  forall days, map_res (console_day now d) offsets = Ok days ->
  map_res (fun day => process_cost_data (daily_get d (date_key day)))
          (map (day_of now) offsets) = Ok (map fst days).
Proof.
  induction offsets as [|i rest IH]; intros days H; simpl in H.
  - injection H as <-. reflexivity.
  - bind_inv H day Hday. bind_inv H days' Hdays. injection H as <-.
    destruct day as [c cells]. apply console_day_ok in Hday. destruct Hday as [Hc _].
    simpl. rewrite Hc. cbn [bind]. rewrite (IH days' Hdays). reflexivity.
Qed.

Lemma cost_row_without_databricks (label : string) (c : costs) (cells : list string) :
  cost_row all_categories label c = Ok cells ->
  cost_row [VirtualMachine; Storage; Others] label c = Ok (without_second cells).
Proof.
  unfold cost_row, all_categories. cbn [map_res]. intro H.
  bind_inv H l Hl. injection H as <-.
  bind_inv Hl a Ha. bind_inv Hl l' Hl'. injection Hl as <-.
  rewrite Hl'. reflexivity.
Qed.

Lemma percent_row_without_databricks (label : string) (prev curr : costs)
    (cells : list string) :
  percent_row all_categories label prev curr = Ok cells ->
  percent_row [VirtualMachine; Storage; Others] label prev curr
  = Ok (without_second cells).
Proof.
  unfold percent_row, all_categories. cbn [map_res]. intro H.
  bind_inv H l Hl. injection H as <-.
  bind_inv Hl a Ha. bind_inv Hl l' Hl'. injection Hl as <-.
  rewrite Hl'. reflexivity.
Qed.

Lemma map_id_rows (rows : list (list string)) : map (fun cells => cells) rows = rows.
Proof. apply map_id. Qed.

(** X13: the document's tables are the console's: for the same response,
    whenever the console's two tables are built the document's data is built
    too, and either it has the console's headers and both its tables are the
    console's, row for row, or it is the main subscription's without
    Databricks costs and its tables are the console's without the second
    column. *)
Theorem document_tables_are_the_console_tables (now num_days : Z)
    (subscription_name : string) (p : properties) (all_costs : list costs)
    (table_data percent_table_data : list (list string)) :
  console_costs now p num_days = Ok (all_costs, table_data) ->
  console_percent now all_costs = Ok percent_table_data ->
  exists r,
    build_report now subscription_name p num_days = Ok r
    /\ ((headers r = console_headers
         /\ cost_table r = table_data
         /\ percent_table r = percent_table_data)
        \/ (lower subscription_name = "main"
            /\ has_databricks all_costs = false
            /\ headers r = ["Date"; "Virtual Machine"; "Storage"; "Others"]
            /\ cost_table r = map without_second table_data
            /\ percent_table r = map without_second percent_table_data)).
Proof.
  intros Hc Hp.
  pose proof (console_costs_shape _ _ _ _ _ Hc) as [Hlen _].
  unfold console_costs in Hc. bind_inv Hc d Hd. bind_inv Hc days Hdays.
  injection Hc as <- <-.
  unfold console_percent, build_percent_table in Hp.
  unfold build_report. rewrite Hd. cbn [bind].
  rewrite (console_day_costs now d _ days Hdays). cbn [bind].
  assert (Hlabel : forall j, (1 <= j < 1 + (List.length (map fst days) - 1))%nat ->
            nth j (map date_str (map (day_of now) (day_offsets num_days))) ""
            = console_label now (map fst days) j).
  { intros j Hj.
    rewrite (console_label_window now num_days _ j Hlen) by lia.
    apply date_strings_nth. lia. }
  assert (Htables : forall categories kept,
            (forall label c cells,
               cost_row all_categories label c = Ok cells ->
               cost_row categories label c = Ok (kept cells)) ->
            (forall label prev curr cells,
               percent_row all_categories label prev curr = Ok cells ->
               percent_row categories label prev curr = Ok (kept cells)) ->
            cost_rows categories (map date_str (map (day_of now) (day_offsets num_days)))
              0 (map fst days) = Ok (map kept (map snd days))
            /\ build_percent_table categories
                 (fun i => nth i (map date_str (map (day_of now) (day_offsets num_days))) "")
                 (map fst days) = Ok (map kept percent_table_data)).
  { intros categories kept Hk Hk'. split.
    - exact (cost_rows_of_console categories kept Hk now d _ days [] Hdays).
    - unfold build_percent_table. destruct (map fst days) as [|first rest]; simpl in Hp.
      + injection Hp as <-. reflexivity.
      + apply (percent_rows_of_console categories kept Hk' _ _ rest 1 first _ Hp).
        intros j Hj. apply Hlabel. simpl in *. lia. }
  unfold categories_for.
  destruct (String.eqb (lower subscription_name) "main") eqn:Hmain;
    [destruct (has_databricks (map fst days)) eqn:Hdb|].
  - destruct (Htables all_categories (fun cells => cells)) as [-> ->]; auto.
    cbn [bind]. eexists. split; [reflexivity|]. left. simpl.
    rewrite !map_id_rows. auto.
  - destruct (Htables [VirtualMachine; Storage; Others] without_second
                cost_row_without_databricks percent_row_without_databricks) as [-> ->].
    cbn [bind]. eexists. split; [reflexivity|]. right. simpl.
    apply String.eqb_eq in Hmain. auto.
  - destruct (Htables all_categories (fun cells => cells)) as [-> ->]; auto.
    cbn [bind]. eexists. split; [reflexivity|]. left. simpl.
    rewrite !map_id_rows. auto.
Qed.

Lemma document_tables_are_the_console_tables_witness :
  exists r,
    build_report today "main" refund_response 1 = Ok r
    /\ cost_table r = [["11/02"; "$12.50"; "$0.00"; "$0.00"]]
    /\ percent_table r = [].
Proof.
  destruct (document_tables_are_the_console_tables today 1 "main" refund_response
              [mkCosts (PyFloat (-5)) (PyFloat 12.5) (PyInt 0) (PyInt 0)]
              [["11/02"; "$-5.00"; "$12.50"; "$0.00"; "$0.00"]] [] eq_refl eq_refl)
    as [r [Hr [[Hh _]|[_ [_ [_ [Hc Hp]]]]]]].
  - exfalso. vm_compute in Hr. injection Hr as <-. discriminate Hh.
  - exists r. auto.
Defined.

(** ** The document, section by section *)

Lemma add_table_to_doc_fits (doc : document) (rows : list (list string))
    (hs : list string) (title : string) :
  add_table_to_doc doc rows hs title
  = if forallb (fun cells => Nat.leb (List.length cells) (List.length hs)) rows
    then Ok ((if String.eqb title "" then doc else doc ++ [Paragraph title])
             ++ [Table hs rows; Paragraph ""])
    else Raise IndexError.
Proof.
  unfold add_table_to_doc.
  assert (H : existsb (fun row_data => Nat.ltb (List.length hs) (List.length row_data)) rows
              = negb (forallb (fun cells => Nat.leb (List.length cells) (List.length hs))
                              rows)).
  { induction rows as [|cells rest IH]; simpl; [reflexivity|].
    rewrite IH, negb_andb. f_equal.
    destruct (Nat.leb_spec (List.length cells) (List.length hs)) as [Hle|Hgt]; simpl.
    - apply Nat.ltb_ge. exact Hle.
    - apply Nat.ltb_lt. exact Hgt. }
  rewrite H. destruct (forallb _ rows); reflexivity.
Qed.

Lemma add_subscription_cases (all_data : all_data_dict) (doc : document)
    (sub_name : string) :
  add_subscription all_data doc sub_name
  = match lookup all_data sub_name with
    | None => Ok doc
    | Some NonePair => Raise TypeError
    | Some (ReportDict r) =>
        if fits r then Ok (doc ++ section_of sub_name r) else Raise IndexError
    end.
Proof.
  unfold add_subscription. destruct (lookup all_data sub_name) as [[|r]|]; try reflexivity.
  cbn [truthy field bind]. unfold fits. rewrite forallb_app.
  rewrite !add_table_to_doc_fits. cbn [String.eqb].
  destruct (forallb _ (cost_table r)); [|reflexivity]. cbn [bind andb].
  rewrite add_table_to_doc_fits.
  destruct (forallb _ (percent_table r)); [|reflexivity].
  replace (String.eqb ("Percentage difference for " ++ sub_name) "") with false
    by reflexivity.
  unfold section_of. rewrite <- !app_assoc. reflexivity.
Qed.

Lemma add_subscriptions_sections (all_data : all_data_dict) (sub_names : list string) :
  forall doc,
    (forall sub_name data, In sub_name sub_names ->
                           lookup all_data sub_name = Some data ->
                           exists r, data = ReportDict r /\ fits r = true) ->
    add_subscriptions all_data doc sub_names
    = Ok (doc ++ flat_map (fun sub_name => match lookup all_data sub_name with
                                           | Some (ReportDict r) => section_of sub_name r
                                           | _ => []
                                           end) sub_names).
Proof.
  induction sub_names as [|sub_name rest IH]; intros doc H; simpl.
  - now rewrite app_nil_r.
  - rewrite add_subscription_cases.
    destruct (lookup all_data sub_name) as [data|] eqn:Hl.
    + destruct (H sub_name data (or_introl eq_refl) Hl) as [r [-> Hf]].
      rewrite Hf. cbn [bind]. rewrite IH, <- app_assoc; [reflexivity|].
      intros n dt Hin. apply H. now right.
    + cbn [bind]. rewrite IH; [reflexivity|].
      intros n dt Hin. apply H. now right.
Qed.

Lemma add_subscriptions_ok (all_data : all_data_dict) (sub_names : list string) :
  forall doc doc',
    add_subscriptions all_data doc sub_names = Ok doc' ->
    forall sub_name data, In sub_name sub_names ->
                          lookup all_data sub_name = Some data ->
                          exists r, data = ReportDict r /\ fits r = true.
Proof.
  induction sub_names as [|x rest IH]; intros doc doc' H sub_name data Hin Hl;
    [contradiction Hin|].
  simpl in H. bind_inv H doc1 H1. destruct Hin as [->|Hin].
  - rewrite add_subscription_cases, Hl in H1.
    destruct data as [|r]; [discriminate H1|].
    exists r. split; [reflexivity|]. destruct (fits r); [reflexivity | discriminate H1].
  - exact (IH _ _ H sub_name data Hin Hl).
Qed.

(** X14: the document is saved exactly when every one of prod, dev, test and
    main that [all_data] has an entry for has a report whose rows fit under
    its headers; it then consists of the title, the greeting, the sections
    of these subscriptions in that order (whatever the order of [all_data],
    other keys being ignored) and the closing line.  A report with a row
    that does not fit raises [IndexError]. *)
Theorem the_document_section_by_section (now num_days : Z) (all_data : all_data_dict)
    (w : world) :
  (all_fit all_data ->
   create_word_document now all_data num_days w
   = (Ok ([Heading "Azure Cost Summary Report" 0; Paragraph (greeting now num_days)]
          ++ sections_of all_data
          ++ [Paragraph (newline ++ "Thank you.")]),
      print DocumentCreated w))
  /\ (forall doc w', create_word_document now all_data num_days w = (Ok doc, w') ->
                     all_fit all_data)
  /\ (forall doc sub_name r,
        lookup all_data sub_name = Some (ReportDict r) -> fits r = false ->
        add_subscription all_data doc sub_name = Raise IndexError).
Proof.
  unfold create_word_document, all_fit. split; [|split].
  - intro H. rewrite (add_subscriptions_sections all_data _ _ H).
    unfold sections_of. rewrite <- app_assoc. reflexivity.
  - intros doc w' H.
    destruct (add_subscriptions all_data _ _) as [doc1|e] eqn:Ha; [|discriminate H].
    exact (add_subscriptions_ok all_data _ _ _ Ha).
  - intros doc sub_name r Hl Hf. rewrite add_subscription_cases, Hl, Hf. reflexivity.
Qed.

Lemma the_document_section_by_section_witness :
  create_word_document today test_and_more 1 (always three_day_response)
  = (Ok ([Heading "Azure Cost Summary Report" 0; Paragraph (greeting today 1)]
         ++ section_of "test" one_day_report
         ++ [Paragraph (newline ++ "Thank you.")]),
     print DocumentCreated (always three_day_response)).
Proof.
  apply (proj1 (the_document_section_by_section today 1 test_and_more
                  (always three_day_response))).
  intros sub_name data Hin Hl. simpl in Hin.
  destruct Hin as [<-|[<-|[<-|[<-|[]]]]]; try discriminate Hl.
  injection Hl as <-. exists one_day_report. split; reflexivity.
Defined.

(** ** The prompt *)

Section Prompt.

(** The conversion of a line, whatever it accepts. *)
Variable int : string -> option Z.

Lemma read_num_days_inv (answer : string) (rest : list string)
    (console : list console_event) (result : entered) (left : list string)
    (console' : list console_event) :
  read_num_days int (answer :: rest) console = (result, left, console') ->
  let asked :=
    console ++ [Prompted "Enter the number of days to look back (ending at yesterday): "] in
  let warned :=
    asked ++ [Printed "Warning: Requesting more than 90 days may take a long time.";
              Prompted "Do you want to continue? (yes/no): "] in
  (int answer = None
   /\ read_num_days int rest (asked ++ [Printed "Please enter a valid number."])
      = (result, left, console'))
  \/ (exists n, int answer = Some n /\ n < 1
                /\ read_num_days int rest (asked ++ [Printed "Please enter a positive number."])
                   = (result, left, console'))
  \/ (exists n, int answer = Some n /\ 1 <= n <= 90
                /\ result = NumDays n /\ left = rest /\ console' = asked)
  \/ (exists n, int answer = Some n /\ 90 < n /\ rest = []
                /\ result = EndOfInput /\ left = [] /\ console' = warned)
  \/ (exists n confirm rest', int answer = Some n /\ 90 < n /\ rest = confirm :: rest'
                /\ lower confirm = "yes"
                /\ result = NumDays n /\ left = rest' /\ console' = warned)
  \/ (exists n confirm rest', int answer = Some n /\ 90 < n /\ rest = confirm :: rest'
                /\ lower confirm <> "yes"
                /\ read_num_days int rest' warned = (result, left, console')).
Proof.
  cbn [read_num_days]. destruct (int answer) as [n|]; [|auto].
  destruct (Z.ltb_spec n 1) as [Hlow|Hlow]; [right; left; eauto|].
  destruct (Z.ltb_spec 90 n) as [Hhigh|Hhigh].
  - destruct rest as [|confirm rest'].
    + intro H. injection H as <- <- <-. right. right. right. left. exists n.
      repeat split; auto.
    + destruct (String.eqb_spec (lower confirm) "yes") as [Hyes|Hno].
      * intro H. injection H as <- <- <-. right. right. right. right. left.
        exists n, confirm, rest'. repeat split; auto.
      * intro H. right. right. right. right. right. exists n, confirm, rest'.
        repeat split; auto.
  - intro H. injection H as <- <- <-. right. right. left. exists n.
    repeat split; auto; lia.
Qed.

Lemma read_num_days_accepts (size : nat) :
  forall stdin console num_days rest console',
    (List.length stdin <= size)%nat ->
    read_num_days int stdin console = (NumDays num_days, rest, console') ->
    1 <= num_days
    /\ exists skipped answer,
         refused int skipped
         /\ int answer = Some num_days
         /\ ((num_days <= 90 /\ stdin = skipped ++ answer :: rest)
             \/ (90 < num_days
                 /\ exists confirm,
                      lower confirm = "yes"
                      /\ stdin = skipped ++ answer :: confirm :: rest)).
Proof.
  induction size as [|size IH]; intros stdin console num_days rest console' Hsize H;
    (destruct stdin as [|answer lines]; [discriminate H|]); simpl in Hsize; [lia|].
  destruct (read_num_days_inv _ _ _ _ _ _ H)
    as [[Hint Hrec]|[[n [Hint [Hn Hrec]]]|[[n [Hint [Hn [Hres [-> _]]]]]
       |[[n [_ [_ [_ [Hres _]]]]]|[[n [confirm [rest' [Hint [Hn [-> [Hyes [Hres [-> _]]]]]]]]]
       |[n [confirm [rest' [Hint [Hn [-> [Hno Hrec]]]]]]]]]]]].
  - destruct (IH lines _ _ _ _ ltac:(lia) Hrec) as [H1 [skipped [a [Hs [Ha Hcases]]]]].
    split; [exact H1|]. exists (answer :: skipped), a.
    split; [apply refused_not_a_number; assumption|]. split; [exact Ha|].
    destruct Hcases as [[Hle ->]|[Hgt [confirm [Hyes ->]]]]; [left | right]; eauto.
  - destruct (IH lines _ _ _ _ ltac:(lia) Hrec) as [H1 [skipped [a [Hs [Ha Hcases]]]]].
    split; [exact H1|]. exists (answer :: skipped), a.
    split; [eapply refused_below_one; eassumption|]. split; [exact Ha|].
    destruct Hcases as [[Hle ->]|[Hgt [confirm [Hyes ->]]]]; [left | right]; eauto.
  - injection Hres as <-. split; [lia|]. exists [], answer.
    split; [constructor|]. split; [exact Hint|].
    left. split; [lia | reflexivity].
  - discriminate Hres.
  - injection Hres as <-. split; [lia|]. exists [], answer.
    split; [constructor|]. split; [exact Hint|].
    right. split; [exact Hn|]. exists confirm. auto.
  - simpl in Hsize.
    destruct (IH rest' _ _ _ _ ltac:(lia) Hrec) as [H1 [skipped [a [Hs [Ha Hcases]]]]].
    split; [exact H1|]. exists (answer :: confirm :: skipped), a.
    split; [eapply refused_unconfirmed; eassumption|]. split; [exact Ha|].
    destruct Hcases as [[Hle ->]|[Hgt [c [Hyes ->]]]]; [left | right]; eauto.
Qed.

(** The prompt goes past refused lines. *)
Lemma read_num_days_skips (skipped : list string) :
  refused int skipped ->
  forall lines console,
    exists console1,
      read_num_days int (skipped ++ lines) console = read_num_days int lines console1.
Proof.
  induction 1 as [|answer more Hint _ IH|answer n more Hint Hn _ IH
                  |answer n confirm more Hint Hn Hno _ IH]; intros lines console.
  - exists console. reflexivity.
  - cbn [app read_num_days]. rewrite Hint. apply IH.
  - cbn [app read_num_days]. rewrite Hint.
    destruct (Z.ltb_spec n 1); [apply IH | lia].
  - cbn [app read_num_days]. rewrite Hint.
    destruct (Z.ltb_spec n 1); [lia|].
    destruct (Z.ltb_spec 90 n); [|lia].
    destruct (String.eqb_spec (lower confirm) "yes"); [contradiction | apply IH].
Qed.

(** X15: the prompt lets a number of days through only if it is at least 1
    and, when it is more than 90, confirmed: the line after it is yes in any
    letter case, and no other answer.  Every line before it was refused: it
    was not a number, or a number below 1, or a number above 90 that the
    line after it did not confirm; the lines after it are left unread.
    Conversely, after lines that are refused, the first number from 1 to 90
    is let through, and so is the first number above 90 that is followed by
    a yes. *)
Theorem only_a_confirmed_count_gets_through :
  (forall stdin console num_days rest console',
     read_num_days int stdin console = (NumDays num_days, rest, console') ->
     1 <= num_days
     /\ exists skipped answer,
          refused int skipped
          /\ int answer = Some num_days
          /\ ((num_days <= 90 /\ stdin = skipped ++ answer :: rest)
              \/ (90 < num_days
                  /\ exists confirm,
                       lower confirm = "yes"
                       /\ stdin = skipped ++ answer :: confirm :: rest)))
  /\ (forall skipped answer num_days rest console,
        refused int skipped ->
        int answer = Some num_days ->
        1 <= num_days <= 90 ->
        exists console',
          read_num_days int (skipped ++ answer :: rest) console
          = (NumDays num_days, rest, console'))
  /\ (forall skipped answer num_days confirm rest console,
        refused int skipped ->
        int answer = Some num_days ->
        90 < num_days ->
        lower confirm = "yes" ->
        exists console',
          read_num_days int (skipped ++ answer :: confirm :: rest) console
          = (NumDays num_days, rest, console')).
Proof.
  split; [|split].
  - intros stdin console num_days rest console' H.
    exact (read_num_days_accepts (List.length stdin) _ _ _ _ _ (le_n _) H).
  - intros skipped answer num_days rest console Hs Hint Hn.
    destruct (read_num_days_skips skipped Hs (answer :: rest) console) as [c1 ->].
    cbn [read_num_days]. rewrite Hint.
    destruct (Z.ltb_spec num_days 1); [lia|].
    destruct (Z.ltb_spec 90 num_days); [lia|]. eauto.
  - intros skipped answer num_days confirm rest console Hs Hint Hn Hyes.
    destruct (read_num_days_skips skipped Hs (answer :: confirm :: rest) console)
      as [c1 ->].
    cbn [read_num_days]. rewrite Hint.
    destruct (Z.ltb_spec num_days 1); [lia|].
    destruct (Z.ltb_spec 90 num_days); [|lia].
    rewrite Hyes. simpl. eauto.
Qed.

Lemma prompts_app (a b : list console_event) : prompts (a ++ b) = (prompts a + prompts b)%nat.
Proof. unfold prompts. now rewrite filter_app, length_app. Qed.

Lemma read_num_days_accounts (size : nat) :
  forall stdin console result rest console',
    (List.length stdin <= size)%nat ->
    read_num_days int stdin console = (result, rest, console') ->
    exists said read,
      console' = console ++ said
      /\ stdin = read ++ rest
      /\ prompts said = (List.length read + match result with
                                            | EndOfInput => 1
                                            | NumDays _ => 0
                                            end)%nat
      /\ (result = EndOfInput -> rest = []).
Proof.
  induction size as [|size IH]; intros stdin console result rest console' Hsize H.
  - destruct stdin; [|simpl in Hsize; lia]. simpl in H. injection H as <- <- <-.
    eexists _, []. repeat split.
  - destruct stdin as [|answer lines].
    + simpl in H. injection H as <- <- <-. eexists _, []. repeat split.
    + simpl in Hsize.
      destruct (read_num_days_inv _ _ _ _ _ _ H)
        as [[Hint Hrec]|[[n [Hint [Hn Hrec]]]|[[n [Hint [Hn [-> [-> ->]]]]]
           |[[n [_ [_ [-> [-> [-> ->]]]]]]|[[n [confirm [rest' [Hint [Hn [-> [Hyes [-> [-> ->]]]]]]]]]
           |[n [confirm [rest' [Hint [Hn [-> [Hno Hrec]]]]]]]]]]]].
      * destruct (IH lines _ _ _ _ ltac:(lia) Hrec) as [said [read [-> [-> [Hp Hend]]]]].
        eexists _, (answer :: read). rewrite <- !app_assoc.
        split; [reflexivity|]. split; [reflexivity|]. split; [|exact Hend].
        rewrite !prompts_app, Hp. simpl. lia.
      * destruct (IH lines _ _ _ _ ltac:(lia) Hrec) as [said [read [-> [-> [Hp Hend]]]]].
        eexists _, (answer :: read). rewrite <- !app_assoc.
        split; [reflexivity|]. split; [reflexivity|]. split; [|exact Hend].
        rewrite !prompts_app, Hp. simpl. lia.
      * eexists _, [answer]. repeat split. discriminate.
      * eexists _, [answer]. rewrite <- app_assoc. repeat split.
      * eexists _, [answer; confirm]. rewrite <- app_assoc. repeat split. discriminate.
      * simpl in Hsize.
        destruct (IH rest' _ _ _ _ ltac:(lia) Hrec) as [said [read [-> [-> [Hp Hend]]]]].
        eexists _, (answer :: confirm :: read). rewrite <- !app_assoc.
        split; [reflexivity|]. split; [reflexivity|]. split; [|exact Hend].
        rewrite !prompts_app, Hp. simpl. lia.
Qed.

(** X16: the prompt only adds to the console and reads the input from the
    front; it asks once for every line it reads, and once more when the
    input ends before a number of days is accepted, which is the only way
    the loop ends without one; nothing is left unread then. *)
Theorem one_question_for_every_line_read (stdin : list string)
    (console : list console_event) (result : entered) (rest : list string)
    (console' : list console_event) :
  read_num_days int stdin console = (result, rest, console') ->
  exists said read,
    console' = console ++ said
    /\ stdin = read ++ rest
    /\ prompts said = (List.length read + match result with
                                          | EndOfInput => 1
                                          | NumDays _ => 0
                                          end)%nat
    /\ (result = EndOfInput -> rest = []).
Proof. exact (read_num_days_accounts (List.length stdin) _ _ _ _ _ (le_n _)). Qed.

End Prompt.

Lemma only_a_confirmed_count_gets_through_witness :
  read_num_days py_int hesitant []
  = (NumDays 120, ["7"; "8"],
     [Prompted "Enter the number of days to look back (ending at yesterday): ";
      Printed "Please enter a valid number.";
      Prompted "Enter the number of days to look back (ending at yesterday): ";
      Printed "Please enter a positive number.";
      Prompted "Enter the number of days to look back (ending at yesterday): ";
      Printed "Warning: Requesting more than 90 days may take a long time.";
      Prompted "Do you want to continue? (yes/no): ";
      Prompted "Enter the number of days to look back (ending at yesterday): ";
      Printed "Warning: Requesting more than 90 days may take a long time.";
      Prompted "Do you want to continue? (yes/no): "])
  /\ 1 <= 120
  /\ exists console',
       read_num_days py_int (["three"; "0"; "120"; "no"] ++ " 1_20 " :: "YES" :: ["7"; "8"])
         [] = (NumDays 120, ["7"; "8"], console').
Proof.
  destruct (only_a_confirmed_count_gets_through py_int) as [Honly [_ Hfirst]].
  split; [reflexivity|]. split.
  - exact (proj1 (Honly hesitant [] 120 ["7"; "8"] _ eq_refl)).
  - apply Hfirst; try reflexivity.
    apply refused_not_a_number; [reflexivity|].
    apply (refused_below_one _ _ 0); [reflexivity | lia|].
    apply (refused_unconfirmed _ _ 120); [reflexivity | lia | discriminate|].
    constructor.
Defined.

Lemma one_question_for_every_line_read_witness :
  exists said read,
    hesitant = read ++ ["7"; "8"]
    /\ prompts said = List.length read.
Proof.
  destruct (one_question_for_every_line_read py_int hesitant [] (NumDays 120) ["7"; "8"] _
              eq_refl) as [said [read [_ [Hread [Hp _]]]]].
  exists said, read. rewrite Nat.add_0_r in Hp. auto.
Defined.

(** ** Start-up *)

Lemma missing_vars_in (getenv : Startup.environ) (var : string) :
  In var (Startup.missing_vars getenv)
  <-> In var Startup.required_vars /\ (getenv var = None \/ getenv var = Some "").
Proof.
  unfold Startup.missing_vars. rewrite filter_In. unfold Startup.not_set.
  split; intros [Hin H]; (split; [exact Hin|]).
  - destruct (getenv var) as [value|]; [|now left].
    apply String.eqb_eq in H. subst value. now right.
  - destruct H as [->| ->]; reflexivity.
Qed.

Lemma all_set (getenv : Startup.environ) (var : string) :
  Startup.missing_vars getenv = [] -> In var Startup.required_vars ->
  exists value, getenv var = Some value /\ value <> "".
Proof.
  intros Hnone Hin. destruct (getenv var) as [value|] eqn:Hv.
  - exists value. split; [reflexivity|]. intros ->.
    assert (H : In var (Startup.missing_vars getenv))
      by (apply missing_vars_in; auto).
    rewrite Hnone in H. exact H.
  - assert (H : In var (Startup.missing_vars getenv))
      by (apply missing_vars_in; auto).
    rewrite Hnone in H. destruct H.
Qed.

(** X17: the script checks its environment before anything else: a variable
    counts as missing when it is unset or empty; if one of the seven is
    missing the script stops with the message that lists the missing ones in
    their fixed order, and no request is made; otherwise every subscription
    has a non-empty identifier and the one request made asks for a token at
    the tenant's address. *)
Theorem the_environment_is_checked_first (getenv : Startup.environ)
    (post : Startup.token_request -> Startup.token_outcome) :
  (forall var, In var (Startup.missing_vars getenv)
               <-> In var Startup.required_vars
                   /\ (getenv var = None \/ getenv var = Some ""))
  /\ (Startup.missing_vars getenv <> [] ->
      Startup.startup getenv post
      = (Startup.MissingVariables
           ("Missing required environment variables: "
            ++ join ", " (Startup.missing_vars getenv)), []))
  /\ (Startup.missing_vars getenv = [] ->
      (forall sub_name id, In (sub_name, id) (Startup.subscriptions getenv) ->
                           exists text, id = Some text /\ text <> "")
      /\ exists tenant outcome,
           getenv "AZURE_TENANT_ID" = Some tenant
           /\ tenant <> ""
           /\ Startup.startup getenv post
              = (outcome,
                 [Startup.mkTokenRequest
                    ("https://login.microsoftonline.com/" ++ tenant ++ "/oauth2/token")
                    (Startup.auth_data getenv)])
           /\ forall message, outcome <> Startup.MissingVariables message).
Proof.
  split; [exact (missing_vars_in getenv)|]. split.
  - intro H. unfold Startup.startup.
    destruct (Startup.missing_vars getenv); [contradiction H|]; reflexivity.
  - intro H. split.
    + intros sub_name id Hin. unfold Startup.subscriptions in Hin. simpl in Hin.
      destruct Hin as [Hin|[Hin|[Hin|[Hin|[]]]]]; injection Hin as <- <-;
        apply (all_set getenv _ H); simpl; tauto.
    + destruct (all_set getenv "AZURE_TENANT_ID" H) as [tenant [Ht Hne]];
        [simpl; tauto|].
      exists tenant. unfold Startup.startup, Startup.auth_url. rewrite H, Ht.
      cbn [Startup.format_value].
      destruct (post _) as [e|r].
      * eexists. repeat split; [exact Hne | discriminate].
      * destruct (Startup.access_token r) as [text|e];
          eexists; repeat split; try exact Hne; discriminate.
Qed.

Lemma the_environment_is_checked_first_witness :
  Startup.startup incomplete_environ (grants "token")
  = (Startup.MissingVariables
       "Missing required environment variables: AZURE_CLIENT_SECRET, SUBSCRIPTION_DEV",
     []).
Proof.
  apply (proj1 (proj2 (the_environment_is_checked_first incomplete_environ
                         (grants "token")))).
  discriminate.
Defined.

(** X18: the token is whatever the answer's body holds as [access_token],
    whatever its status: the start-up ends with a token exactly when the
    environment is complete and the body of the answer is an object with
    that member; an exception of the request, a body that is not JSON, not
    an object or without the member end it with that exception,
    [ValueError], [TypeError] or [KeyError]. *)
Theorem the_token_is_taken_from_the_body (getenv : Startup.environ)
    (post : Startup.token_request -> Startup.token_outcome) :
  Startup.missing_vars getenv = [] ->
  let rq := Startup.mkTokenRequest (Startup.auth_url getenv) (Startup.auth_data getenv) in
  (forall text,
     Startup.startup getenv post = (Startup.Token text, [rq])
     <-> exists status,
           post rq = Startup.Responded
                       (Startup.mkTokenResponse status (Startup.AccessToken text)))
  /\ (forall e, post rq = Startup.Raised e ->
                Startup.startup getenv post = (Startup.TokenError e, [rq]))
  /\ (forall status body,
        post rq = Startup.Responded (Startup.mkTokenResponse status body) ->
        Startup.startup getenv post
        = (match body with
           | Startup.NotJson => Startup.TokenError ValueError
           | Startup.NotAnObject => Startup.TokenError TypeError
           | Startup.NoAccessToken => Startup.TokenError KeyError
           | Startup.AccessToken text => Startup.Token text
           end, [rq])).
Proof.
  intros H rq. unfold Startup.startup. rewrite H. fold rq. split; [|split].
  - intro text. split.
    + destruct (post rq) as [e|[status body]]; [discriminate|].
      unfold Startup.access_token. simpl.
      destruct body; intro E; try discriminate E.
      injection E as <-. eauto.
    + intros [status ->]. reflexivity.
  - intros e ->. reflexivity.
  - intros status body ->. destruct body; reflexivity.
Qed.

Lemma the_token_is_taken_from_the_body_witness :
  Startup.startup complete_environ refuses
  = (Startup.TokenError KeyError,
     [Startup.mkTokenRequest "https://login.microsoftonline.com/tenant/oauth2/token"
        [("grant_type", Some "client_credentials"); ("client_id", Some "client");
         ("client_secret", Some "secret");
         ("resource", Some "https://management.azure.com/")]]).
Proof.
  exact (proj2 (proj2 (the_token_is_taken_from_the_body complete_environ refuses eq_refl))
           401 Startup.NoAccessToken eq_refl).
Defined.

(** ** The script *)

Lemma subscription_id_of (getenv : Startup.environ) (sub_name : string) :
  In sub_name ["main"; "prod"; "dev"; "test"] ->
  subscription_id getenv sub_name = Startup.format_value (getenv (variable_of sub_name)).
Proof.
  intro H. simpl in H. destruct H as [<-|[<-|[<-|[<-|[]]]]]; reflexivity.
Qed.

(** X19: the report is run only when the start-up has ended with a token and
    the prompt with a number of days: the environment is then complete, one
    request (for the token) came first, the number of days is at least 1,
    and the four subscriptions are asked for under the non-empty identifiers
    of the environment. *)
Theorem the_report_runs_only_when_ready (getenv : Startup.environ)
    (post : Startup.token_request -> Startup.token_outcome)
    (int : string -> option Z) (stdin : list string) (fuel : nat) (now : Z) (w : world)
    (console : list console_event) (num_days : Z)
    (result : option (res document * world)) (requests : list Startup.token_request) :
  script getenv post int stdin fuel now w = (Run console num_days result, requests) ->
  Startup.missing_vars getenv = []
  /\ (exists text, Startup.startup getenv post = (Startup.Token text, requests))
  /\ List.length requests = 1%nat
  /\ (exists rest, read_num_days int stdin [] = (NumDays num_days, rest, console))
  /\ 1 <= num_days
  /\ result = main fuel now (subscription_id getenv) num_days w
  /\ forall sub_name, In sub_name ["main"; "prod"; "dev"; "test"] ->
       exists id, getenv (variable_of sub_name) = Some id
                  /\ id <> ""
                  /\ subscription_id getenv sub_name = id.
Proof.
  unfold script. intro H.
  destruct (Startup.startup getenv post) as [s requests'] eqn:Hs.
  destruct s as [message|e|text]; try discriminate H.
  destruct (read_num_days int stdin []) as [[entered rest] console0] eqn:Hr.
  destruct entered as [n|]; [|discriminate H]. injection H as <- <- <- <-.
  assert (Hm : Startup.missing_vars getenv = []).
  { unfold Startup.startup in Hs.
    destruct (Startup.missing_vars getenv); [reflexivity | discriminate Hs]. }
  split; [exact Hm|]. split; [eauto|]. split.
  { unfold Startup.startup in Hs. rewrite Hm in Hs.
    destruct (post _) as [e|r]; [discriminate Hs|].
    destruct (Startup.access_token r); injection Hs as _ <-; reflexivity. }
  split; [eauto|]. split.
  { exact (proj1 (read_num_days_accepts int (List.length stdin) _ _ _ _ _ (le_n _) Hr)). }
  split; [reflexivity|].
  intros sub_name Hin.
  destruct (all_set getenv (variable_of sub_name) Hm) as [id [Hid Hne]].
  { simpl in Hin. destruct Hin as [<-|[<-|[<-|[<-|[]]]]]; simpl; tauto. }
  exists id. rewrite (subscription_id_of getenv sub_name Hin), Hid. auto.
Qed.

Lemma the_report_runs_only_when_ready_witness :
  exists doc w',
    script complete_environ (grants "token") py_int ["0"; "3"] 1 today
      (always three_day_response)
    = (Run [Prompted "Enter the number of days to look back (ending at yesterday): ";
            Printed "Please enter a positive number.";
            Prompted "Enter the number of days to look back (ending at yesterday): "]
           3 (Some (Ok doc, w')),
       [Startup.mkTokenRequest (Startup.auth_url complete_environ)
          (Startup.auth_data complete_environ)])
    /\ requested (trace w')
       = ["id-main"; "id-main"; "id-prod"; "id-prod";
          "id-dev"; "id-dev"; "id-test"; "id-test"]
    /\ 1 <= 3.
Proof.
  destruct (script complete_environ (grants "token") py_int ["0"; "3"] 1 today
              (always three_day_response)) as [r requests] eqn:Hrun.
  vm_compute in Hrun. injection Hrun as <- <-.
  do 2 eexists. split; [reflexivity|]. split; [reflexivity|].
  refine (proj1 (proj2 (proj2 (proj2 (proj2
            (the_report_runs_only_when_ready complete_environ (grants "token") py_int
               ["0"; "3"] 1 today (always three_day_response) _ 3 _ _ _)))))).
  vm_compute. reflexivity.
Defined.

(** ** The greeting *)

Lemma window_from_start (now num_days : Z) :
  window now num_days
  = map (fun i => now - 1 - (num_days - 1) + Z.of_nat i) (seq 0 (Z.to_nat num_days)).
Proof.
  unfold window, day_offsets, day_of. rewrite map_map. apply map_ext.
  intro i. lia.
Qed.

(** X20: the greeting names, in order, the N days before the day on which
    the document is written, each by its weekday and its date; the clock is
    read once for it.  The rows of a subscription's tables carry, in the
    same order, the dates of the days its loop counted back from the day it
    read in each pass.  So the greeting names the days of the rows when the
    loop ran on the day the document is written, and the N days before
    another day otherwise.  The weekday is that of the calendar (2026-11-03
    is a Tuesday) and returns every seven days. *)
Theorem the_greeting_names_the_days_of_the_tables :
  (forall now num_days,
     greeting now num_days
     = ("Hi Team," ++ newline ++ newline
        ++ "Please find below the Azure cost summary for "
        ++ join ", " (map named (window now num_days))
        ++ " for all subscriptions, along with percentage changes compared to the previous day."
        ++ newline)%string)
  /\ (forall today subscription_name p num_days r,
        Clock.build_report today subscription_name p num_days = Ok r ->
        date_strings r
        = map (fun i => date_str (today i - (i + 1))) (day_offsets num_days)
        /\ List.length (cost_table r) = Z.to_nat num_days)
  /\ (forall today loop_day subscription_name p num_days r,
        (forall i, today i = loop_day) ->
        Clock.build_report today subscription_name p num_days = Ok r ->
        date_strings r = map date_str (window loop_day num_days))
  /\ (forall d, weekday_name (d + 7) = weekday_name d)
  /\ named today = "Tuesday (11/03)".
Proof.
  split; [|split; [|split; [|split]]].
  - intros now num_days. unfold greeting. cbv zeta.
    rewrite window_from_start, map_map. reflexivity.
  - intros today subscription_name p num_days r H.
    unfold Clock.build_report in H.
    bind_inv H d Hd.
    bind_inv H all_costs Hall.
    bind_inv H ct Hct.
    bind_inv H pt Hpt.
    injection H as <-. simpl. split; [apply map_map|].
    destruct (cost_rows_ok _ _ _ _ _ Hct) as [Hlen _]. rewrite Hlen.
    apply map_res_ok in Hall.
    rewrite (Forall2_length_eq _ _ _ Hall), length_map. apply day_offsets_length.
  - intros today loop_day subscription_name p num_days r Hday H.
    rewrite (build_report_one_day _ _ _ _ _ Hday) in H.
    destruct (build_report_ok _ _ _ _ _ H) as [d [all_costs [_ [_ [_ [_ [_ Hd]]]]]]].
    exact Hd.
  - intro d. unfold weekday_name.
    replace ((d + 7 + 6) mod 7) with ((d + 6) mod 7); [reflexivity|].
    Z.div_mod_to_equations. lia.
  - reflexivity.
Qed.

Lemma the_greeting_names_the_days_of_the_tables_witness :
  greeting today 2
  = ("Hi Team," ++ newline ++ newline
     ++ "Please find below the Azure cost summary for Sunday (11/01), Monday (11/02)"
     ++ " for all subscriptions, along with percentage changes compared to the previous day."
     ++ newline)%string
  /\ (forall r, Clock.build_report (fun _ => today) "prod" three_day_response 2 = Ok r ->
                date_strings r = ["11/01"; "11/02"])
  /\ (forall r, Clock.build_report (fun _ => today - 1) "prod" three_day_response 2 = Ok r ->
                date_strings r = ["10/31"; "11/01"]).
Proof.
  destruct the_greeting_names_the_days_of_the_tables as [Hg [_ [Hrows _]]].
  split; [rewrite (Hg today 2); reflexivity|]. split.
  - intros r H. rewrite (Hrows _ today _ _ _ _ (fun _ => eq_refl) H). reflexivity.
  - intros r H. rewrite (Hrows _ (today - 1) _ _ _ _ (fun _ => eq_refl) H). reflexivity.
Defined.

(** ** The order of the run *)

Lemma marks_app (t t' : list event) : marks (t ++ t') = marks t ++ marks t'.
Proof. apply filter_app. Qed.

Lemma range_try_marks (subscription_id : string) (start_date end_date : Z)
    (w w1 : world) (a : res (attempt (option properties))) :
  range_try subscription_id start_date end_date w = (a, w1) ->
  marks (trace w1) = marks (trace w).
Proof.
  unfold range_try, requests_post, sleep, print, emit.
  destruct (server w (issued w)) as [e|r].
  - intro H. injection H as <- <-. simpl. rewrite marks_app. simpl. apply app_nil_r.
  - destruct (status_code r =? 429).
    + destruct (retry_after_or r 60) as [secs|e].
      * destruct (secs <? 0); [|destruct (max_sleep <? secs)];
          intro H; injection H as <- <-; simpl;
          rewrite !marks_app; simpl; now rewrite !app_nil_r.
      * intro H. injection H as <- <-. simpl. rewrite marks_app. simpl. apply app_nil_r.
    + destruct (raise_for_status r); [destruct (json_properties r)|];
        intro H; injection H as <- <-; simpl; rewrite marks_app; simpl; apply app_nil_r.
Qed.

Lemma fetch_marks (fuel : nat) (subscription_id : string) (start_date end_date : Z) :
  forall w w' v,
    get_cost_data_range fuel subscription_id start_date end_date w = Some (v, w') ->
    marks (trace w') = marks (trace w).
Proof.
  induction fuel as [|fuel IH]; intros w w' v H; simpl in H;
    destruct (range_try subscription_id start_date end_date w) as [a w1] eqn:E;
    apply range_try_marks in E; destruct a as [[|p]|e];
    try (rewrite (IH _ _ _ H); exact E);
    injection H as <- <-; try exact E;
    unfold print, emit; simpl; rewrite marks_app, E; simpl; apply app_nil_r.
Qed.

Lemma generate_table_marks (fuel : nat) (now : Z)
    (subscription_id subscription_name : string) (num_days : Z) (w w' : world)
    (result : res unit) :
  generate_table_for_subscription fuel now subscription_id subscription_name num_days w
  = Some (result, w') ->
  marks (trace w') = marks (trace w) ++ [EvPrint (Banner subscription_name)].
Proof.
  unfold generate_table_for_subscription.
  destruct (get_cost_data_range _ _ _ _ _) as [[v w1]|] eqn:Hf; [|discriminate].
  apply fetch_marks in Hf. unfold print, emit in Hf. simpl in Hf.
  rewrite !marks_app in Hf. simpl in Hf. rewrite app_nil_r in Hf.
  destruct v as [p|].
  - destruct (dict_is_empty p).
    + intro H. injection H as <- <-. unfold print, emit. simpl.
      rewrite marks_app, Hf. simpl. apply app_nil_r.
    + destruct (console_costs now p num_days) as [[all_costs table_data]|e].
      * destruct (console_percent now all_costs) as [pt|e];
          intro H; injection H as <- <-; unfold print, emit; simpl;
          rewrite !marks_app, Hf; simpl; now rewrite !app_nil_r.
      * intro H. injection H as <- <-. exact Hf.
  - intro H. injection H as <- <-. unfold print, emit. simpl.
    rewrite marks_app, Hf. simpl. apply app_nil_r.
Qed.

Lemma generate_data_marks (fuel : nat) (now : Z)
    (subscription_id subscription_name : string) (num_days : Z) (w w' : world)
    (result : res generated) :
  generate_data_for_subscription fuel now subscription_id subscription_name num_days w
  = Some (result, w') ->
  marks (trace w') = marks (trace w).
Proof.
  unfold generate_data_for_subscription.
  destruct (get_cost_data_range _ _ _ _ _) as [[v w1]|] eqn:Hf; [|discriminate].
  apply fetch_marks in Hf. unfold print, emit in Hf. simpl in Hf.
  rewrite !marks_app in Hf. simpl in Hf. rewrite app_nil_r in Hf.
  destruct v as [p|].
  - destruct (dict_is_empty p).
    + intro H. injection H as <- <-. unfold print, emit. simpl.
      rewrite marks_app, Hf. simpl. apply app_nil_r.
    + destruct (build_report now subscription_name p num_days);
        intro H; injection H as <- <-; exact Hf.
  - intro H. injection H as <- <-. unfold print, emit. simpl.
    rewrite marks_app, Hf. simpl. apply app_nil_r.
Qed.

Lemma process_subscription_marks (fuel : nat) (now : Z) (subscriptions : string -> string)
    (num_days idx : Z) (sub_name : string) (all_data : all_data_dict) (w w' : world)
    (result : res all_data_dict) :
  process_subscription fuel now subscriptions num_days idx sub_name all_data w
  = Some (result, w') ->
  marks (trace w')
  = marks (trace w)
    ++ EvPrint (Banner (upper sub_name))
       :: match result with
          | Ok _ => if idx <? 3 then [EvPrint Waiting] else []
          | Raise _ => []
          end.
Proof.
  unfold process_subscription.
  destruct (generate_table_for_subscription _ _ _ _ _ _) as [[r1 w1]|] eqn:Ht;
    [|discriminate].
  apply generate_table_marks in Ht.
  destruct r1 as [[]|e]; [|intro H; injection H as <- <-; exact Ht].
  destruct (generate_data_for_subscription _ _ _ _ _ _) as [[r2 w2]|] eqn:Hd;
    [|discriminate].
  apply generate_data_marks in Hd. rewrite Ht in Hd.
  destruct r2 as [data|e]; [|intro H; injection H as <- <-; exact Hd].
  destruct (idx <? 3).
  - unfold sleep, print, emit. simpl. intro H. injection H as <- <-. simpl.
    rewrite !marks_app, Hd. simpl. rewrite app_nil_r, <- app_assoc. reflexivity.
  - intro H. injection H as <- <-. exact Hd.
Qed.

(** X22: whatever the API answers, the main block visits the subscriptions
    in the order main, prod, dev, test, with a pause after each but the
    last; a failed fetch does not stop it.  A run that does not reach the
    document was stopped by an exception during one subscription, right
    after that subscription's banner or its fetches. *)
Theorem subscriptions_are_visited_in_order (fuel : nat) (now : Z)
    (subscriptions : string -> string) (num_days : Z) (w w' : world)
    (result : res document) :
  main fuel now subscriptions num_days w = Some (result, w') ->
  exists visited rest,
    marks (trace w') = marks (trace w) ++ visited
    /\ full_round = visited ++ rest
    /\ (forall doc, result = Ok doc -> rest = [])
    /\ (rest = []
        \/ exists before sub_name e,
             visited = before ++ [EvPrint (Banner sub_name)] /\ result = Raise e).
Proof.
  unfold main. cbn [process_subscriptions].
  set (w0 := print (ReportTitle num_days) w).
  assert (H0 : marks (trace w0) = marks (trace w)).
  { unfold w0, print, emit. simpl. rewrite marks_app. simpl. apply app_nil_r. }
  destruct (process_subscription fuel now subscriptions num_days 0 "main" [] w0)
    as [[r1 w1]|] eqn:H1; [|discriminate].
  apply process_subscription_marks in H1. rewrite H0 in H1.
  destruct r1 as [d1|e1].
  2:{ intro H. injection H as <- <-. exists [EvPrint (Banner "MAIN")]. eexists.
      split; [exact H1|]. split; [reflexivity|]. split; [discriminate|].
      right. exists [], "MAIN", e1. auto. }
  destruct (process_subscription fuel now subscriptions num_days (0 + 1) "prod" d1 w1)
    as [[r2 w2]|] eqn:H2; [|discriminate].
  apply process_subscription_marks in H2. rewrite H1 in H2.
  destruct r2 as [d2|e2].
  2:{ intro H. injection H as <- <-.
      exists [EvPrint (Banner "MAIN"); EvPrint Waiting; EvPrint (Banner "PROD")]. eexists.
      split; [rewrite H2, <- app_assoc; reflexivity|]. split; [reflexivity|].
      split; [discriminate|]. right.
      exists [EvPrint (Banner "MAIN"); EvPrint Waiting], "PROD", e2. auto. }
  destruct (process_subscription fuel now subscriptions num_days (0 + 1 + 1) "dev" d2 w2)
    as [[r3 w3]|] eqn:H3; [|discriminate].
  apply process_subscription_marks in H3. rewrite H2 in H3.
  destruct r3 as [d3|e3].
  2:{ intro H. injection H as <- <-.
      exists [EvPrint (Banner "MAIN"); EvPrint Waiting; EvPrint (Banner "PROD");
              EvPrint Waiting; EvPrint (Banner "DEV")]. eexists.
      split; [rewrite H3, <- !app_assoc; reflexivity|]. split; [reflexivity|].
      split; [discriminate|]. right.
      exists [EvPrint (Banner "MAIN"); EvPrint Waiting; EvPrint (Banner "PROD");
              EvPrint Waiting], "DEV", e3. auto. }
  destruct (process_subscription fuel now subscriptions num_days (0 + 1 + 1 + 1) "test"
              d3 w3) as [[r4 w4]|] eqn:H4; [|discriminate].
  apply process_subscription_marks in H4. rewrite H3 in H4.
  destruct r4 as [d4|e4].
  2:{ intro H. injection H as <- <-.
      exists [EvPrint (Banner "MAIN"); EvPrint Waiting; EvPrint (Banner "PROD");
              EvPrint Waiting; EvPrint (Banner "DEV"); EvPrint Waiting;
              EvPrint (Banner "TEST")]. eexists.
      split; [rewrite H4, <- !app_assoc; reflexivity|]. split; [reflexivity|].
      split; [discriminate|]. right.
      exists [EvPrint (Banner "MAIN"); EvPrint Waiting; EvPrint (Banner "PROD");
              EvPrint Waiting; EvPrint (Banner "DEV"); EvPrint Waiting], "TEST", e4.
      auto. }
  unfold create_word_document.
  destruct (add_subscriptions d4 _ _) as [doc|e]; intro H; injection H as <- <-;
    exists full_round, []; unfold print, emit; simpl; rewrite !marks_app, H4; simpl;
    rewrite <- !app_assoc; simpl; repeat split; auto.
Qed.

Lemma subscriptions_are_visited_in_order_witness :
  exists w',
    main 1 today subscriptions 3 prod_down = Some (Raise TypeError, w')
    /\ marks (trace w') = full_round.
Proof.
  destruct (main 1 today subscriptions 3 prod_down) as [[result w']|] eqn:Hmain;
    [|vm_compute in Hmain; discriminate Hmain].
  destruct (subscriptions_are_visited_in_order 1 today subscriptions 3 prod_down w'
              result Hmain) as [visited [rest [Hv [Hfull [_ Hrest]]]]].
  assert (Hr : result = Raise TypeError /\ marks (trace w') = full_round).
  { vm_compute in Hmain. injection Hmain as <- <-. split; reflexivity. }
  destruct Hr as [-> Hm]. exists w'. auto.
Defined.
